(** * Machine-Guard-AI: calibration-to-monitoring lifecycle and alert gate

    Shallow embedding of
      - [ML Model and ML-Backend/monitor.py]           (classify_risk),
      - [ML Model and ML-Backend/firebase_monitor.py]  (classify_risk, map_health),
      - [ML Model and ML-Backend/machine_guard_core.py]
          (DeviceManager, MachineGuardSystem.run).

    Numbers.  Health percentages, raw outlier scores and clock readings are
    Python floats in the source.  They are modelled as rationals [Q]: order
    comparisons and the values taken at the interpolation knots are exact,
    the arithmetic inside an interpolation segment is the ideal one (no
    rounding, no NaN, no infinities). *)

From Stdlib Require Import QArith Qabs Qround Lqa Lia Bool List String.
From Stdlib Require Import Sorted Permutation.
From stdpp Require Import gmap strings.
Import ListNotations.

Local Open Scope Q_scope.

(** ** Comparisons on scores *)

Definition Qlt_bool (x y : Q) : bool := negb (Qle_bool y x).

(** ** Risk categories *)

Inductive Risk := NORMAL | WARNING | CRITICAL.

#[global] Instance Risk_eq_dec : EqDecision Risk.
Proof. solve_decision. Defined.

(** [monitor.py], [classify_risk] (the same function is repeated in
    [firebase_monitor.py]):
<<
    if health_score > 80:           return "NORMAL"
    elif 50 < health_score <= 80:   return "WARNING"
    else:                           return "CRITICAL"
>> *)
Definition classify_risk (health_score : Q) : Risk :=
  if Qlt_bool 80 health_score then NORMAL
  else if Qlt_bool 50 health_score && Qle_bool health_score 80 then WARNING
  else CRITICAL.

(** [machine_guard_core.py], [DeviceManager.handle_monitoring], step 3
    "Risk Logic":
<<
    risk = "NORMAL"
    if health < 30: risk = "CRITICAL"
    elif health < 60: risk = "WARNING"
>> *)
Definition risk_logic (health : Q) : Risk :=
  if Qlt_bool health 30 then CRITICAL
  else if Qlt_bool health 60 then WARNING
  else NORMAL.

(** ** numpy.interp

    [np.interp(x, xp, fp)] is library code; the model follows numpy's
    [arr_interp] and [binary_search_with_guess] (compiled_base.c) for a
    scalar [x] that is not NaN, default [left]/[right], and a short knot
    array (the three knots of [map_health]), where the search is the
    linear scan.  The knot array is not checked to be increasing. *)
Module Numpy.

(** [for (i = 1; i < len && key >= arr[i]; ++i);]  -- [arr] is the part
    of the array from index [i] on; the result is the final [i]. *)
Fixpoint linear_scan (key : Q) (arr : list Q) (i : Z) : Z :=
  match arr with
  | [] => i
  | a :: rest => if Qle_bool a key then linear_scan key rest (i + 1)%Z else i
  end.

(** Returns [len] when the key is above the last knot, [-1] when it is
    below the first one, else [i - 1] for the [i] the scan stops at. *)
Definition binary_search_with_guess (key : Q) (arr : list Q) : Z :=
  if Qlt_bool (List.last arr 0) key then Z.of_nat (length arr)
  else if Qlt_bool key (List.hd 0 arr) then (-1)%Z
  else (linear_scan key (List.tl arr) 1 - 1)%Z.

Definition at_index (l : list Q) (j : Z) : Q := List.nth (Z.to_nat j) l 0.

Definition interp (x : Q) (xp fp : list Q) : Q :=
  let lenxp := Z.of_nat (length xp) in
  let lval := List.hd 0 fp in
  let rval := List.last fp 0 in
  let j := binary_search_with_guess x xp in
  if (j =? -1)%Z then lval
  else if (j =? lenxp)%Z then rval
  else if (j =? lenxp - 1)%Z then at_index fp j
  else if Qeq_bool (at_index xp j) x then at_index fp j
  else
    let slope := (at_index fp (j + 1) - at_index fp j)
                 / (at_index xp (j + 1) - at_index xp j) in
    slope * (x - at_index xp j) + at_index fp j.

End Numpy.

(** ** Health mapping

    [machine_guard_core.py], [DeviceManager.map_health] (and the module
    level [map_health] of [firebase_monitor.py]):
<<
    xp = [self.score_mapping["min_anom"], 0.0, self.score_mapping["max_nice"]]
    fp = [0, 50, 100]
    return np.interp(raw_score, xp, fp)
>>
    [min_anom] is the low anchor and [max_nice] the high anchor. *)
Definition map_health_anchors (min_anom max_nice raw_score : Q) : Q :=
  let xp := [min_anom; 0; max_nice] in
  let fp := [0; 50; 100] in
  Numpy.interp raw_score xp fp.


Example map_health_ex1 : map_health_anchors (-(1#5)) (1#10) (-(1#10)) == 25.
Proof. reflexivity. Qed.
Example map_health_ex2 : map_health_anchors (-(1#5)) (1#10) (1#20) == 75.
Proof. reflexivity. Qed.
Example map_health_ex3 : map_health_anchors (1#10) (-(1#10)) (1#20) = 100.
Proof. reflexivity. Qed.

(** ** Data model of [machine_guard_core.py] *)

(** [FEATURES = ["temperature", "humidity", "gas", "vibration", "current"]] *)
Inductive Feature := temperature | humidity | gas | vibration | current.

Definition FEATURES : list Feature :=
  [temperature; humidity; gas; vibration; current].

(** A row over [FEATURES]: the [mapped_reading] dictionary of
    [process_reading], a line of the training CSV, a per-feature mean. *)
Record Row := {
  r_temperature : Q;
  r_humidity : Q;
  r_gas : Q;
  r_vibration : Q;
  r_current : Q
}.

Definition get (f : Feature) (r : Row) : Q :=
  match f with
  | temperature => r_temperature r
  | humidity => r_humidity r
  | gas => r_gas r
  | vibration => r_vibration r
  | current => r_current r
  end.

(** The inbound Firebase record.  Every field is optional ([dict.get]);
    the timestamp is a string (ISO-8601 or a string-encoded epoch). *)
Record Reading := {
  in_temperature : option Q;
  in_humidity : option Q;
  in_gas : option Q;
  in_vibration : option Q;
  in_power : option Q;
  in_timestamp : option string
}.

(** A value of the polled [data_tree]: [isinstance(reading, dict)] or not. *)
Inductive TreeValue := NotADict | Dict (reading : Reading).

(** The fitted scaler and forest are opaque library objects; with fixed
    hyper-parameters and [random_state=42] they are determined by the
    frame they were fitted on, which is what the model records. *)
Inductive Scaler := StandardScaler_fit (X : list Row).
Inductive Model := IsolationForest_fit (X : list Row).

(** The [stats] dictionary written to [<id>_calibration.json]. *)
Record Stats := {
  min_anom : Q;
  max_nice : Q;
  baseline_mean : Row;
  baseline_std : Row
}.

(** A file of the models directory: missing, present but not loadable,
    or present with a content that loads. *)
Inductive File (A : Type) := Absent | Corrupt | Good (content : A).
Arguments Absent {A}.
Arguments Corrupt {A}.
Arguments Good {A} content.

(** [os.path.exists] *)
Definition exists_ {A} (f : File A) : bool :=
  match f with Absent => false | _ => true end.

(** The training CSV.  [start_calibration] writes the header line;
    [append_training_data] appends one line without a header (and
    creates the file, headerless, when it is missing). *)
Record Csv := { header : bool; lines : list Row }.

(** What [pd.read_csv] returns: with the header line the columns are
    [FEATURES]; without it the first data line is taken for the header,
    so the columns are not [FEATURES] and that line is not a row. *)
Record DataFrame := { columns_ok : bool; rows : list Row }.

(** The files of one device in [MODELS_DIR]; the state file holds a JSON
    object, [Some s] when it has the key ["state"]. *)
Record DeviceFiles := {
  state_file : File (option string);
  training_file : File Csv;
  model_file : File Model;
  scaler_file : File Scaler;
  calibration_file : File Stats
}.

Definition no_files : DeviceFiles :=
  {| state_file := Absent; training_file := Absent; model_file := Absent;
     scaler_file := Absent; calibration_file := Absent |}.

Definition set_state_file v (d : DeviceFiles) : DeviceFiles :=
  {| state_file := v; training_file := training_file d;
     model_file := model_file d; scaler_file := scaler_file d;
     calibration_file := calibration_file d |}.
Definition set_training_file v (d : DeviceFiles) : DeviceFiles :=
  {| state_file := state_file d; training_file := v;
     model_file := model_file d; scaler_file := scaler_file d;
     calibration_file := calibration_file d |}.
Definition set_model_file v (d : DeviceFiles) : DeviceFiles :=
  {| state_file := state_file d; training_file := training_file d;
     model_file := v; scaler_file := scaler_file d;
     calibration_file := calibration_file d |}.
Definition set_scaler_file v (d : DeviceFiles) : DeviceFiles :=
  {| state_file := state_file d; training_file := training_file d;
     model_file := model_file d; scaler_file := v;
     calibration_file := calibration_file d |}.
Definition set_calibration_file v (d : DeviceFiles) : DeviceFiles :=
  {| state_file := state_file d; training_file := training_file d;
     model_file := model_file d; scaler_file := scaler_file d;
     calibration_file := v |}.

(** The attributes of a [DeviceManager] ([mqtt_client] and the file
    names, which are functions of [device_id], apart).  The two
    dictionaries that start as [{}] are [None] until loaded. *)
Record DeviceManager := {
  device_id : string;
  state : string;
  calibration_start_time : option Q;
  model : option Model;
  scaler : option Scaler;
  baseline_stats : option Stats;
  score_mapping : option Stats;
  last_processed_ts : option string;
  sensor_buffer : list Row;      (* deque(maxlen=1) *)
  health_history : list Q;       (* deque(maxlen=3) *)
  last_risk : Risk
}.

Definition set_state v (m : DeviceManager) : DeviceManager :=
  {| device_id := device_id m; state := v;
     calibration_start_time := calibration_start_time m;
     model := model m; scaler := scaler m;
     baseline_stats := baseline_stats m; score_mapping := score_mapping m;
     last_processed_ts := last_processed_ts m;
     sensor_buffer := sensor_buffer m; health_history := health_history m;
     last_risk := last_risk m |}.
Definition set_calibration_start_time v (m : DeviceManager) : DeviceManager :=
  {| device_id := device_id m; state := state m;
     calibration_start_time := v;
     model := model m; scaler := scaler m;
     baseline_stats := baseline_stats m; score_mapping := score_mapping m;
     last_processed_ts := last_processed_ts m;
     sensor_buffer := sensor_buffer m; health_history := health_history m;
     last_risk := last_risk m |}.
Definition set_model v (m : DeviceManager) : DeviceManager :=
  {| device_id := device_id m; state := state m;
     calibration_start_time := calibration_start_time m;
     model := v; scaler := scaler m;
     baseline_stats := baseline_stats m; score_mapping := score_mapping m;
     last_processed_ts := last_processed_ts m;
     sensor_buffer := sensor_buffer m; health_history := health_history m;
     last_risk := last_risk m |}.
Definition set_scaler v (m : DeviceManager) : DeviceManager :=
  {| device_id := device_id m; state := state m;
     calibration_start_time := calibration_start_time m;
     model := model m; scaler := v;
     baseline_stats := baseline_stats m; score_mapping := score_mapping m;
     last_processed_ts := last_processed_ts m;
     sensor_buffer := sensor_buffer m; health_history := health_history m;
     last_risk := last_risk m |}.
Definition set_stats v (m : DeviceManager) : DeviceManager :=
  {| device_id := device_id m; state := state m;
     calibration_start_time := calibration_start_time m;
     model := model m; scaler := scaler m;
     baseline_stats := v; score_mapping := v;
     last_processed_ts := last_processed_ts m;
     sensor_buffer := sensor_buffer m; health_history := health_history m;
     last_risk := last_risk m |}.
Definition set_last_processed_ts v (m : DeviceManager) : DeviceManager :=
  {| device_id := device_id m; state := state m;
     calibration_start_time := calibration_start_time m;
     model := model m; scaler := scaler m;
     baseline_stats := baseline_stats m; score_mapping := score_mapping m;
     last_processed_ts := v;
     sensor_buffer := sensor_buffer m; health_history := health_history m;
     last_risk := last_risk m |}.
Definition set_sensor_buffer v (m : DeviceManager) : DeviceManager :=
  {| device_id := device_id m; state := state m;
     calibration_start_time := calibration_start_time m;
     model := model m; scaler := scaler m;
     baseline_stats := baseline_stats m; score_mapping := score_mapping m;
     last_processed_ts := last_processed_ts m;
     sensor_buffer := v; health_history := health_history m;
     last_risk := last_risk m |}.
Definition set_health_history v (m : DeviceManager) : DeviceManager :=
  {| device_id := device_id m; state := state m;
     calibration_start_time := calibration_start_time m;
     model := model m; scaler := scaler m;
     baseline_stats := baseline_stats m; score_mapping := score_mapping m;
     last_processed_ts := last_processed_ts m;
     sensor_buffer := sensor_buffer m; health_history := v;
     last_risk := last_risk m |}.
Definition set_last_risk v (m : DeviceManager) : DeviceManager :=
  {| device_id := device_id m; state := state m;
     calibration_start_time := calibration_start_time m;
     model := model m; scaler := scaler m;
     baseline_stats := baseline_stats m; score_mapping := score_mapping m;
     last_processed_ts := last_processed_ts m;
     sensor_buffer := sensor_buffer m; health_history := health_history m;
     last_risk := v |}.

(** [collections.deque(maxlen=n).append(x)]: the oldest entries fall off. *)
Definition deque_append {A} (maxlen : nat) (d : list A) (x : A) : list A :=
  let d' := (d ++ [x])%list in
  List.skipn (length d' - maxlen) d'.

(** The outbound MQTT payload.  [primary_issue] is ["NONE"] ([None]) or
    the contributors that the source joins with [" | "], kept here as
    (feature, deviation) pairs before formatting; [sensors] maps a
    feature to (value, deviation). *)
Record Payload := {
  p_device_id : string;
  p_health : Q;
  p_risk : Risk;
  p_primary_issue : option (list (Feature * Q));
  p_sensors : list (Feature * (Q * Q));
  p_timestamp : Q
}.

(** What the source prints, one constructor per message. *)
Inductive Message :=
| LoadedState (s : string)
| FoundExistingArtifacts
| InitialStateNew
| StateChangedTo (s : string)
| StartingCalibration
| CalibrationComplete (count : nat) (elapsed : Q)
| Calibrating (count : nat)
| CalibrationError
| TrainingSuccessful
| TrainingFailed
| ArtifactsLoaded
| ArtifactLoadError
| SystemHealthy (health : Q)
| ActionRequired (risk : Risk) (health : Q) (contributors : list (Feature * Q))
| MonitoringError
| NewDeviceDetected.

(** ** Methods as state-and-exception computations

    A method runs on its [self], the device's files, the console and the
    MQTT client's outbox.  It returns a value or raises; what it had
    changed before raising stays changed, as in Python. *)
Record Env := {
  self : DeviceManager;
  files : DeviceFiles;
  console : list (string * Message);
  outbox : list (string * Payload)
}.

Inductive Outcome (A : Type) := Returned (a : A) | Raised.
Arguments Returned {A} a.
Arguments Raised {A}.

Definition M (A : Type) : Type := Env -> Outcome A * Env.

Definition ret {A} (a : A) : M A := fun e => (Returned a, e).
Definition raise {A} : M A := fun e => (Raised, e).
Definition bind {A B} (c : M A) (k : A -> M B) : M B :=
  fun e => match c e with
           | (Returned a, e') => k a e'
           | (Raised, e') => (Raised, e')
           end.
(** [try: body except Exception: handler] *)
Definition try_except {A} (body handler : M A) : M A :=
  fun e => match body e with
           | (Returned a, e') => (Returned a, e')
           | (Raised, e') => handler e'
           end.

Declare Scope m_scope.
Delimit Scope m_scope with m.
Notation "x <- c ;; k" := (bind c (fun x => k))
  (at level 100, c at next level, right associativity) : m_scope.
Notation "c ;; k" := (bind c (fun _ => k))
  (at level 100, right associativity) : m_scope.

Definition get_self : M DeviceManager := fun e => (Returned (self e), e).
Definition get_files : M DeviceFiles := fun e => (Returned (files e), e).
Definition update_self (f : DeviceManager -> DeviceManager) : M unit :=
  fun e => (Returned tt,
            {| self := f (self e); files := files e;
               console := console e; outbox := outbox e |}).
Definition update_files (f : DeviceFiles -> DeviceFiles) : M unit :=
  fun e => (Returned tt,
            {| self := self e; files := f (files e);
               console := console e; outbox := outbox e |}).
Definition print (msg : Message) : M unit :=
  fun e => (Returned tt,
            {| self := self e; files := files e;
               console := (console e ++ [(device_id (self e), msg)])%list;
               outbox := outbox e |}).
(** [self.mqtt_client.publish(topic, json.dumps(payload))]; the topic is
    [machine_guard/<id>/status], recorded by its device id. *)
Definition publish (topic : string) (payload : Payload) : M unit :=
  fun e => (Returned tt,
            {| self := self e; files := files e; console := console e;
               outbox := (outbox e ++ [(topic, payload)])%list |}).
(** Loading a file raises unless it is present and loadable. *)
Definition load {A} (f : File A) : M A :=
  match f with Good a => ret a | _ => raise end.
(** Reading a key of a dictionary that may still be [{}]. *)
Definition lookup_key {A} (o : option A) : M A :=
  match o with Some a => ret a | None => raise end.

(** ** Pure parts of [handle_monitoring] *)

(** Step 6, "MQTT Logic":
<<
    is_persistent_crit = (len(self.health_history) == 3
                          and all(h < 50 for h in self.health_history))
>> *)
Definition is_persistent_crit (health_history : list Q) : bool :=
  (length health_history =? 3)%nat
  && forallb (fun h => Qlt_bool h 50) health_history.

(** <<
    should_publish_mqtt = False
    if risk == "CRITICAL" and is_persistent_crit:              should_publish_mqtt = True
    elif risk == "WARNING" and self.last_risk != "WARNING":    should_publish_mqtt = True
    elif risk == "NORMAL" and self.last_risk != "NORMAL":      should_publish_mqtt = True
>> *)
Definition should_publish_mqtt
    (risk last_risk : Risk) (health_history : list Q) : bool :=
  if bool_decide (risk = CRITICAL) && is_persistent_crit health_history then true
  else if bool_decide (risk = WARNING) && negb (bool_decide (last_risk = WARNING)) then true
  else if bool_decide (risk = NORMAL) && negb (bool_decide (last_risk = NORMAL)) then true
  else false.

(** [sorted(contributions.items(), key=lambda item: item[1], reverse=True)]:
    a stable sort, largest deviation first; equal deviations keep their
    order. *)
Fixpoint insert_desc (x : Feature * Q) (l : list (Feature * Q)) : list (Feature * Q) :=
  match l with
  | [] => [x]
  | y :: ys => if Qlt_bool (snd x) (snd y) then y :: insert_desc x ys
               else x :: y :: ys
  end.

Definition sorted_desc (l : list (Feature * Q)) : list (Feature * Q) :=
  List.fold_right insert_desc [] l.

(** The contributors of an alert: deviations above 2.0, or the top factor
    when there is none. *)
Definition contributors_of (top_factors : list (Feature * Q)) : list (Feature * Q) :=
  let contributors := List.filter (fun fd => Qlt_bool 2 (snd fd)) top_factors in
  match contributors, top_factors with
  | [], top :: _ => [top]
  | _, _ => contributors
  end.

(** The body of [analyze_sensor_contribution] once the baseline is at
    hand: absolute z-scores per feature, a zero standard deviation being
    replaced by 1e-6, sorted by highest deviation. *)
Definition sensor_contributions (stats : Stats) (sample : Row) : list (Feature * Q) :=
  let means := baseline_mean stats in
  let stds f := let s := get f (baseline_std stats) in
                if Qeq_bool s 0 then 1 # 1000000 else s in
  let contributions :=
    List.map (fun f => (f, Qabs ((get f sample - get f means) / stds f)))
             FEATURES in
  sorted_desc contributions.

(** [generate_alert] *)
Definition generate_alert (risk : Risk) (health : Q)
    (top_factors : list (Feature * Q)) : Message :=
  if bool_decide (risk = NORMAL) then SystemHealthy health
  else ActionRequired risk health (contributors_of top_factors).

(** [df.mean()] over the rows of a frame, feature by feature. *)
Definition column_mean (f : Feature) (rows : list Row) : Q :=
  List.fold_right (fun r acc => get f r + acc) 0 rows
  / inject_Z (Z.of_nat (length rows)).

Definition frame_mean (rows : list Row) : Row :=
  {| r_temperature := column_mean temperature rows;
     r_humidity := column_mean humidity rows;
     r_gas := column_mean gas rows;
     r_vibration := column_mean vibration rows;
     r_current := column_mean current rows |}.

Definition CALIBRATION_SAMPLES : nat := 100.
Definition MAX_CALIBRATION_TIME : Q := 300.

(** Where the body of [train_model] can raise.  Which step fails, if any,
    depends on the data and on the environment; it is an input of the
    model.  A failed dump either could not open its file (the file is as
    before) or broke off while writing (the file is left unloadable). *)
Inductive IOFault := OpenFails | WriteFails.
Inductive TrainFault :=
| ScalingRaises
| ScalerDumpRaises (io : IOFault)
| FitRaises
| ModelDumpRaises (io : IOFault)
| StatsRaise
| StatsWriteRaises (io : IOFault).

#[global] Instance IOFault_eq_dec : EqDecision IOFault.
Proof. solve_decision. Defined.
#[global] Instance TrainFault_eq_dec : EqDecision TrainFault.
Proof. solve_decision. Defined.

Definition dump {A} (setter : File A -> DeviceFiles -> DeviceFiles)
    (io : option IOFault) (v : A) : M unit :=
  match io with
  | None => update_files (setter (Good v))
  | Some OpenFails => raise
  | Some WriteFails => (update_files (setter Corrupt) ;; raise)%m
  end.

Definition raises_if (b : bool) : M unit := if b then raise else ret tt.

Section Methods.

(** The library calls the model does not look into:
    - [decision_function sc mdl row] is
      [mdl.decision_function(sc.transform(row[FEATURES]))[0]],
      [None] when it raises;
    - [score_percentiles X] is the pair of the 1st and 99th percentile
      of the fitted forest's scores over its training frame [X];
    - [frame_std X] is [df[FEATURES].std()];
    - [round_ x n] is [round(x, n)]. *)
Variable decision_function : Scaler -> Model -> Row -> option Q.
Variable score_percentiles : list Row -> Q * Q.
Variable frame_std : list Row -> Row.
Variable round_ : Q -> nat -> Q.

Local Open Scope m_scope.

(** <<
    def save_state(self, new_state):
        self.state = new_state
        with open(self.state_file, 'w') as f: json.dump({"state": new_state}, f)
        print(... State changed to ...)
>> *)
Definition save_state (new_state : string) : M unit :=
  update_self (set_state new_state) ;;
  update_files (set_state_file (Good (Some new_state))) ;;
  print (StateChangedTo new_state).

(** [load_state]: the state file first; when it is missing, or reading
    it raises (the bare [except: pass]), the artifact check. *)
Definition load_state : M string :=
  fs <- get_files ;;
  from_file <-
    (if exists_ (state_file fs) then
       try_except
         (data <- load (state_file fs) ;;
          let s := default "NEW"%string data in
          print (LoadedState s) ;;
          ret (Some s))
         (ret None)
     else ret None) ;;
  match from_file with
  | Some s => ret s
  | None =>
      if exists_ (model_file fs) && exists_ (scaler_file fs) then
        print FoundExistingArtifacts ;; ret "MONITORING"%string
      else
        print InitialStateNew ;; ret "NEW"%string
  end.

(** [load_artifacts]: model, scaler, calibration file, in this order;
    any failure resets the device to NEW. *)
Definition load_artifacts : M unit :=
  try_except
    (fs <- get_files ;;
     mdl <- load (model_file fs) ;;
     update_self (set_model (Some mdl)) ;;
     sc <- load (scaler_file fs) ;;
     update_self (set_scaler (Some sc)) ;;
     stats <- load (calibration_file fs) ;;
     update_self (set_stats (Some stats)) ;;
     print ArtifactsLoaded)
    (print ArtifactLoadError ;;
     save_state "NEW")%string.

(** The attributes [__init__] sets besides [state]. *)
Definition blank_manager (id : string) : DeviceManager :=
  {| device_id := id; state := ""%string;
     calibration_start_time := None;
     model := None; scaler := None;
     baseline_stats := None; score_mapping := None;
     last_processed_ts := None;
     sensor_buffer := []; health_history := [];
     last_risk := NORMAL |}.

(** [DeviceManager.__init__], run on [blank_manager device_id]. *)
Definition init : M unit :=
  s <- load_state ;;
  update_self (set_state s) ;;
  if String.eqb s "MONITORING" then load_artifacts else ret tt.

(** [start_calibration] *)
Definition start_calibration (now : Q) : M unit :=
  print StartingCalibration ;;
  update_files (set_training_file (Good {| header := true; lines := [] |})) ;;
  update_self (set_calibration_start_time (Some now)) ;;
  save_state "CALIBRATING"%string.

(** [append_training_data]: [to_csv(mode='a', header=False)]. *)
Definition append_training_data (row_dict : Row) : M unit :=
  update_files (fun fs =>
    set_training_file
      (match training_file fs with
       | Good csv => Good {| header := header csv;
                             lines := (lines csv ++ [row_dict])%list |}
       | Absent => Good {| header := false; lines := [row_dict] |}
       | Corrupt => Corrupt
       end) fs).

(** [pd.read_csv(self.training_file)] *)
Definition read_csv : M DataFrame :=
  fs <- get_files ;;
  csv <- load (training_file fs) ;;
  if header csv then ret {| columns_ok := true; rows := lines csv |}
  else match lines csv with
       | [] => raise
       | _ :: data => ret {| columns_ok := false; rows := data |}
       end.

Definition scaler_dump_fault (fault : option TrainFault) : option IOFault :=
  match fault with Some (ScalerDumpRaises io) => Some io | _ => None end.
Definition model_dump_fault (fault : option TrainFault) : option IOFault :=
  match fault with Some (ModelDumpRaises io) => Some io | _ => None end.
Definition stats_write_fault (fault : option TrainFault) : option IOFault :=
  match fault with Some (StatsWriteRaises io) => Some io | _ => None end.

(** The [stats] dictionary [train_model] builds for a frame: the
    percentile anchors of the scores and the baseline mean and standard
    deviation. *)
Definition stats_of (X : list Row) : Stats :=
  {| min_anom := fst (score_percentiles X);
     max_nice := snd (score_percentiles X);
     baseline_mean := frame_mean X;
     baseline_std := frame_std X |}.

(** [train_model]: scale, dump the scaler, fit, dump the model, compute
    the calibration statistics, write them.  [df[FEATURES]] raises when
    the columns are not the features, and the scaler raises on a frame
    without rows.  The handler prints and resets the state to NEW; the
    method itself returns normally either way. *)
Definition train_model (fault : option TrainFault) (df : DataFrame) : M unit :=
  try_except
    (raises_if (negb (columns_ok df)
                || (length (rows df) =? 0)%nat
                || bool_decide (fault = Some ScalingRaises)) ;;
     dump set_scaler_file (scaler_dump_fault fault) (StandardScaler_fit (rows df)) ;;
     raises_if (bool_decide (fault = Some FitRaises)) ;;
     dump set_model_file (model_dump_fault fault) (IsolationForest_fit (rows df)) ;;
     raises_if (bool_decide (fault = Some StatsRaise)) ;;
     let stats := stats_of (rows df) in
     dump set_calibration_file (stats_write_fault fault) stats ;;
     print TrainingSuccessful)
    (print TrainingFailed ;;
     save_state "NEW"%string).

(** [time.time() - (self.calibration_start_time or time.time())]: the
    start time counts when it is set and not 0.0. *)
Definition elapsed_time (now : Q) (m : DeviceManager) : Q :=
  now - match calibration_start_time m with
        | Some t => if Qeq_bool t 0 then now else t
        | None => now
        end.

(** [handle_calibration] *)
Definition handle_calibration (now : Q) (fault : option TrainFault)
    (reading : Row) : M unit :=
  append_training_data reading ;;
  try_except
    (df <- read_csv ;;
     let count := length (rows df) in
     m <- get_self ;;
     let elapsed := elapsed_time now m in
     if (CALIBRATION_SAMPLES <=? count)%nat
        || Qlt_bool MAX_CALIBRATION_TIME elapsed then
       print (CalibrationComplete count elapsed) ;;
       train_model fault df ;;
       save_state "MONITORING"%string ;;
       load_artifacts
     else if (count mod 10 =? 0)%nat then
       print (Calibrating count)
     else ret tt)
    (print CalibrationError).

(** [map_health] on the loaded [score_mapping] *)
Definition map_health (raw_score : Q) : M Q :=
  m <- get_self ;;
  mapping <- lookup_key (score_mapping m) ;;
  ret (map_health_anchors (min_anom mapping) (max_nice mapping) raw_score).

(** [analyze_sensor_contribution]: reading the baseline raises while
    [baseline_stats] is still [{}]. *)
Definition analyze_sensor_contribution (sample : Row) : M (list (Feature * Q)) :=
  m <- get_self ;;
  stats <- lookup_key (baseline_stats m) ;;
  ret (sensor_contributions stats sample).

(** [handle_monitoring].  The method returns nothing; the model returns
    the value of its local [should_publish_mqtt], which the source
    computes and then does not use, or [None] when the method left
    before computing it. *)
Definition handle_monitoring (now : Q) (reading : Row) : M (option bool) :=
  m0 <- get_self ;;
  match model m0 with
  | None => ret None
  | Some mdl =>
    try_except
      ((* 1. Smoothing *)
       update_self (fun m => set_sensor_buffer
                               (deque_append 1 (sensor_buffer m) reading) m) ;;
       m1 <- get_self ;;
       let smoothed := frame_mean (sensor_buffer m1) in
       let current_vals := smoothed in
       (* 2. Scoring *)
       sc <- lookup_key (scaler m1) ;;
       raw_score <- lookup_key (decision_function sc mdl smoothed) ;;
       health <- map_health raw_score ;;
       (* 3. Risk Logic *)
       let risk := risk_logic health in
       (* 4. Persistence Buffer *)
       update_self (fun m => set_health_history
                               (deque_append 3 (health_history m) health) m) ;;
       (* 5. Console message *)
       (if negb (bool_decide (risk = NORMAL)) then
          top_factors <- analyze_sensor_contribution current_vals ;;
          print (generate_alert risk health top_factors)
        else print (SystemHealthy health)) ;;
       (* 6. MQTT Logic *)
       m2 <- get_self ;;
       let publish_flag :=
         should_publish_mqtt risk (last_risk m2) (health_history m2) in
       update_self (set_last_risk risk) ;;
       primary_issue <-
         (if negb (bool_decide (risk = NORMAL)) then
            top_factors <- analyze_sensor_contribution current_vals ;;
            ret (Some (contributors_of top_factors))
          else ret None) ;;
       factor_list <- analyze_sensor_contribution current_vals ;;
       let sensor_report :=
         List.map (fun fd => (fst fd, (round_ (get (fst fd) current_vals) 2,
                                       round_ (snd fd) 2)))
                  factor_list in
       let payload :=
         {| p_device_id := device_id m2;
            p_health := round_ health 1;
            p_risk := risk;
            p_primary_issue := primary_issue;
            p_sensors := sensor_report;
            p_timestamp := now |} in
       publish (device_id m2) payload ;;
       ret (Some publish_flag))
      (print MonitoringError ;; ret None)
  end.

(** [process_reading]: the field mapping (the source's [power] becomes
    [current]; a missing field is 0) and the dispatch on the state. *)
Definition mapped_reading (reading : Reading) : Row :=
  {| r_temperature := default 0 (in_temperature reading);
     r_humidity := default 0 (in_humidity reading);
     r_gas := default 0 (in_gas reading);
     r_vibration := default 0 (in_vibration reading);
     r_current := default 0 (in_power reading) |}.

Definition process_reading (now : Q) (fault : option TrainFault)
    (reading : Reading) : M unit :=
  let mapped := mapped_reading reading in
  m <- get_self ;;
  if String.eqb (state m) "NEW" then
    start_calibration now ;;
    append_training_data mapped
  else if String.eqb (state m) "CALIBRATING" then
    handle_calibration now fault mapped
  else if String.eqb (state m) "MONITORING" then
    _ <- handle_monitoring now mapped ;; ret tt
  else ret tt.

(** ** [MachineGuardSystem]

    The registry [self.devices], the models directory (the files of
    each device, keyed by its id), what was printed and what was handed
    to the MQTT client. *)
Record System := {
  devices : gmap string DeviceManager;
  models_dir : gmap string DeviceFiles;
  stdout : list (string * Message);
  mqtt : list (string * Payload)
}.

Definition files_of (sys : System) (id : string) : DeviceFiles :=
  default no_files (models_dir sys !! id).

(** Run a method of the manager [dm] registered (or about to be) under
    [id], and store the manager and its files back. *)
Definition run_method {A} (id : string) (dm : DeviceManager) (c : M A)
    (sys : System) : Outcome A * System :=
  let e := {| self := dm; files := files_of sys id;
              console := stdout sys; outbox := mqtt sys |} in
  let res := c e in
  (fst res,
   {| devices := <[id := self (snd res)]> (devices sys);
      models_dir := <[id := files (snd res)]> (models_dir sys);
      stdout := console (snd res);
      mqtt := outbox (snd res) |}).

(** Python truth value of [reading.get("timestamp")] *)
Definition truthy (ts : option string) : bool :=
  match ts with
  | Some s => negb (String.eqb s "")
  | None => false
  end.

(** The body of the [for device_id, reading in data_tree.items()] loop
    of [MachineGuardSystem.run], at clock reading [now]. *)
Definition run_item (now : Q) (fault : option TrainFault)
    (sys : System) (id : string) (value : TreeValue) : System :=
  match value with
  | NotADict => sys
  | Dict reading =>
      (* Init device manager if new *)
      let sys1 :=
        match devices sys !! id with
        | Some _ => sys
        | None =>
            snd (run_method id (blank_manager id) init
                   {| devices := devices sys; models_dir := models_dir sys;
                      stdout := (stdout sys ++ [(id, NewDeviceDetected)])%list;
                      mqtt := mqtt sys |})
        end in
      let ts_str := in_timestamp reading in
      if negb (truthy ts_str) then sys1
      else
        match devices sys1 !! id with
        | None => sys1
        | Some dm =>
            (* Skip if we already processed this EXACT timestamp *)
            if bool_decide (last_processed_ts dm = ts_str) then sys1
            else
              snd (run_method id (set_last_processed_ts ts_str dm)
                     (process_reading now fault reading) sys1)
        end
  end.

(** One arrival of the polling loop: the clock, the training fault the
    environment would produce, and the item of the data tree. *)
Record Arrival := {
  a_now : Q;
  a_fault : option TrainFault;
  a_device : string;
  a_value : TreeValue
}.

Definition run_arrivals (sys : System) (l : list Arrival) : System :=
  List.fold_left
    (fun s a => run_item (a_now a) (a_fault a) s (a_device a) (a_value a))
    l sys.

(** A new process on the same models directory:
    [MachineGuardSystem.__init__] starts with an empty registry and a
    new MQTT client. *)
Definition restart (sys : System) : System :=
  {| devices := ∅; models_dir := models_dir sys; stdout := []; mqtt := [] |}.

End Methods.

(** ** Derived notions used to state the properties *)

Section Observers.

Variable decision_function : Scaler -> Model -> Row -> option Q.
Variable round_ : Q -> nat -> Q.

(** The health percentage that steps 1 and 2 of [handle_monitoring]
    compute for a reading on the manager [m]: the buffer of length 1
    holds just that reading, which is scaled, scored and mapped.
    [None] when an artifact is not loaded or the scoring raises. *)
Definition health_of (m : DeviceManager) (reading : Row) : option Q :=
  match model m, scaler m, score_mapping m with
  | Some mdl, Some sc, Some mapping =>
      match decision_function sc mdl (frame_mean [reading]) with
      | Some raw_score =>
          Some (map_health_anchors (min_anom mapping) (max_nice mapping)
                  raw_score)
      | None => None
      end
  | _, _, _ => None
  end.

(** The manager after [handle_monitoring] scored a reading at health
    [h]: the reading in the sensor buffer, [h] in the health history,
    the risk of [h] as the last risk. *)
Definition scored (m : DeviceManager) (reading : Row) (h : Q) : DeviceManager :=
  set_last_risk (risk_logic h)
    (set_health_history (deque_append 3 (health_history m) h)
       (set_sensor_buffer [reading] m)).

(** [handle_monitoring] on a sequence of readings, one after the other,
    with the value each call computed for [should_publish_mqtt]. *)
Fixpoint monitor_run (e : Env) (l : list (Q * Row))
    : list (Outcome (option bool)) * Env :=
  match l with
  | [] => ([], e)
  | (now, reading) :: l' =>
      let r := handle_monitoring decision_function round_ now reading e in
      let rs := monitor_run (snd r) l' in
      (fst r :: fst rs, snd rs)
  end.

End Observers.

(** What no method changes: the device id and the last processed
    timestamp of its manager (only [run] writes the latter); the console
    and the outbox are only ever appended to. *)
Definition frame (e e' : Env) : Prop :=
  device_id (self e') = device_id (self e) /\
  last_processed_ts (self e') = last_processed_ts (self e) /\
  (exists printed, console e' = (console e ++ printed)%list) /\
  (exists sent, outbox e' = (outbox e ++ sent)%list).

Definition framed {A} (c : M A) : Prop := forall e, frame e (snd (c e)).

(** ** Sample values

    A concrete stand-in for the library calls and a few device states, on
    which the statements below are evaluated. *)
Module Sample.

(** Scores a row by its temperature; anchors -1 and 1. *)
Definition decision_function (_ : Scaler) (_ : Model) (r : Row) : option Q :=
  Some (r_temperature r).
Definition score_percentiles (_ : list Row) : Q * Q := (-1, 1).
Definition frame_std (_ : list Row) : Row :=
  {| r_temperature := 1; r_humidity := 1; r_gas := 1;
     r_vibration := 1; r_current := 1 |}.
Definition round_ (x : Q) (_ : nat) : Q := x.

Definition row (t : Q) : Row :=
  {| r_temperature := t; r_humidity := 50; r_gas := 120;
     r_vibration := 1 # 3; r_current := 9 # 2 |}.

Definition reading (t : Q) (ts : string) : Reading :=
  {| in_temperature := Some t; in_humidity := Some 50;
     in_gas := Some 120; in_vibration := Some (1 # 3);
     in_power := Some (9 # 2); in_timestamp := Some ts |}.

Definition stats : Stats :=
  {| min_anom := -1; max_nice := 1;
     baseline_mean := row 0; baseline_std := frame_std [] |}.

(** A calibration whose percentile spread is inverted. *)
Definition degenerate_stats : Stats :=
  {| min_anom := 1 # 10; max_nice := -(1 # 10);
     baseline_mean := row 0; baseline_std := frame_std [] |}.

Definition old_rows : list Row := [row 0; row (1 # 2)].

(** The files a completed training on [old_rows] leaves. *)
Definition trained_files (st : File (option string)) : DeviceFiles :=
  {| state_file := st;
     training_file := Good {| header := true; lines := old_rows |};
     model_file := Good (IsolationForest_fit old_rows);
     scaler_file := Good (StandardScaler_fit old_rows);
     calibration_file := Good stats |}.

(** A manager in MONITORING with these artifacts loaded. *)
Definition monitoring_manager (mapping : Stats) : DeviceManager :=
  {| device_id := "esp32"; state := "MONITORING";
     calibration_start_time := None;
     model := Some (IsolationForest_fit old_rows);
     scaler := Some (StandardScaler_fit old_rows);
     baseline_stats := Some mapping; score_mapping := Some mapping;
     last_processed_ts := None;
     sensor_buffer := []; health_history := [];
     last_risk := NORMAL |}.

Definition monitoring_env (mapping : Stats) : Env :=
  {| self := monitoring_manager mapping;
     files := trained_files (Good (Some "MONITORING"%string));
     console := []; outbox := [] |}.

(** A manager in CALIBRATING since clock reading 1000. *)
Definition calibrating_manager : DeviceManager :=
  {| device_id := "esp32"; state := "CALIBRATING";
     calibration_start_time := Some 1000;
     model := None; scaler := None;
     baseline_stats := None; score_mapping := None;
     last_processed_ts := None;
     sensor_buffer := []; health_history := [];
     last_risk := NORMAL |}.

Definition calibrating_env (fs : DeviceFiles) : Env :=
  {| self := calibrating_manager; files := fs;
     console := []; outbox := [] |}.

Definition empty_system : System :=
  {| devices := ∅; models_dir := ∅; stdout := []; mqtt := [] |}.

End Sample.

(** ** Further notions used to state properties of the methods *)

(** The computation returns: whatever was raised inside it was caught. *)
Definition returns {A} (c : M A) : Prop :=
  forall e, exists a, fst (c e) = Returned a.

(** The three lifecycle states the code itself ever writes. *)
Definition lifecycle_state (s : string) : Prop :=
  s = "NEW"%string \/ s = "CALIBRATING"%string \/ s = "MONITORING"%string.

(** The computation maintains an invariant of the manager and its files. *)
Definition maintains (I : DeviceManager -> DeviceFiles -> Prop) {A}
    (c : M A) : Prop :=
  forall e, I (self e) (files e) ->
            I (self (snd (c e))) (files (snd (c e))).

(** The state file records the state the manager holds in memory. *)
Definition state_persisted (m : DeviceManager) (fs : DeviceFiles) : Prop :=
  state_file fs = Good (Some (state m)).

(** The two deques are within their [maxlen]. *)
Definition deques_bounded (m : DeviceManager) (fs : DeviceFiles) : Prop :=
  (length (sensor_buffer m) <= 1)%nat /\ (length (health_history m) <= 3)%nat.

(** The list is in non-increasing order of deviation. *)
Definition descending (l : list (Feature * Q)) : Prop :=
  Sorted (fun x y => snd y <= snd x) l.

Section Drivers.

Variable decision_function : Scaler -> Model -> Row -> option Q.
Variable score_percentiles : list Row -> Q * Q.
Variable frame_std : list Row -> Row.
Variable round_ : Q -> nat -> Q.

(** [process_reading] on a sequence of readings of one device, each with
    the clock reading at its arrival and the fault its training would
    meet. *)
Fixpoint process_all (e : Env) (l : list (Q * option TrainFault * Reading))
    : Env :=
  match l with
  | [] => e
  | (now, fault, reading) :: l' =>
      process_all
        (snd (process_reading decision_function score_percentiles frame_std
                round_ now fault reading e))
        l'
  end.

End Drivers.

(** ** [firebase_monitor.py]: the fixed-range health score and the alert text *)
Module FirebaseMonitor.

(** [np.clip(x, lo, hi)] *)
Definition clip (x lo hi : Q) : Q :=
  let m := if Qlt_bool x lo then lo else x in
  if Qlt_bool hi m then hi else m.

(** Python's [min(a, b)] and [max(a, b)] on two numbers: the first
    argument unless the second is strictly smaller (larger). *)
Definition py_min (a b : Q) : Q := if Qlt_bool b a then b else a.
Definition py_max (a b : Q) : Q := if Qlt_bool a b then b else a.

(** [np.int32(x)] on a number in range: truncation toward zero. *)
Definition int32 (x : Q) : Z := Z.quot (Qnum x) (Zpos (Qden x)).

(** [calculate_health_score]:
<<
    score_clipped = np.clip(anomaly_score, -0.5, 0.2)
    norm_score = (score_clipped - (-0.5)) / (0.2 - (-0.5))
    health_percentage = norm_score * 100
    return np.int32(max(0, min(100, health_percentage)))
>>
    [clamped_percentage] is the argument of [np.int32]. *)
Definition clamped_percentage (anomaly_score : Q) : Q :=
  let score_clipped := clip anomaly_score (-(1 # 2)) (1 # 5) in
  let norm_score := (score_clipped - (-(1 # 2))) / ((1 # 5) - (-(1 # 2))) in
  let health_percentage := norm_score * 100 in
  py_max 0 (py_min 100 health_percentage).

Definition calculate_health_score (anomaly_score : Q) : Z :=
  int32 (clamped_percentage anomaly_score).

(** The contributors of [generate_alert] in [firebase_monitor.py]:
    deviations above 1.5, or the top factor when there is none. *)
Definition contributors_of (top_factors : list (Feature * Q)) : list (Feature * Q) :=
  let contributors := List.filter (fun fd => Qlt_bool (3 # 2) (snd fd)) top_factors in
  match contributors, top_factors with
  | [], top :: _ => [top]
  | _, _ => contributors
  end.

Definition generate_alert (risk : Risk) (health : Q)
    (top_factors : list (Feature * Q)) : Message :=
  if bool_decide (risk = NORMAL) then SystemHealthy health
  else ActionRequired risk health (contributors_of top_factors).

End FirebaseMonitor.

(** ** [monitor.py]: the offline monitoring simulation *)
Module Monitor.

(** [np.interp(x, xp, fp, left=l, right=r)]: as [Numpy.interp], with the
    values below the first and above the last knot given. *)
Definition interp_left_right (x : Q) (xp fp : list Q) (left right : Q) : Q :=
  let lenxp := Z.of_nat (length xp) in
  let j := Numpy.binary_search_with_guess x xp in
  if (j =? -1)%Z then left
  else if (j =? lenxp)%Z then right
  else if (j =? lenxp - 1)%Z then Numpy.at_index fp j
  else if Qeq_bool (Numpy.at_index xp j) x then Numpy.at_index fp j
  else
    let slope := (Numpy.at_index fp (j + 1) - Numpy.at_index fp j)
                 / (Numpy.at_index xp (j + 1) - Numpy.at_index xp j) in
    slope * (x - Numpy.at_index xp j) + Numpy.at_index fp j.

(** <<
    xp = [min_bad, decision_boundary, max_nice]
    fp = [0, 50, 100]
    health_scores = np.interp(raw_scores, xp, fp, left=0, right=100)
>> for one raw score. *)
Definition health_score (min_bad decision_boundary max_nice raw_score : Q) : Q :=
  let xp := [min_bad; decision_boundary; max_nice] in
  let fp := [0; 50; 100] in
  interp_left_right raw_score xp fp 0 100.

(** What [generate_alert] of [monitor.py] puts in its text. *)
Inductive Alert :=
| Healthy (health : Q)
| PrimaryCause (risk : Risk) (health : Q) (cause : Feature) (deviation : Q).

(** <<
    if risk == "NORMAL": return "[OK] System Healthy ..."
    primary_cause = top_factors[0][0]
    primary_dev = top_factors[0][1]
    ...
>> [top_factors[0]] raises IndexError on an empty list. *)
Definition generate_alert (risk : Risk) (health : Q)
    (top_factors : list (Feature * Q)) : Outcome Alert :=
  if bool_decide (risk = NORMAL) then Returned (Healthy health)
  else match top_factors with
       | [] => Raised
       | (primary_cause, primary_dev) :: _ =>
           Returned (PrimaryCause risk health primary_cause primary_dev)
       end.

(** A line of the simulation log: the sample index and what is printed. *)
Inductive Line :=
| RunningOptimal (time : nat) (health : Q)
| AlertLine (time : nat) (alert : Alert).

(** The simulation loop of [monitor_system] from sample [i] on:
<<
    for i in range(len(data)):
        if i % 25 == 0:
            current_health = health_scores[i]
            risk_level = classify_risk(current_health)
            if risk_level != "NORMAL":
                top_factors = analyze_sensor_contribution(data.iloc[i], scaler, feature_names)
                alert = generate_alert(risk_level, current_health, top_factors)
                print(f"Time {i}: {alert}")
            else:
                print(f"Time {i}: [INFO] Running Optimal. Health: ...")
>>
    [samples] pairs each health score with the ranked contributions of
    its sample (the scaler is library code).  An exception leaves the
    loop; the lines printed before it stay printed. *)
Fixpoint simulation_loop (i : nat) (samples : list (Q * list (Feature * Q)))
    : list Line * bool :=
  match samples with
  | [] => ([], true)
  | (current_health, top_factors) :: rest =>
      if (i mod 25 =? 0)%nat then
        let risk_level := classify_risk current_health in
        if negb (bool_decide (risk_level = NORMAL)) then
          match generate_alert risk_level current_health top_factors with
          | Returned alert =>
              let r := simulation_loop (S i) rest in
              (AlertLine i alert :: fst r, snd r)
          | Raised => ([], false)
          end
        else
          let r := simulation_loop (S i) rest in
          (RunningOptimal i current_health :: fst r, snd r)
      else simulation_loop (S i) rest
  end.

(** The sample index a line was printed for, and whether the line fits
    the health it reports: "Running Optimal" for a NORMAL health, an
    alert with a risk that is the class of its health and not NORMAL. *)
Definition line_time (l : Line) : nat :=
  match l with RunningOptimal t _ => t | AlertLine t _ => t end.

Definition line_fits (l : Line) : Prop :=
  match l with
  | RunningOptimal _ health => classify_risk health = NORMAL
  | AlertLine _ (PrimaryCause risk health _ _) =>
      risk = classify_risk health /\ risk <> NORMAL
  | AlertLine _ (Healthy _) => False
  end.

End Monitor.

(** * Properties *)

(** ** Comparisons *)

Lemma Qlt_bool_iff (x y : Q) : Qlt_bool x y = true <-> x < y.
Proof.
  unfold Qlt_bool. rewrite negb_true_iff.
  split; intros H.
  - apply Qnot_le_lt. intros Hle. apply Qle_bool_iff in Hle. congruence.
  - destruct (Qle_bool y x) eqn:E; [|reflexivity].
    apply Qle_bool_iff in E. exfalso. apply (Qlt_not_le _ _ H E).
Qed.

Lemma Qlt_bool_false (x y : Q) : Qlt_bool x y = false <-> y <= x.
Proof.
  unfold Qlt_bool. rewrite negb_false_iff. apply Qle_bool_iff.
Qed.

Lemma Qle_bool_false (x y : Q) : Qle_bool x y = false <-> y < x.
Proof.
  rewrite <- Qlt_bool_iff. unfold Qlt_bool.
  destruct (Qle_bool x y); simpl; intuition congruence.
Qed.

Lemma Qeq_bool_false (x y : Q) : Qeq_bool x y = false <-> ~ x == y.
Proof.
  split.
  - intros H. now apply Qeq_bool_neq.
  - intros H. destruct (Qeq_bool x y) eqn:E; [|reflexivity].
    apply Qeq_bool_iff in E. contradiction.
Qed.

(** Turn every boolean comparison among the hypotheses into its
    proposition, so that [lra] can use it. *)
Ltac reflect_cmp :=
  repeat match goal with
  | H : Qlt_bool _ _ = true |- _ => apply Qlt_bool_iff in H
  | H : Qlt_bool _ _ = false |- _ => apply Qlt_bool_false in H
  | H : Qle_bool _ _ = true |- _ => apply Qle_bool_iff in H
  | H : Qle_bool _ _ = false |- _ => apply Qle_bool_false in H
  | H : Qeq_bool _ _ = true |- _ => apply Qeq_bool_iff in H
  | H : Qeq_bool _ _ = false |- _ => apply Qeq_bool_false in H
  end.


(** ** Risk classification *)

Lemma classify_risk_NORMAL h : classify_risk h = NORMAL <-> 80 < h.
Proof.
  unfold classify_risk.
  destruct (Qlt_bool 80 h) eqn:E1; [|destruct (Qlt_bool 50 h) eqn:E2;
    destruct (Qle_bool h 80) eqn:E3]; simpl; reflect_cmp;
    split; intros H; try discriminate; try reflexivity; try lra.
Qed.

Lemma classify_risk_WARNING h : classify_risk h = WARNING <-> 50 < h /\ h <= 80.
Proof.
  unfold classify_risk.
  destruct (Qlt_bool 80 h) eqn:E1; [|destruct (Qlt_bool 50 h) eqn:E2;
    destruct (Qle_bool h 80) eqn:E3]; simpl; reflect_cmp;
    split; intros H; try discriminate; try reflexivity; try lra.
Qed.

Lemma classify_risk_CRITICAL h : classify_risk h = CRITICAL <-> h <= 50.
Proof.
  unfold classify_risk.
  destruct (Qlt_bool 80 h) eqn:E1; [|destruct (Qlt_bool 50 h) eqn:E2;
    destruct (Qle_bool h 80) eqn:E3]; simpl; reflect_cmp;
    split; intros H; try discriminate; try reflexivity; try lra.
Qed.

Lemma risk_logic_CRITICAL h : risk_logic h = CRITICAL <-> h < 30.
Proof.
  unfold risk_logic.
  destruct (Qlt_bool h 30) eqn:E1; [|destruct (Qlt_bool h 60) eqn:E2];
    reflect_cmp; split; intros H; try discriminate; try reflexivity; try lra.
Qed.

Lemma risk_logic_WARNING h : risk_logic h = WARNING <-> 30 <= h /\ h < 60.
Proof.
  unfold risk_logic.
  destruct (Qlt_bool h 30) eqn:E1; [|destruct (Qlt_bool h 60) eqn:E2];
    reflect_cmp; split; intros H; try discriminate; try reflexivity; try lra.
Qed.

Lemma risk_logic_NORMAL h : risk_logic h = NORMAL <-> 60 <= h.
Proof.
  unfold risk_logic.
  destruct (Qlt_bool h 30) eqn:E1; [|destruct (Qlt_bool h 60) eqn:E2];
    reflect_cmp; split; intros H; try discriminate; try reflexivity; try lra.
Qed.

(** ** Health mapping *)

(** The value of [map_health_anchors], branch by branch of the search. *)
Lemma map_health_cases (a b x : Q) :
  map_health_anchors a b x =
    if Qlt_bool b x then 100
    else if Qlt_bool x a then 0
    else if Qle_bool 0 x then
      if Qle_bool b x then 100
      else if Qeq_bool 0 x then 50
      else (100 - 50) / (b - 0) * (x - 0) + 50
    else
      if Qeq_bool a x then 0
      else (50 - 0) / (0 - a) * (x - a) + 0.
Proof.
  unfold map_health_anchors, Numpy.interp, Numpy.binary_search_with_guess.
  cbn [List.last List.hd List.tl length Numpy.linear_scan].
  destruct (Qlt_bool b x); [reflexivity|].
  destruct (Qlt_bool x a); [reflexivity|].
  destruct (Qle_bool 0 x); [destruct (Qle_bool b x)|]; try reflexivity.
Qed.









(** With highAnchor <= lowAnchor the mapping only ever answers 0 or 100. *)
Lemma map_health_degenerate_values (a b x : Q) :
  b <= a -> map_health_anchors a b x = 0 \/ map_health_anchors a b x = 100.
Proof.
  intros Hba. rewrite map_health_cases.
  destruct (Qlt_bool b x) eqn:E1; [now right|].
  destruct (Qlt_bool x a) eqn:E2; [now left|].
  destruct (Qle_bool 0 x) eqn:E3.
  - destruct (Qle_bool b x) eqn:E4; [now right|].
    reflect_cmp. exfalso. lra.
  - destruct (Qeq_bool a x) eqn:E4; [now left|].
    reflect_cmp. exfalso. apply E4. lra.
Qed.

(** C9: for every degenerate calibration with highAnchor <= lowAnchor,
    [map_health] returns (it does not raise), its value lies in [0, 100],
    and the output is still monotonic non-decreasing in the raw score. *)
Theorem map_health_degenerate_clamps (e : Env) (mapping : Stats) :
  score_mapping (self e) = Some mapping ->
  max_nice mapping <= min_anom mapping ->
  (forall raw, exists h,
      map_health raw e = (Returned h, e) /\ 0 <= h <= 100) /\
  (forall raw1 raw2 h1 h2,
      raw1 < raw2 ->
      fst (map_health raw1 e) = Returned h1 ->
      fst (map_health raw2 e) = Returned h2 ->
      h1 <= h2).
Proof.
  intros Hmap Hdeg.
  assert (Hrun : forall raw,
             map_health raw e =
             (Returned (map_health_anchors (min_anom mapping)
                          (max_nice mapping) raw), e)).
  { intros raw. unfold map_health, bind, get_self, lookup_key.
    rewrite Hmap. reflexivity. }
  split.
  - intros raw. eexists. split; [apply Hrun|].
    destruct (map_health_degenerate_values
                (min_anom mapping) (max_nice mapping) raw Hdeg) as [H|H];
      rewrite H; lra.
  - intros raw1 raw2 h1 h2 Hlt H1 H2.
    rewrite Hrun in H1, H2. simpl in H1, H2.
    injection H1 as <-. injection H2 as <-.
    set (a := min_anom mapping) in *. set (b := max_nice mapping) in *.
    rewrite !map_health_cases.
    destruct (Qlt_bool b raw1) eqn:E1; destruct (Qlt_bool raw1 a) eqn:E2;
      destruct (Qle_bool 0 raw1) eqn:E3; destruct (Qle_bool b raw1) eqn:E4;
      destruct (Qeq_bool a raw1) eqn:E5; destruct (Qeq_bool 0 raw1) eqn:E5';
      destruct (Qlt_bool b raw2) eqn:E6; destruct (Qlt_bool raw2 a) eqn:E7;
      destruct (Qle_bool 0 raw2) eqn:E8; destruct (Qle_bool b raw2) eqn:E9;
      destruct (Qeq_bool a raw2) eqn:E10; destruct (Qeq_bool 0 raw2) eqn:E11;
      reflect_cmp; try lra; exfalso; lra.
Qed.

(** ** What no method changes *)

Lemma frame_refl (e : Env) : frame e e.
Proof.
  repeat split; try (exists []; now rewrite app_nil_r).
Qed.

Lemma frame_trans (e1 e2 e3 : Env) : frame e1 e2 -> frame e2 e3 -> frame e1 e3.
Proof.
  intros (Hd & Ht & [p Hp] & [s Hs]) (Hd' & Ht' & [p' Hp'] & [s' Hs']).
  repeat split; try congruence.
  - exists (p ++ p')%list. rewrite Hp', Hp. now rewrite app_assoc.
  - exists (s ++ s')%list. rewrite Hs', Hs. now rewrite app_assoc.
Qed.

Lemma framed_ret {A} (a : A) : framed (ret a).
Proof. intros e. apply frame_refl. Qed.

Lemma framed_raise {A} : framed (@raise A).
Proof. intros e. apply frame_refl. Qed.

Lemma framed_bind {A B} (c : M A) (k : A -> M B) :
  framed c -> (forall a, framed (k a)) -> framed (bind c k).
Proof.
  intros Hc Hk e. unfold bind. specialize (Hc e).
  destruct (c e) as [[a|] e1]; simpl in *; [|exact Hc].
  eapply frame_trans; [exact Hc|apply Hk].
Qed.

Lemma framed_try_except {A} (body handler : M A) :
  framed body -> framed handler -> framed (try_except body handler).
Proof.
  intros Hb Hh e. unfold try_except. specialize (Hb e).
  destruct (body e) as [[a|] e1]; simpl in *; [exact Hb|].
  eapply frame_trans; [exact Hb|apply Hh].
Qed.

Lemma framed_get_self : framed get_self.
Proof. intros e. apply frame_refl. Qed.

Lemma framed_get_files : framed get_files.
Proof. intros e. apply frame_refl. Qed.

Lemma framed_update_files (f : DeviceFiles -> DeviceFiles) :
  framed (update_files f).
Proof.
  intros e. repeat split; simpl; auto; exists []; now rewrite app_nil_r.
Qed.

Lemma framed_update_self (f : DeviceManager -> DeviceManager) :
  (forall m, device_id (f m) = device_id m) ->
  (forall m, last_processed_ts (f m) = last_processed_ts m) ->
  framed (update_self f).
Proof.
  intros Hd Ht e. repeat split; simpl; auto;
    exists []; now rewrite app_nil_r.
Qed.

Lemma framed_print (msg : Message) : framed (print msg).
Proof.
  intros e. repeat split; simpl.
  - eexists; reflexivity.
  - exists []; now rewrite app_nil_r.
Qed.

Lemma framed_publish (topic : string) (payload : Payload) :
  framed (publish topic payload).
Proof.
  intros e. repeat split; simpl.
  - exists []; now rewrite app_nil_r.
  - eexists; reflexivity.
Qed.

Lemma framed_load {A} (f : File A) : framed (load f).
Proof. destruct f; intros e; apply frame_refl. Qed.

Lemma framed_lookup_key {A} (o : option A) : framed (lookup_key o).
Proof. destruct o; intros e; apply frame_refl. Qed.

Lemma framed_raises_if (b : bool) : framed (raises_if b).
Proof. destruct b; intros e; apply frame_refl. Qed.

Lemma framed_dump {A} (setter : File A -> DeviceFiles -> DeviceFiles)
    (io : option IOFault) (v : A) : framed (dump setter io v).
Proof.
  destruct io as [[|]|]; intros e;
    repeat split; simpl; auto; exists []; now rewrite app_nil_r.
Qed.

Create HintDb framed.
#[local] Hint Resolve framed_ret framed_raise framed_get_self framed_get_files
  framed_update_files framed_print framed_publish framed_load
  framed_lookup_key framed_raises_if framed_dump : framed.

(** Walk down a method body: sequencing, handlers, branches, leaves. *)
Ltac framed_step :=
  first
    [ solve [auto with framed]
    | progress cbv zeta
    | apply framed_update_self; intros; reflexivity
    | match goal with
      | |- framed (bind _ _) => apply framed_bind; [|intros ?]
      | |- framed (try_except _ _) => apply framed_try_except
      | |- framed (if ?b then _ else _) => destruct b
      | |- framed (match ?x with _ => _ end) => destruct x
      end ].

Ltac framed_walk := repeat framed_step.

Section Framed.

Variable decision_function : Scaler -> Model -> Row -> option Q.
Variable score_percentiles : list Row -> Q * Q.
Variable frame_std : list Row -> Row.
Variable round_ : Q -> nat -> Q.

Lemma framed_save_state (s : string) : framed (save_state s).
Proof. unfold save_state. framed_walk. Qed.
#[local] Hint Resolve framed_save_state : framed.

Lemma framed_load_state : framed load_state.
Proof. unfold load_state. framed_walk. Qed.
#[local] Hint Resolve framed_load_state : framed.

Lemma framed_load_artifacts : framed load_artifacts.
Proof. unfold load_artifacts. framed_walk. Qed.
#[local] Hint Resolve framed_load_artifacts : framed.

Lemma framed_init : framed init.
Proof. unfold init. framed_walk. Qed.

Lemma framed_start_calibration (now : Q) : framed (start_calibration now).
Proof. unfold start_calibration. framed_walk. Qed.
#[local] Hint Resolve framed_start_calibration : framed.

Lemma framed_append_training_data (row : Row) :
  framed (append_training_data row).
Proof. unfold append_training_data. framed_walk. Qed.
#[local] Hint Resolve framed_append_training_data : framed.

Lemma framed_read_csv : framed read_csv.
Proof. unfold read_csv. framed_walk. Qed.
#[local] Hint Resolve framed_read_csv : framed.

Lemma framed_train_model (fault : option TrainFault) (df : DataFrame) :
  framed (train_model score_percentiles frame_std fault df).
Proof. unfold train_model. framed_walk. Qed.
#[local] Hint Resolve framed_train_model : framed.

Lemma framed_handle_calibration (now : Q) (fault : option TrainFault)
    (r : Row) :
  framed (handle_calibration score_percentiles frame_std now fault r).
Proof. unfold handle_calibration. framed_walk. Qed.
#[local] Hint Resolve framed_handle_calibration : framed.

Lemma framed_map_health (raw : Q) : framed (map_health raw).
Proof. unfold map_health. framed_walk. Qed.
#[local] Hint Resolve framed_map_health : framed.

Lemma framed_analyze_sensor_contribution (sample : Row) :
  framed (analyze_sensor_contribution sample).
Proof. unfold analyze_sensor_contribution. framed_walk. Qed.
#[local] Hint Resolve framed_analyze_sensor_contribution : framed.

Lemma framed_handle_monitoring (now : Q) (r : Row) :
  framed (handle_monitoring decision_function round_ now r).
Proof. unfold handle_monitoring. framed_walk. Qed.
#[local] Hint Resolve framed_handle_monitoring : framed.

Lemma framed_process_reading (now : Q) (fault : option TrainFault)
    (reading : Reading) :
  framed (process_reading decision_function score_percentiles frame_std
            round_ now fault reading).
Proof. unfold process_reading. framed_walk. Qed.

End Framed.

Lemma deque_append_1 {A} (d : list A) (x : A) : deque_append 1 d x = [x].
Proof.
  unfold deque_append. rewrite length_app. simpl.
  replace (length d + 1 - 1)%nat with (length d) by lia.
  now rewrite drop_app_length.
Qed.

Lemma deque_append_twice {A} (n : nat) (d : list A) (x y : A) :
  (0 < n)%nat ->
  deque_append n (deque_append n d x) y =
  List.skipn (length d + 2 - n) (d ++ [x; y])%list.
Proof.
  intros Hn. unfold deque_append.
  rewrite !length_app, length_drop, !length_app. simpl.
  destruct (Nat.le_gt_cases (length d + 1) n) as [Hle|Hgt].
  - replace (length d + 1 - n)%nat with 0%nat by lia.
    rewrite drop_0, <- app_assoc. simpl. f_equal. lia.
  - replace (length d + 1 - (length d + 1 - n) + 1 - n)%nat with 1%nat by lia.
    replace (length d + 2 - n)%nat with (S (length d + 1 - n)) by lia.
    replace (d ++ [x; y])%list with ((d ++ [x]) ++ [y])%list
      by (rewrite <- app_assoc; reflexivity).
    rewrite (drop_app_le (d ++ [x]) [y] (S (length d + 1 - n)))
      by (rewrite length_app; simpl; lia).
    replace (S (length d + 1 - n)) with ((length d + 1 - n) + 1)%nat by lia.
    rewrite <- (drop_drop (d ++ [x]) 1 (length d + 1 - n)).
    destruct (drop (length d + 1 - n) (d ++ [x])) as [|z zs] eqn:E.
    + apply (f_equal (@length A)) in E.
      rewrite length_drop, length_app in E. simpl in E. lia.
    + reflexivity.
Qed.

Lemma deque_append_thrice {A} (d : list A) (x y z : A) :
  deque_append 3 (deque_append 3 (deque_append 3 d x) y) z = [x; y; z].
Proof.
  rewrite (deque_append_twice 3 d x y) by lia.
  unfold deque_append.
  rewrite length_app, length_drop, length_app. simpl.
  destruct (Nat.le_gt_cases (length d + 2) 3) as [Hle|Hgt].
  - replace (length d + 2 - 3)%nat with 0%nat by lia.
    rewrite drop_0, <- app_assoc. simpl.
    replace (length d + 2 - 0 + 1 - 3)%nat with (length d) by lia.
    now rewrite drop_app_length.
  - replace (length d + 2 - (length d + 2 - 3) + 1 - 3)%nat with 1%nat by lia.
    rewrite drop_app_le by (rewrite length_drop, length_app; simpl; lia).
    rewrite drop_drop.
    replace (length d + 2 - 3 + 1)%nat with (length d) by lia.
    now rewrite drop_app_length.
Qed.

Section Monitoring.

Variable decision_function : Scaler -> Model -> Row -> option Q.
Variable round_ : Q -> nat -> Q.

Local Abbreviation monitor := (handle_monitoring decision_function round_).
Local Abbreviation health_on := (health_of decision_function).
Local Abbreviation monitor_all := (monitor_run decision_function round_).


Lemma handle_monitoring_scored (e : Env) (now : Q) (reading : Row)
    (h : Q) (stats : Stats) :
  health_on (self e) reading = Some h ->
  baseline_stats (self e) = Some stats ->
  exists msg payload,
    monitor now reading e =
      (Returned (Some (should_publish_mqtt (risk_logic h) (last_risk (self e))
                         (deque_append 3 (health_history (self e)) h))),
       {| self := scored (self e) reading h;
          files := files e;
          console := (console e ++ [(device_id (self e), msg)])%list;
          outbox := (outbox e ++ [(device_id (self e), payload)])%list |})
    /\ p_risk payload = risk_logic h
    /\ p_health payload = round_ h 1.
Proof.
  intros Hh Hb. unfold health_of in Hh.
  destruct e as [m fs con out]. simpl in *.
  destruct (model m) as [mdl|] eqn:Em; [|discriminate].
  destruct (scaler m) as [sc|] eqn:Es; [|discriminate].
  destruct (score_mapping m) as [mapping|] eqn:Ep; [|discriminate].
  destruct (decision_function sc mdl (frame_mean [reading])) as [raw|] eqn:Ed;
    [|discriminate].
  injection Hh as Hh.
  unfold handle_monitoring, map_health, analyze_sensor_contribution,
    bind, try_except, get_self, update_self, lookup_key, print, publish, ret.
  cbn [self]. rewrite Em.
  destruct (bool_decide (risk_logic h = NORMAL)) eqn:En;
    repeat (progress
      (cbn [negb fst snd self files console outbox
            set_sensor_buffer set_health_history set_last_risk
            sensor_buffer scaler model score_mapping baseline_stats
            health_history last_risk device_id];
       rewrite ?Es, ?deque_append_1, ?Ed, ?Ep, ?Hh, ?En, ?Hb));
    (eexists; eexists; split; [reflexivity|split; reflexivity]).
Qed.

Lemma handle_monitoring_unscored (e : Env) (now : Q) (reading : Row) :
  health_on (self e) reading = None \/ baseline_stats (self e) = None ->
  fst (monitor now reading e) = Returned None /\
  outbox (snd (monitor now reading e)) = outbox e.
Proof.
  intros H. unfold health_of in H.
  destruct e as [m fs con out]. simpl in *.
  unfold handle_monitoring, map_health, analyze_sensor_contribution,
    bind, try_except, get_self, update_self, lookup_key, print, publish, ret.
  cbn [self].
  destruct (model m) as [mdl|] eqn:Em; [|split; reflexivity].
  cbn [fst snd self files console outbox
            set_sensor_buffer set_health_history set_last_risk
            sensor_buffer scaler model score_mapping baseline_stats
            health_history last_risk device_id].
  rewrite deque_append_1.
  destruct (scaler m) as [sc|] eqn:Es; [|split; reflexivity].
  destruct (decision_function sc mdl (frame_mean [reading])) as [raw|] eqn:Ed;
    [|split; reflexivity].
  cbn [fst snd self files console outbox
            set_sensor_buffer set_health_history set_last_risk
            sensor_buffer scaler model score_mapping baseline_stats
            health_history last_risk device_id].
  destruct (score_mapping m) as [mapping|] eqn:Ep; [|split; reflexivity].
  destruct H as [H|H]; [discriminate|].
  destruct (bool_decide (risk_logic (map_health_anchors (min_anom mapping)
                                       (max_nice mapping) raw) = NORMAL));
    repeat (progress
      (cbn [negb fst snd self files console outbox
            set_sensor_buffer set_health_history set_last_risk
            sensor_buffer scaler model score_mapping baseline_stats
            health_history last_risk device_id];
       rewrite ?H));
    split; reflexivity.
Qed.

(** Scoring a reading leaves the loaded artifacts as they are. *)
Lemma health_of_scored (m : DeviceManager) (r r' : Row) (h : Q) :
  health_on (scored m r h) r' = health_on m r'.
Proof. reflexivity. Qed.

Lemma baseline_stats_scored (m : DeviceManager) (r : Row) (h : Q) :
  baseline_stats (scored m r h) = baseline_stats m.
Proof. reflexivity. Qed.

(** The flag and the next state of a scored reading, without the
    console and the payload. *)
Lemma handle_monitoring_flag (e : Env) (now : Q) (reading : Row)
    (h : Q) (stats : Stats) :
  health_on (self e) reading = Some h ->
  baseline_stats (self e) = Some stats ->
  fst (monitor now reading e) =
    Returned (Some (should_publish_mqtt (risk_logic h) (last_risk (self e))
                      (deque_append 3 (health_history (self e)) h))) /\
  self (snd (monitor now reading e)) = scored (self e) reading h.
Proof.
  intros Hh Hb.
  destruct (handle_monitoring_scored e now reading h stats Hh Hb)
    as (msg & payload & -> & _).
  split; reflexivity.
Qed.

Lemma is_persistent_crit_spec (hh : list Q) :
  is_persistent_crit hh = true <->
  length hh = 3%nat /\ Forall (fun x => x < 50) hh.
Proof.
  unfold is_persistent_crit. rewrite andb_true_iff, Nat.eqb_eq.
  rewrite forallb_forall, List.Forall_forall.
  split; intros [H1 H2]; (split; [exact H1|]); intros x Hx;
    apply Qlt_bool_iff; auto.
Qed.

(** A window whose entry before the last is not below 50 is not
    persistently critical. *)
Lemma not_persistent_after_high (l : list Q) (p x : Q) :
  50 <= p -> is_persistent_crit (deque_append 3 (l ++ [p]) x) = false.
Proof.
  intros Hp. apply not_true_is_false. intros H.
  apply is_persistent_crit_spec in H. destruct H as [_ H].
  unfold deque_append in H. rewrite <- app_assoc in H. simpl in H.
  rewrite length_app in H. simpl in H.
  rewrite drop_app_le in H by lia.
  apply Forall_app in H. destruct H as [_ H].
  inversion H; subst. lra.
Qed.

Lemma not_persistent_after_high2 (l : list Q) (p x y : Q) :
  50 <= p ->
  is_persistent_crit (deque_append 3 (deque_append 3 (l ++ [p]) x) y) = false.
Proof.
  intros Hp. apply not_true_is_false. intros H.
  apply is_persistent_crit_spec in H. destruct H as [_ H].
  rewrite deque_append_twice in H by lia.
  rewrite <- app_assoc in H. simpl in H.
  rewrite length_app in H. simpl in H.
  rewrite drop_app_le in H by lia.
  apply Forall_app in H. destruct H as [_ H].
  inversion H; subst. lra.
Qed.


(** C1 (amended): [classify_risk] returns NORMAL iff h > 80, WARNING
    iff 50 < h <= 80 and CRITICAL iff h <= 50, so classify(50) is
    CRITICAL and classify(80) is WARNING; it is the classification of
    [monitor.py] and [firebase_monitor.py].  The monitoring path of
    [DeviceManager.handle_monitoring] applies its own thresholds
    instead: CRITICAL iff h < 30, WARNING iff 30 <= h < 60, NORMAL iff
    h >= 60, and that is the risk of the payload it publishes. *)
Theorem risk_classification (h : Q) :
  (classify_risk h = NORMAL <-> 80 < h) /\
  (classify_risk h = WARNING <-> 50 < h /\ h <= 80) /\
  (classify_risk h = CRITICAL <-> h <= 50) /\
  classify_risk 50 = CRITICAL /\
  classify_risk 80 = WARNING /\
  (risk_logic h = NORMAL <-> 60 <= h) /\
  (risk_logic h = WARNING <-> 30 <= h /\ h < 60) /\
  (risk_logic h = CRITICAL <-> h < 30) /\
  (forall e now reading stats,
      health_on (self e) reading = Some h ->
      baseline_stats (self e) = Some stats ->
      exists payload,
        outbox (snd (monitor now reading e)) =
          (outbox e ++ [(device_id (self e), payload)])%list /\
        p_risk payload = risk_logic h).
Proof.
  split; [apply classify_risk_NORMAL|].
  split; [apply classify_risk_WARNING|].
  split; [apply classify_risk_CRITICAL|].
  split; [reflexivity|]. split; [reflexivity|].
  split; [apply risk_logic_NORMAL|].
  split; [apply risk_logic_WARNING|].
  split; [apply risk_logic_CRITICAL|].
  intros e now reading stats Hh Hb.
  destruct (handle_monitoring_scored e now reading h stats Hh Hb)
    as (msg & payload & -> & Hr & _).
  exists payload. split; [reflexivity|exact Hr].
Qed.

(** C3 (amended): in MONITORING, when three consecutive readings all map
    to health < 30 (CRITICAL under the thresholds of the monitoring
    path), after a window that is empty or whose latest entry is not
    below 50, [should_publish_mqtt] is true on the third reading and
    not on the first or second; and whenever it is true for a CRITICAL
    reading, the 3-slot health history is full with every recorded
    value < 50. *)
Theorem persistent_critical_on_third (e : Env) (stats : Stats)
    (n1 n2 n3 : Q) (r1 r2 r3 : Row) (h1 h2 h3 : Q) :
  baseline_stats (self e) = Some stats ->
  health_on (self e) r1 = Some h1 ->
  health_on (self e) r2 = Some h2 ->
  health_on (self e) r3 = Some h3 ->
  h1 < 30 -> h2 < 30 -> h3 < 30 ->
  50 <= List.last (health_history (self e)) 50 ->
  fst (monitor_all e [(n1, r1); (n2, r2); (n3, r3)]) =
    [Returned (Some false); Returned (Some false); Returned (Some true)] /\
  (forall e' now r h,
      health_on (self e') r = Some h ->
      risk_logic h = CRITICAL ->
      fst (monitor now r e') = Returned (Some true) ->
      let window := health_history (self (snd (monitor now r e'))) in
      length window = 3%nat /\ Forall (fun x => x < 50) window).
Proof.
  intros Hb H1 H2 H3 L1 L2 L3 Hlast. split.
  - destruct (handle_monitoring_flag e n1 r1 h1 stats H1 Hb) as [F1 S1].
    set (e1 := snd (monitor n1 r1 e)) in *.
    assert (H2' : health_on (self e1) r2 = Some h2) by (rewrite S1; exact H2).
    assert (Hb1 : baseline_stats (self e1) = Some stats) by (rewrite S1; exact Hb).
    destruct (handle_monitoring_flag e1 n2 r2 h2 stats H2' Hb1) as [F2 S2].
    set (e2 := snd (monitor n2 r2 e1)) in *.
    assert (H3' : health_on (self e2) r3 = Some h3)
      by (rewrite S2, health_of_scored, S1; exact H3).
    assert (Hb2 : baseline_stats (self e2) = Some stats)
      by (rewrite S2, baseline_stats_scored; exact Hb1).
    destruct (handle_monitoring_flag e2 n3 r3 h3 stats H3' Hb2) as [F3 _].
    cbn [monitor_run fst snd].
    fold e1. fold e2. rewrite F1, F2, F3.
    rewrite S2, S1. cbn [scored last_risk health_history set_last_risk
                         set_health_history set_sensor_buffer].
    apply risk_logic_CRITICAL in L1, L2, L3. rewrite L1, L2, L3.
    rewrite deque_append_thrice.
    assert (P3 : is_persistent_crit [h1; h2; h3] = true).
    { apply is_persistent_crit_spec. split; [reflexivity|].
      apply risk_logic_CRITICAL in L1, L2, L3.
      repeat constructor; lra. }
    assert (P1 : is_persistent_crit
                   (deque_append 3 (health_history (self e)) h1) = false
              /\ is_persistent_crit
                   (deque_append 3
                      (deque_append 3 (health_history (self e)) h1) h2) = false).
    { destruct (health_history (self e)) as [|x l] eqn:Eh using rev_ind.
      - split; reflexivity.
      - rewrite List.last_last in Hlast.
        split; [apply not_persistent_after_high
               |apply not_persistent_after_high2]; exact Hlast. }
    destruct P1 as [P1 P2].
    unfold should_publish_mqtt. rewrite P1, P2, P3. reflexivity.
  - intros e' now r h Hh Hc Hflag window.
    destruct (baseline_stats (self e')) as [st|] eqn:Eb.
    + destruct (handle_monitoring_flag e' now r h st Hh Eb) as [F S].
      subst window. rewrite S. rewrite F in Hflag.
      injection Hflag as Hflag.
      cbn [scored last_risk health_history set_last_risk
           set_health_history set_sensor_buffer].
      unfold should_publish_mqtt in Hflag. rewrite Hc in Hflag.
      cbn in Hflag.
      destruct (is_persistent_crit
                  (deque_append 3 (health_history (self e')) h)) eqn:P;
        [|discriminate].
      apply is_persistent_crit_spec. exact P.
    + destruct (handle_monitoring_unscored e' now r (or_intror Eb)) as [F _].
      rewrite F in Hflag. discriminate.
Qed.


(** C4 (amended): for every MONITORING reading that is scored (the
    artifacts are loaded and no step raises), exactly one outbound
    payload is published, whether the alert-gate rules decide to
    notify or not: [should_publish_mqtt] is computed and not consulted.
    No payload is emitted only when the model is not loaded or a step
    of the scoring raises. *)
Theorem publish_does_not_consult_gate (e : Env) (now : Q) (reading : Row) :
  (forall h stats,
      health_on (self e) reading = Some h ->
      baseline_stats (self e) = Some stats ->
      exists payload,
        fst (monitor now reading e) =
          Returned (Some (should_publish_mqtt (risk_logic h)
                            (last_risk (self e))
                            (deque_append 3 (health_history (self e)) h))) /\
        outbox (snd (monitor now reading e)) =
          (outbox e ++ [(device_id (self e), payload)])%list /\
        p_risk payload = risk_logic h /\
        p_health payload = round_ h 1) /\
  (health_on (self e) reading = None \/ baseline_stats (self e) = None ->
      fst (monitor now reading e) = Returned None /\
      outbox (snd (monitor now reading e)) = outbox e).
Proof.
  split.
  - intros h stats Hh Hb.
    destruct (handle_monitoring_scored e now reading h stats Hh Hb)
      as (msg & payload & -> & Hr & Hp).
    exists payload. repeat split; assumption.
  - apply handle_monitoring_unscored.
Qed.

(** C8: for a reading classified WARNING, [should_publish_mqtt] is true
    iff the previously recorded risk was not WARNING; the stored
    [last_risk] is the risk of the current reading after every
    evaluation, whatever the flag; hence in a run of three WARNING
    readings only the first call gives true. *)
Theorem warning_edge_triggered (e : Env) (stats : Stats) :
  baseline_stats (self e) = Some stats ->
  (forall now r h,
      health_on (self e) r = Some h ->
      risk_logic h = WARNING ->
      (fst (monitor now r e) = Returned (Some true) <->
       last_risk (self e) <> WARNING) /\
      (fst (monitor now r e) = Returned (Some false) <->
       last_risk (self e) = WARNING)) /\
  (forall now r h,
      health_on (self e) r = Some h ->
      exists flag,
        fst (monitor now r e) = Returned (Some flag) /\
        last_risk (self (snd (monitor now r e))) = risk_logic h) /\
  (forall n1 n2 n3 r1 r2 r3 h1 h2 h3,
      health_on (self e) r1 = Some h1 ->
      health_on (self e) r2 = Some h2 ->
      health_on (self e) r3 = Some h3 ->
      risk_logic h1 = WARNING ->
      risk_logic h2 = WARNING ->
      risk_logic h3 = WARNING ->
      last_risk (self e) <> WARNING ->
      fst (monitor_all e [(n1, r1); (n2, r2); (n3, r3)]) =
        [Returned (Some true); Returned (Some false); Returned (Some false)]).
Proof.
  intros Hb. split; [|split].
  - intros now r h Hh Hw.
    destruct (handle_monitoring_flag e now r h stats Hh Hb) as [F _].
    rewrite F. unfold should_publish_mqtt. rewrite Hw. cbn.
    destruct (last_risk (self e)); cbn; split; split; intros H;
      try reflexivity; try discriminate; try congruence.
  - intros now r h Hh.
    destruct (handle_monitoring_flag e now r h stats Hh Hb) as [F S].
    eexists. split; [exact F|]. rewrite S. reflexivity.
  - intros n1 n2 n3 r1 r2 r3 h1 h2 h3 H1 H2 H3 W1 W2 W3 Hlast.
    destruct (handle_monitoring_flag e n1 r1 h1 stats H1 Hb) as [F1 S1].
    set (e1 := snd (monitor n1 r1 e)) in *.
    assert (H2' : health_on (self e1) r2 = Some h2) by (rewrite S1; exact H2).
    assert (Hb1 : baseline_stats (self e1) = Some stats) by (rewrite S1; exact Hb).
    destruct (handle_monitoring_flag e1 n2 r2 h2 stats H2' Hb1) as [F2 S2].
    set (e2 := snd (monitor n2 r2 e1)) in *.
    assert (H3' : health_on (self e2) r3 = Some h3)
      by (rewrite S2, health_of_scored, S1; exact H3).
    assert (Hb2 : baseline_stats (self e2) = Some stats)
      by (rewrite S2, baseline_stats_scored; exact Hb1).
    destruct (handle_monitoring_flag e2 n3 r3 h3 stats H3' Hb2) as [F3 _].
    cbn [monitor_run fst snd].
    fold e1. fold e2. rewrite F1, F2, F3.
    rewrite S2, S1. cbn [scored last_risk health_history set_last_risk
                         set_health_history set_sensor_buffer].
    rewrite W1, W2, W3. unfold should_publish_mqtt. cbn.
    destruct (last_risk (self e)); cbn; try reflexivity; congruence.
Qed.

End Monitoring.

(** ** The monitoring path on the sample device *)

(** C1, as stated, fails on the monitoring path of [DeviceManager]: a
    reading mapped to health 80 is published as NORMAL where
    [classify_risk] says WARNING, and health 50 is WARNING on that path
    where [classify_risk] says CRITICAL. *)
Lemma monitoring_path_thresholds_differ :
  (exists payload,
      outbox (snd (handle_monitoring Sample.decision_function Sample.round_
                     0 (Sample.row (3 # 5))
                     (Sample.monitoring_env Sample.stats)))
        = [("esp32"%string, payload)] /\
      p_health payload == 80 /\
      p_risk payload = NORMAL /\
      classify_risk (p_health payload) = WARNING) /\
  risk_logic 50 = WARNING /\ classify_risk 50 = CRITICAL.
Proof.
  split; [|split; reflexivity].
  eexists. split; [vm_compute; reflexivity|].
  repeat split; reflexivity.
Qed.

Lemma risk_classification_witness :
  exists payload,
    outbox (snd (handle_monitoring Sample.decision_function Sample.round_
                   0 (Sample.row (-(4 # 5)))
                   (Sample.monitoring_env Sample.stats)))
      = [("esp32"%string, payload)] /\
    p_risk payload = CRITICAL.
Proof.
  destruct (risk_classification Sample.decision_function Sample.round_
              (map_health_anchors (-1) 1
                 (r_temperature (frame_mean [Sample.row (-(4 # 5))]))))
    as (_ & _ & _ & _ & _ & _ & _ & _ & H).
  destruct (H (Sample.monitoring_env Sample.stats) 0 (Sample.row (-(4 # 5)))
              Sample.stats eq_refl eq_refl) as (payload & Hout & Hrisk).
  exists payload. split; [exact Hout|].
  rewrite Hrisk. reflexivity.
Defined.

(** C3, as stated, fails for readings with health in [30, 50): they are
    WARNING on the monitoring path, so of three consecutive readings at
    health 40 the first raises the flag (WARNING edge) and the third does
    not. *)
Lemma persistent_critical_not_on_third :
  (exists h,
      health_of Sample.decision_function
        (Sample.monitoring_manager Sample.stats) (Sample.row (-(1 # 5)))
        = Some h /\ h == 40 /\ h < 50) /\
  fst (monitor_run Sample.decision_function Sample.round_
         (Sample.monitoring_env Sample.stats)
         [(0, Sample.row (-(1 # 5))); (2, Sample.row (-(1 # 5)));
          (4, Sample.row (-(1 # 5)))])
  = [Returned (Some true); Returned (Some false); Returned (Some false)].
Proof.
  split; [|vm_compute; reflexivity].
  eexists. split; [reflexivity|]. split; reflexivity.
Qed.

Lemma persistent_critical_on_third_witness :
  fst (monitor_run Sample.decision_function Sample.round_
         (Sample.monitoring_env Sample.stats)
         [(0, Sample.row (-(4 # 5))); (2, Sample.row (-(9 # 10)));
          (4, Sample.row (-(4 # 5)))])
  = [Returned (Some false); Returned (Some false); Returned (Some true)].
Proof.
  refine (proj1 (persistent_critical_on_third
                   Sample.decision_function Sample.round_
                   (Sample.monitoring_env Sample.stats) Sample.stats
                   0 2 4 _ _ _ _ _ _
                   eq_refl eq_refl eq_refl eq_refl _ _ _ _));
    vm_compute; solve [reflexivity | discriminate].
Defined.

(** C4, as stated, fails: the second of two WARNING readings is not a
    notifying transition ([should_publish_mqtt] is false), and its
    payload is published all the same. *)
Lemma suppressed_reading_is_published :
  let r := monitor_run Sample.decision_function Sample.round_
             (Sample.monitoring_env Sample.stats)
             [(0, Sample.row (-(1 # 5))); (2, Sample.row (-(1 # 5)))] in
  fst r = [Returned (Some true); Returned (Some false)] /\
  length (outbox (snd r)) = 2%nat /\
  List.map (fun tp => p_risk (snd tp)) (outbox (snd r)) = [WARNING; WARNING].
Proof.
  vm_compute. repeat split; reflexivity.
Qed.

Lemma publish_does_not_consult_gate_witness :
  exists payload,
    outbox (snd (handle_monitoring Sample.decision_function Sample.round_
                   0 (Sample.row (-(1 # 5)))
                   (Sample.monitoring_env Sample.stats)))
      = [("esp32"%string, payload)].
Proof.
  destruct (proj1 (publish_does_not_consult_gate
                     Sample.decision_function Sample.round_
                     (Sample.monitoring_env Sample.stats) 0
                     (Sample.row (-(1 # 5))))
              _ Sample.stats eq_refl eq_refl)
    as (payload & _ & Hout & _).
  exists payload. exact Hout.
Defined.

Lemma warning_edge_triggered_witness :
  fst (monitor_run Sample.decision_function Sample.round_
         (Sample.monitoring_env Sample.stats)
         [(0, Sample.row (-(1 # 5))); (2, Sample.row 0);
          (4, Sample.row (1 # 10))])
  = [Returned (Some true); Returned (Some false); Returned (Some false)].
Proof.
  refine (proj2 (proj2 (warning_edge_triggered
                   Sample.decision_function Sample.round_
                   (Sample.monitoring_env Sample.stats) Sample.stats
                   eq_refl))
                0 2 4 _ _ _ _ _ _
                eq_refl eq_refl eq_refl _ _ _ _);
    vm_compute; solve [reflexivity | discriminate].
Defined.

Lemma map_health_degenerate_clamps_witness :
  exists h,
    map_health (1 # 20) (Sample.monitoring_env Sample.degenerate_stats)
      = (Returned h, Sample.monitoring_env Sample.degenerate_stats) /\
    0 <= h <= 100.
Proof.
  assert (Hdeg : max_nice Sample.degenerate_stats
                 <= min_anom Sample.degenerate_stats)
    by (vm_compute; discriminate).
  exact (proj1 (map_health_degenerate_clamps
                  (Sample.monitoring_env Sample.degenerate_stats)
                  Sample.degenerate_stats eq_refl Hdeg) (1 # 20)).
Defined.

(** ** Calibration *)

Section Calibration.

Variable decision_function : Scaler -> Model -> Row -> option Q.
Variable score_percentiles : list Row -> Q * Q.
Variable frame_std : list Row -> Row.
Variable round_ : Q -> nat -> Q.

Local Abbreviation calibrate := (handle_calibration score_percentiles frame_std).
Local Abbreviation process :=
  (process_reading decision_function score_percentiles frame_std round_).

(** The stopping test of [handle_calibration]. *)
Lemma stopping_condition_spec (count : nat) (elapsed : Q) :
  (CALIBRATION_SAMPLES <=? count)%nat || Qlt_bool MAX_CALIBRATION_TIME elapsed
    = true
  <-> (100 <= count)%nat \/ 300 < elapsed.
Proof.
  rewrite orb_true_iff, Nat.leb_le, Qlt_bool_iff. reflexivity.
Qed.

Lemma handle_calibration_continues (e : Env) (now : Q)
    (fault : option TrainFault) (r : Row) (csv : Csv) :
  training_file (files e) = Good csv ->
  header csv = true ->
  (CALIBRATION_SAMPLES <=? length (lines csv ++ [r]))%nat
    || Qlt_bool MAX_CALIBRATION_TIME (elapsed_time now (self e)) = false ->
  calibrate now fault r e =
    (Returned tt,
     {| self := self e;
        files := set_training_file
                   (Good {| header := true; lines := lines csv ++ [r] |})
                   (files e);
        console :=
          (console e ++
           if (length (lines csv ++ [r]) mod 10 =? 0)%nat
           then [(device_id (self e), Calibrating (length (lines csv ++ [r])))]
           else [])%list;
        outbox := outbox e |}).
Proof.
  intros Hf Hh Hstop.
  destruct e as [m fs con out]. destruct csv as [hd buf]. cbn [self files header lines] in *. subst hd.
  unfold handle_calibration, append_training_data, read_csv, bind,
    try_except, update_files, get_files, get_self, load, ret, print.
  cbn [fst snd self files console outbox]. rewrite Hf.
  cbn [training_file set_training_file header lines rows fst snd
       self files console outbox].
  rewrite Hstop.
  destruct (length (buf ++ [r]) mod 10 =? 0)%nat; cbn.
  - reflexivity.
  - rewrite app_nil_r. reflexivity.
Qed.

Local Abbreviation stats_for := (stats_of score_percentiles frame_std).

Lemma train_model_succeeds (df : DataFrame) (e : Env) :
  columns_ok df = true ->
  rows df <> [] ->
  train_model score_percentiles frame_std None df e =
    (Returned tt,
     {| self := self e;
        files := set_calibration_file (Good (stats_for (rows df)))
                   (set_model_file (Good (IsolationForest_fit (rows df)))
                      (set_scaler_file (Good (StandardScaler_fit (rows df)))
                         (files e)));
        console := (console e ++ [(device_id (self e), TrainingSuccessful)])%list;
        outbox := outbox e |}).
Proof.
  intros Hc Hr. destruct e as [m fs con out].
  unfold train_model, dump, raises_if, bind, try_except, update_files,
    print, ret.
  rewrite Hc. destruct (rows df) as [|x xs] eqn:E; [contradiction|].
  reflexivity.
Qed.

Lemma load_artifacts_succeeds (e : Env) (mdl : Model) (sc : Scaler)
    (stats : Stats) :
  model_file (files e) = Good mdl ->
  scaler_file (files e) = Good sc ->
  calibration_file (files e) = Good stats ->
  load_artifacts e =
    (Returned tt,
     {| self := set_stats (Some stats)
                  (set_scaler (Some sc) (set_model (Some mdl) (self e)));
        files := files e;
        console := (console e ++ [(device_id (self e), ArtifactsLoaded)])%list;
        outbox := outbox e |}).
Proof.
  intros Hm Hs Hc. destruct e as [m fs con out]. cbn [files self] in *.
  unfold load_artifacts, bind, try_except, get_files, update_self, load,
    print, ret.
  cbn [files fst snd]. rewrite Hm. cbn [files fst snd]. rewrite Hs.
  cbn [files fst snd]. rewrite Hc. reflexivity.
Qed.

(** When an artifact does not load, the device is reset to NEW and the
    state file says so. *)
Lemma load_artifacts_resets (e : Env) :
  (forall mdl, model_file (files e) <> Good mdl) \/
  (forall sc, scaler_file (files e) <> Good sc) \/
  (forall stats, calibration_file (files e) <> Good stats) ->
  fst (load_artifacts e) = Returned tt /\
  state (self (snd (load_artifacts e))) = "NEW"%string /\
  files (snd (load_artifacts e)) =
    set_state_file (Good (Some "NEW"%string)) (files e).
Proof.
  intros H. destruct e as [m fs con out]. cbn [files self] in *.
  unfold load_artifacts, save_state, bind, try_except, get_files,
    update_self, update_files, load, print, ret, raise.
  cbn [files fst snd].
  destruct (model_file fs) as [| |mdl] eqn:Em;
    try (repeat split; reflexivity).
  cbn [files fst snd].
  destruct (scaler_file fs) as [| |sc] eqn:Es;
    try (repeat split; reflexivity).
  cbn [files fst snd].
  destruct (calibration_file fs) as [| |stats] eqn:Ec;
    try (repeat split; reflexivity).
  exfalso. destruct H as [H|[H|H]]; eapply H; reflexivity.
Qed.

Lemma handle_calibration_trains (e : Env) (now : Q) (r : Row) (csv : Csv) :
  training_file (files e) = Good csv ->
  header csv = true ->
  (CALIBRATION_SAMPLES <=? length (lines csv ++ [r]))%nat
    || Qlt_bool MAX_CALIBRATION_TIME (elapsed_time now (self e)) = true ->
  let buffer := (lines csv ++ [r])%list in
  calibrate now None r e =
    (Returned tt,
     {| self := set_stats (Some (stats_for buffer))
                  (set_scaler (Some (StandardScaler_fit buffer))
                     (set_model (Some (IsolationForest_fit buffer))
                        (set_state "MONITORING" (self e))));
        files := set_state_file (Good (Some "MONITORING"%string))
                   (set_calibration_file (Good (stats_for buffer))
                      (set_model_file (Good (IsolationForest_fit buffer))
                         (set_scaler_file (Good (StandardScaler_fit buffer))
                            (set_training_file
                               (Good {| header := true; lines := buffer |})
                               (files e)))));
        console :=
          (console e ++
           [(device_id (self e),
             CalibrationComplete (length buffer) (elapsed_time now (self e)));
            (device_id (self e), TrainingSuccessful);
            (device_id (self e), StateChangedTo "MONITORING");
            (device_id (self e), ArtifactsLoaded)])%list;
        outbox := outbox e |}).
Proof.
  intros Hf Hh Hstop buffer. subst buffer.
  destruct e as [m fs con out]. destruct csv as [hd buf].
  cbn [self files header lines] in *. subst hd.
  unfold handle_calibration, append_training_data, read_csv, bind,
    try_except, update_files, get_files, get_self, load, ret, print.
  cbn [fst snd self files console outbox]. rewrite Hf.
  cbn [training_file set_training_file header lines rows fst snd
       self files console outbox].
  rewrite Hstop.
  rewrite train_model_succeeds;
    [|reflexivity|cbn [rows]; destruct buf; discriminate].
  cbn [rows self files console outbox].
  unfold save_state, bind, update_self, update_files, print.
  cbn [self files console outbox].
  erewrite load_artifacts_succeeds by reflexivity.
  cbn [self files console outbox device_id set_state].
  rewrite <- !app_assoc. reflexivity.
Qed.

Lemma handle_calibration_announces (e : Env) (now : Q)
    (fault : option TrainFault) (r : Row) (csv : Csv) :
  training_file (files e) = Good csv ->
  header csv = true ->
  (CALIBRATION_SAMPLES <=? length (lines csv ++ [r]))%nat
    || Qlt_bool MAX_CALIBRATION_TIME (elapsed_time now (self e)) = true ->
  exists printed,
    console (snd (calibrate now fault r e)) =
      (console e ++
       (device_id (self e),
        CalibrationComplete (length (lines csv ++ [r]))
          (elapsed_time now (self e))) :: printed)%list.
Proof.
  intros Hf Hh Hstop.
  destruct e as [m fs con out]. destruct csv as [hd buf].
  cbn [self files header lines] in *. subst hd.
  unfold handle_calibration, append_training_data, read_csv.
  unfold bind at 1 2 3 4, try_except, update_files, get_files, get_self,
    load, ret.
  cbn [fst snd self files console outbox]. rewrite Hf.
  cbn [training_file set_training_file header lines rows fst snd
       self files console outbox].
  unfold bind at 1. cbn [fst snd self files console outbox].
  rewrite Hstop.
  unfold bind at 1, print at 1. cbn [self files console outbox].
  match goal with
  | |- context [bind ?c ?k ?env] =>
      assert (Hfr : frame env (snd (bind c k env)));
      [ apply framed_bind;
        [ apply framed_train_model
        | intros ?; apply framed_bind;
          [ apply framed_save_state | intros ?; apply framed_load_artifacts ] ]
      | destruct (bind c k env) as [[u|] e1] ]
  end;
    destruct Hfr as (Hd & _ & [printed Hp] & _);
    cbn [fst snd self files console outbox] in *.
  - exists printed. rewrite Hp, <- app_assoc. reflexivity.
  - exists (printed ++ [(device_id (self e1), CalibrationError)])%list.
    unfold print. cbn [fst snd console].
    rewrite Hp, <- !app_assoc. reflexivity.
Qed.

(** C6 (amended): for a device in CALIBRATING (whose training file was
    started with its header), [process_reading] appends the reading, and
    training is triggered -- the "Calibration complete" message with the
    sample count is printed -- exactly when the count after the append is
    >= 100 or the elapsed time exceeds 300 seconds, where the elapsed time
    runs from the calibration start this process recorded and counts as 0
    when none is recorded (a device found in CALIBRATING at start-up).
    When training is not triggered, the manager (still CALIBRATING) and
    the artifacts are untouched.  When it is triggered and training
    succeeds, scaler, model and calibration statistics are those fitted
    on exactly the full buffer, and the device is in MONITORING with them
    loaded. *)
Theorem calibration_stopping_condition (e : Env) (now : Q)
    (fault : option TrainFault) (reading : Reading) (csv : Csv) :
  state (self e) = "CALIBRATING"%string ->
  training_file (files e) = Good csv ->
  header csv = true ->
  let buffer := (lines csv ++ [mapped_reading reading])%list in
  let count := length buffer in
  let elapsed := elapsed_time now (self e) in
  let e' := snd (process now fault reading e) in
  (forall t0, calibration_start_time (self e) = Some t0 -> ~ t0 == 0 ->
     elapsed = now - t0) /\
  (calibration_start_time (self e) = None -> elapsed == 0) /\
  (((100 <= count)%nat \/ 300 < elapsed) <->
   exists printed,
     console e' =
       (console e ++
        (device_id (self e), CalibrationComplete count elapsed) :: printed)%list) /\
  (~ ((100 <= count)%nat \/ 300 < elapsed) ->
     self e' = self e /\
     files e' =
       set_training_file (Good {| header := true; lines := buffer |})
         (files e)) /\
  (((100 <= count)%nat \/ 300 < elapsed) -> fault = None ->
     state (self e') = "MONITORING"%string /\
     scaler (self e') = Some (StandardScaler_fit buffer) /\
     model (self e') = Some (IsolationForest_fit buffer) /\
     score_mapping (self e') = Some (stats_for buffer) /\
     baseline_stats (self e') = Some (stats_for buffer) /\
     files e' =
       {| state_file := Good (Some "MONITORING"%string);
          training_file := Good {| header := true; lines := buffer |};
          model_file := Good (IsolationForest_fit buffer);
          scaler_file := Good (StandardScaler_fit buffer);
          calibration_file := Good (stats_for buffer) |}).
Proof.
  intros Hst Hf Hh buffer count elapsed e'.
  assert (Hrun : process now fault reading e =
                 calibrate now fault (mapped_reading reading) e).
  { unfold process_reading. unfold bind at 1, get_self at 1.
    rewrite Hst. reflexivity. }
  subst e'. rewrite Hrun.
  destruct ((CALIBRATION_SAMPLES <=? count)%nat
            || Qlt_bool MAX_CALIBRATION_TIME elapsed) eqn:Hstop.
  - assert (Hyes : (100 <= count)%nat \/ 300 < elapsed)
      by (apply stopping_condition_spec; exact Hstop).
    split; [|split; [|split; [|split]]].
    + intros t0 Ht0 Hnz. subst elapsed. unfold elapsed_time. rewrite Ht0.
      apply Qeq_bool_false in Hnz. rewrite Hnz. reflexivity.
    + intros Hnone. subst elapsed. unfold elapsed_time. rewrite Hnone. ring.
    + split; [intros _|intros _; exact Hyes].
      apply (handle_calibration_announces e now fault
               (mapped_reading reading) csv Hf Hh Hstop).
    + intros Hno. contradiction.
    + intros _ ->.
      rewrite (handle_calibration_trains e now (mapped_reading reading) csv
                 Hf Hh Hstop).
      cbn [snd self files]. repeat split.
  - assert (Hno : ~ ((100 <= count)%nat \/ 300 < elapsed)).
    { intros H. apply stopping_condition_spec in H. congruence. }
    split; [|split; [|split; [|split]]].
    + intros t0 Ht0 Hnz. subst elapsed. unfold elapsed_time. rewrite Ht0.
      apply Qeq_bool_false in Hnz. rewrite Hnz. reflexivity.
    + intros Hnone. subst elapsed. unfold elapsed_time. rewrite Hnone. ring.
    + split; [intros H; contradiction|].
      intros [printed Hp]. exfalso.
      rewrite (handle_calibration_continues e now fault
                 (mapped_reading reading) csv Hf Hh Hstop) in Hp.
      cbn [snd console] in Hp. apply app_inv_head in Hp.
      destruct (length (lines csv ++ [mapped_reading reading]) mod 10 =? 0)%nat;
        discriminate.
    + intros _.
      rewrite (handle_calibration_continues e now fault
                 (mapped_reading reading) csv Hf Hh Hstop).
      split; reflexivity.
    + intros H. contradiction.
Qed.

Lemma train_model_scaling_raises (df : DataFrame) (e : Env) :
  train_model score_percentiles frame_std (Some ScalingRaises) df e =
    (Returned tt,
     {| self := set_state "NEW" (self e);
        files := set_state_file (Good (Some "NEW"%string)) (files e);
        console := (console e ++
                    [(device_id (self e), TrainingFailed);
                     (device_id (self e), StateChangedTo "NEW")])%list;
        outbox := outbox e |}).
Proof.
  destruct e as [m fs con out].
  unfold train_model, save_state, raises_if.
  rewrite bool_decide_eq_true_2 by reflexivity. rewrite orb_true_r.
  unfold bind, try_except, update_self, update_files, print, raise.
  cbn [fst snd self files console outbox device_id set_state].
  rewrite <- app_assoc. reflexivity.
Qed.

(** When the scaling step raises, the handler of [train_model] resets the
    state to NEW, and [handle_calibration] goes on to overwrite it: with
    loadable artifacts of an earlier training on disk the device ends in
    MONITORING on those, the buffer still in place. *)
Lemma handle_calibration_overrides_reset (e : Env) (now : Q) (r : Row)
    (csv : Csv) (mdl : Model) (sc : Scaler) (stats : Stats) :
  training_file (files e) = Good csv ->
  header csv = true ->
  (CALIBRATION_SAMPLES <=? length (lines csv ++ [r]))%nat
    || Qlt_bool MAX_CALIBRATION_TIME (elapsed_time now (self e)) = true ->
  model_file (files e) = Good mdl ->
  scaler_file (files e) = Good sc ->
  calibration_file (files e) = Good stats ->
  calibrate now (Some ScalingRaises) r e =
    (Returned tt,
     {| self := set_stats (Some stats)
                  (set_scaler (Some sc)
                     (set_model (Some mdl)
                        (set_state "MONITORING" (self e))));
        files := set_state_file (Good (Some "MONITORING"%string))
                   (set_training_file
                      (Good {| header := true; lines := lines csv ++ [r] |})
                      (files e));
        console :=
          (console e ++
           [(device_id (self e),
             CalibrationComplete (length (lines csv ++ [r]))
               (elapsed_time now (self e)));
            (device_id (self e), TrainingFailed);
            (device_id (self e), StateChangedTo "NEW");
            (device_id (self e), StateChangedTo "MONITORING");
            (device_id (self e), ArtifactsLoaded)])%list;
        outbox := outbox e |}).
Proof.
  intros Hf Hh Hstop Hm Hs Hc.
  destruct e as [m fs con out]. destruct csv as [hd buf].
  cbn [self files header lines] in *. subst hd.
  unfold handle_calibration, append_training_data, read_csv.
  unfold bind at 1 2 3 4, try_except at 1, update_files, get_files,
    get_self, load, ret.
  cbn [fst snd self files console outbox]. rewrite Hf.
  cbn [training_file set_training_file header lines rows fst snd
       self files console outbox].
  unfold bind at 1. cbn [fst snd self files console outbox].
  rewrite Hstop.
  unfold bind at 1, print at 1. cbn [fst snd self files console outbox].
  unfold bind at 1. rewrite train_model_scaling_raises.
  unfold save_state, bind, update_self, update_files, print.
  cbn [fst snd self files console outbox].
  erewrite load_artifacts_succeeds by (cbn; eassumption).
  cbn [self files console outbox device_id set_state set_state_file
       state_file training_file model_file scaler_file calibration_file].
  rewrite <- !app_assoc. reflexivity.
Qed.

End Calibration.

(** C5 on the sample device: in CALIBRATING since clock reading 1000,
    with the artifacts of an earlier training on disk, a reading arrives
    at clock reading 1400 (the time ceiling has passed) and the scaling
    step of the training raises.  The claim asks for state NEW and a
    discarded buffer; the code ends in MONITORING on the earlier
    artifacts, the state file says MONITORING, and the buffer is still on
    disk. *)
Theorem training_failure_ends_in_monitoring :
  let e := Sample.calibrating_env
             (Sample.trained_files (Good (Some "CALIBRATING"%string))) in
  let e' := snd (process_reading Sample.decision_function
                   Sample.score_percentiles Sample.frame_std Sample.round_
                   1400 (Some ScalingRaises) (Sample.reading (1 # 4) "t3") e) in
  List.map snd (console e') =
    [CalibrationComplete 3 400; TrainingFailed; StateChangedTo "NEW";
     StateChangedTo "MONITORING"; ArtifactsLoaded] /\
  state (self e') = "MONITORING"%string /\
  state_file (files e') = Good (Some "MONITORING"%string) /\
  model (self e') = Some (IsolationForest_fit Sample.old_rows) /\
  training_file (files e') =
    Good {| header := true;
            lines := (Sample.old_rows ++ [Sample.row (1 # 4)])%list |}.
Proof.
  vm_compute. repeat split; reflexivity.
Qed.

(** ** Start-up *)

Lemma load_state_without_state_file (e : Env) :
  state_file (files e) = Absent \/ state_file (files e) = Corrupt ->
  exists_ (model_file (files e)) = true ->
  exists_ (scaler_file (files e)) = true ->
  load_state e =
    (Returned "MONITORING"%string,
     {| self := self e; files := files e;
        console := (console e ++
                    [(device_id (self e), FoundExistingArtifacts)])%list;
        outbox := outbox e |}).
Proof.
  intros Hst Hm Hs. destruct e as [m fs con out]. cbn [self files] in *.
  unfold load_state, bind, try_except, get_files, load, print, ret, raise.
  cbn [files fst snd].
  destruct Hst as [-> | ->]; cbn [exists_ fst snd files];
    rewrite Hm, Hs; reflexivity.
Qed.

(** C10 (amended): at start-up, when the state file is missing or
    unreadable and both the model and the scaler file exist,
    [load_state] answers MONITORING and the constructor loads the
    artifacts.  The device starts in MONITORING, calibration skipped,
    when the model, the scaler and the calibration file all load; when
    one of them does not (the calibration file is missing, or a file is
    not loadable), the constructor resets the device to NEW and writes
    that to the state file. *)
Theorem init_without_state_file (id : string) (fs : DeviceFiles)
    (con : list (string * Message)) (out : list (string * Payload)) :
  state_file fs = Absent \/ state_file fs = Corrupt ->
  exists_ (model_file fs) = true ->
  exists_ (scaler_file fs) = true ->
  let e := {| self := blank_manager id; files := fs;
              console := con; outbox := out |} in
  fst (load_state e) = Returned "MONITORING"%string /\
  (forall mdl sc stats,
      model_file fs = Good mdl ->
      scaler_file fs = Good sc ->
      calibration_file fs = Good stats ->
      state (self (snd (init e))) = "MONITORING"%string /\
      model (self (snd (init e))) = Some mdl /\
      scaler (self (snd (init e))) = Some sc /\
      score_mapping (self (snd (init e))) = Some stats /\
      files (snd (init e)) = fs) /\
  ((forall mdl, model_file fs <> Good mdl) \/
   (forall sc, scaler_file fs <> Good sc) \/
   (forall stats, calibration_file fs <> Good stats) ->
      state (self (snd (init e))) = "NEW"%string /\
      state_file (files (snd (init e))) = Good (Some "NEW"%string)).
Proof.
  intros Hst Hm Hs e.
  assert (Hinit : init e =
            load_artifacts
              {| self := set_state "MONITORING" (blank_manager id);
                 files := fs;
                 console := (con ++ [(id, FoundExistingArtifacts)])%list;
                 outbox := out |}).
  { unfold init. unfold bind at 1.
    rewrite (load_state_without_state_file e Hst Hm Hs). reflexivity. }
  split; [|split].
  - rewrite (load_state_without_state_file e Hst Hm Hs). reflexivity.
  - intros mdl sc stats Gm Gs Gc. rewrite Hinit.
    erewrite load_artifacts_succeeds by (cbn; eassumption).
    cbn. repeat split; reflexivity.
  - intros Hbad. rewrite Hinit.
    match goal with
    | |- context [load_artifacts ?env] =>
        destruct (load_artifacts_resets env Hbad) as (_ & H1 & H2)
    end.
    rewrite H1, H2. split; reflexivity.
Qed.

Lemma init_without_state_file_witness :
  state (self (snd (init
    {| self := blank_manager "esp32";
       files := Sample.trained_files Absent;
       console := []; outbox := [] |}))) = "MONITORING"%string.
Proof.
  exact (proj1 (proj1 (proj2 (init_without_state_file "esp32"
                  (Sample.trained_files Absent) [] []
                  (or_introl eq_refl) eq_refl eq_refl))
               _ _ _ eq_refl eq_refl eq_refl)).
Defined.

(** C10, as stated, fails: with the state file missing, the model and
    the scaler file present and the calibration file missing, the device
    does not start in MONITORING; it is reset to NEW and will calibrate. *)
Lemma init_with_missing_calibration_file :
  let fs := set_calibration_file Absent (Sample.trained_files Absent) in
  let e' := snd (init {| self := blank_manager "esp32"; files := fs;
                         console := []; outbox := [] |}) in
  state_file fs = Absent /\
  exists_ (model_file fs) = true /\
  exists_ (scaler_file fs) = true /\
  state (self e') = "NEW"%string /\
  state_file (files e') = Good (Some "NEW"%string) /\
  List.map snd (console e') =
    [FoundExistingArtifacts; ArtifactLoadError; StateChangedTo "NEW"].
Proof.
  vm_compute. repeat split; reflexivity.
Qed.

Lemma calibration_stopping_condition_witness :
  let buffer := (List.repeat (Sample.row 0) 99 ++ [Sample.row (1 # 4)])%list in
  let fs := set_training_file
              (Good {| header := true; lines := List.repeat (Sample.row 0) 99 |})
              no_files in
  let e' := snd (process_reading Sample.decision_function
                   Sample.score_percentiles Sample.frame_std Sample.round_
                   1010 None (Sample.reading (1 # 4) "t100")
                   (Sample.calibrating_env fs)) in
  length buffer = 100%nat /\
  state (self e') = "MONITORING"%string /\
  model (self e') = Some (IsolationForest_fit buffer).
Proof.
  intros buffer fs e'. split; [reflexivity|].
  destruct (calibration_stopping_condition
              Sample.decision_function Sample.score_percentiles
              Sample.frame_std Sample.round_
              (Sample.calibrating_env fs) 1010 None
              (Sample.reading (1 # 4) "t100")
              {| header := true; lines := List.repeat (Sample.row 0) 99 |}
              eq_refl eq_refl eq_refl)
    as (_ & _ & _ & _ & Htrain).
  destruct (Htrain (or_introl (le_n 100)) eq_refl) as (H1 & _ & H2 & _).
  exact (conj H1 H2).
Defined.

(** C6, as stated, fails for a device that resumes CALIBRATING after a
    restart: its calibration started at clock reading 1000, a reading
    arrives at 1400, more than 300 seconds later, and no training is
    triggered, because the new process has no start time and takes the
    elapsed time as 0.  Without the restart the same reading triggers the
    training. *)
Lemma time_ceiling_lost_on_restart :
  let started := run_item Sample.decision_function Sample.score_percentiles
                   Sample.frame_std Sample.round_ 1000 None
                   Sample.empty_system "esp32" (Dict (Sample.reading 0 "t1")) in
  let resumed := run_item Sample.decision_function Sample.score_percentiles
                   Sample.frame_std Sample.round_ 1400 None
                   (restart started) "esp32" (Dict (Sample.reading 0 "t2")) in
  let continued := run_item Sample.decision_function Sample.score_percentiles
                     Sample.frame_std Sample.round_ 1400 None
                     started "esp32" (Dict (Sample.reading 0 "t2")) in
  (state <$> devices started !! "esp32"%string) = Some "CALIBRATING"%string /\
  (calibration_start_time <$> devices started !! "esp32"%string)
    = Some (Some 1000) /\
  300 < 1400 - 1000 /\
  (state <$> devices resumed !! "esp32"%string) = Some "CALIBRATING"%string /\
  (model_file <$> models_dir resumed !! "esp32"%string) = Some Absent /\
  List.map snd (stdout resumed) = [NewDeviceDetected; LoadedState "CALIBRATING"] /\
  (state <$> devices continued !! "esp32"%string) = Some "MONITORING"%string.
Proof.
  vm_compute. repeat split; reflexivity.
Qed.

(** The time ceiling: a device with 79 samples whose 80th arrives 301
    seconds after the calibration start trains on the 80-sample buffer. *)
Example calibration_time_ceiling :
  let buffer := (List.repeat (Sample.row 0) 79 ++ [Sample.row (1 # 4)])%list in
  let fs := set_training_file
              (Good {| header := true; lines := List.repeat (Sample.row 0) 79 |})
              no_files in
  let e' := snd (process_reading Sample.decision_function
                   Sample.score_percentiles Sample.frame_std Sample.round_
                   1301 None (Sample.reading (1 # 4) "t80")
                   (Sample.calibrating_env fs)) in
  length buffer = 80%nat /\
  state (self e') = "MONITORING"%string /\
  model (self e') = Some (IsolationForest_fit buffer) /\
  scaler (self e') = Some (StandardScaler_fit buffer).
Proof.
  vm_compute. repeat split; reflexivity.
Qed.

(** Before the 100th sample and within the time ceiling nothing is
    trained: the 99th sample leaves the device in CALIBRATING. *)
Example calibration_not_before :
  let fs := set_training_file
              (Good {| header := true; lines := List.repeat (Sample.row 0) 98 |})
              no_files in
  let e' := snd (process_reading Sample.decision_function
                   Sample.score_percentiles Sample.frame_std Sample.round_
                   1010 None (Sample.reading (1 # 4) "t99")
                   (Sample.calibrating_env fs)) in
  state (self e') = "CALIBRATING"%string /\
  model (self e') = None /\
  model_file (files e') = Absent.
Proof.
  vm_compute. repeat split; reflexivity.
Qed.

(** ** The ingestion loop *)

Section Ingestion.

Variable decision_function : Scaler -> Model -> Row -> option Q.
Variable score_percentiles : list Row -> Q * Q.
Variable frame_std : list Row -> Row.
Variable round_ : Q -> nat -> Q.

Local Abbreviation process :=
  (process_reading decision_function score_percentiles frame_std round_).
Local Abbreviation item :=
  (run_item decision_function score_percentiles frame_std round_).
Local Abbreviation arrivals :=
  (run_arrivals decision_function score_percentiles frame_std round_).

Lemma run_method_registers {A} (id : string) (dm : DeviceManager) (c : M A)
    (sys : System) :
  devices (snd (run_method id dm c sys)) !! id
  = Some (self (snd (c {| self := dm; files := files_of sys id;
                          console := stdout sys; outbox := mqtt sys |}))).
Proof.
  unfold run_method. cbn [snd devices]. apply lookup_insert_eq.
Qed.

(** After an item with a timestamp, the device is registered and its last
    processed timestamp is that of the item. *)
Lemma run_item_records_timestamp (now : Q) (fault : option TrainFault)
    (sys : System) (id : string) (r : Reading) :
  truthy (in_timestamp r) = true ->
  exists dm,
    devices (item now fault sys id (Dict r)) !! id = Some dm /\
    last_processed_ts dm = in_timestamp r.
Proof.
  intros Hts. unfold run_item.
  set (sys1 := match devices sys !! id with Some _ => sys | None => _ end).
  rewrite Hts. cbn [negb].
  assert (Hreg : exists dm0, devices sys1 !! id = Some dm0).
  { subst sys1. destruct (devices sys !! id) as [dm0|] eqn:E.
    - exists dm0. exact E.
    - eexists. apply run_method_registers. }
  destruct Hreg as [dm0 Hdm0]. rewrite Hdm0.
  destruct (bool_decide (last_processed_ts dm0 = in_timestamp r)) eqn:Hdup.
  - exists dm0. split; [exact Hdm0|].
    apply bool_decide_eq_true_1 in Hdup. exact Hdup.
  - eexists. split; [apply run_method_registers|].
    match goal with
    | |- last_processed_ts (self (snd (?c ?env))) = _ =>
        destruct (framed_process_reading decision_function score_percentiles
                    frame_std round_ now fault r env) as (_ & Hkeep & _)
    end.
    rewrite Hkeep. reflexivity.
Qed.

(** C7: of two consecutive readings of a device that carry the same
    timestamp, the second is dropped before it reaches [process_reading]:
    the whole system is as the first left it.  The first is recorded as
    the last processed one, and when it was not itself a duplicate it did
    reach [process_reading], so the pair mutates the device exactly once. *)
Theorem duplicate_timestamp_dropped (sys : System) (id : string)
    (r1 r2 : Reading) (now1 now2 : Q) (fault1 fault2 : option TrainFault) :
  truthy (in_timestamp r1) = true ->
  in_timestamp r2 = in_timestamp r1 ->
  let sys1 := item now1 fault1 sys id (Dict r1) in
  item now2 fault2 sys1 id (Dict r2) = sys1 /\
  arrivals sys [ {| a_now := now1; a_fault := fault1;
                    a_device := id; a_value := Dict r1 |};
                 {| a_now := now2; a_fault := fault2;
                    a_device := id; a_value := Dict r2 |} ] = sys1 /\
  (exists dm, devices sys1 !! id = Some dm /\
              last_processed_ts dm = in_timestamp r1) /\
  (forall dm,
      devices sys !! id = Some dm ->
      last_processed_ts dm <> in_timestamp r1 ->
      sys1 = snd (run_method id (set_last_processed_ts (in_timestamp r1) dm)
                    (process now1 fault1 r1) sys)).
Proof.
  intros Hts Hsame sys1.
  destruct (run_item_records_timestamp now1 fault1 sys id r1 Hts)
    as (dm1 & Hdm1 & Hts1).
  fold sys1 in Hdm1.
  assert (Hdrop : item now2 fault2 sys1 id (Dict r2) = sys1).
  { unfold run_item at 1. rewrite Hdm1.
    rewrite Hsame, Hts. cbn [negb]. rewrite Hdm1.
    rewrite bool_decide_eq_true_2 by exact Hts1. reflexivity. }
  split; [exact Hdrop|]. split; [|split].
  - unfold run_arrivals. cbn [fold_left a_now a_fault a_device a_value].
    exact Hdrop.
  - exists dm1. split; assumption.
  - intros dm Hdm Hnew. subst sys1. unfold run_item.
    rewrite Hdm. rewrite Hts. cbn [negb]. rewrite Hdm.
    rewrite bool_decide_eq_false_2 by exact Hnew. reflexivity.
Qed.

End Ingestion.

Lemma duplicate_timestamp_dropped_witness :
  let first := run_item Sample.decision_function Sample.score_percentiles
                 Sample.frame_std Sample.round_ 1000 None
                 Sample.empty_system "esp32"
                 (Dict (Sample.reading 0 "2026-01-01T00:00:00")) in
  run_item Sample.decision_function Sample.score_percentiles
    Sample.frame_std Sample.round_ 1002 None first "esp32"
    (Dict (Sample.reading (1 # 2) "2026-01-01T00:00:00")) = first.
Proof.
  exact (proj1 (duplicate_timestamp_dropped
                  Sample.decision_function Sample.score_percentiles
                  Sample.frame_std Sample.round_
                  Sample.empty_system "esp32"
                  (Sample.reading 0 "2026-01-01T00:00:00")
                  (Sample.reading (1 # 2) "2026-01-01T00:00:00")
                  1000 1002 None None eq_refl eq_refl)).
Defined.

(** A new device's first reading starts the calibration; the duplicate
    that follows leaves the one-line buffer as it is. *)
Example duplicate_during_calibration :
  let sys2 := run_arrivals Sample.decision_function Sample.score_percentiles
                Sample.frame_std Sample.round_ Sample.empty_system
                [ {| a_now := 1000; a_fault := None; a_device := "esp32";
                     a_value := Dict (Sample.reading 0 "t1") |};
                  {| a_now := 1002; a_fault := None; a_device := "esp32";
                     a_value := Dict (Sample.reading (1 # 2) "t1") |} ] in
  (state <$> devices sys2 !! "esp32"%string) = Some "CALIBRATING"%string /\
  (training_file <$> models_dir sys2 !! "esp32"%string)
    = Some (Good {| header := true; lines := [Sample.row 0] |}).
Proof.
  vm_compute. split; reflexivity.
Qed.

(** * Further properties of the methods *)

(** ** No method lets an exception escape *)

Lemma returns_ret {A} (a : A) : returns (ret a).
Proof. intros e. now exists a. Qed.

Lemma returns_get_self : returns get_self.
Proof. intros e. eexists. reflexivity. Qed.

Lemma returns_get_files : returns get_files.
Proof. intros e. eexists. reflexivity. Qed.

Lemma returns_update_self (f : DeviceManager -> DeviceManager) :
  returns (update_self f).
Proof. intros e. now exists tt. Qed.

Lemma returns_update_files (f : DeviceFiles -> DeviceFiles) :
  returns (update_files f).
Proof. intros e. now exists tt. Qed.

Lemma returns_print (msg : Message) : returns (print msg).
Proof. intros e. now exists tt. Qed.

Lemma returns_publish (topic : string) (payload : Payload) :
  returns (publish topic payload).
Proof. intros e. now exists tt. Qed.

Lemma returns_bind {A B} (c : M A) (k : A -> M B) :
  returns c -> (forall a, returns (k a)) -> returns (bind c k).
Proof.
  intros Hc Hk e. unfold bind. destruct (Hc e) as [a Ha].
  destruct (c e) as [o e1]. simpl in Ha. subst o. apply Hk.
Qed.

(** A handler that returns makes the whole [try] return, whatever the
    body does. *)
Lemma returns_try_except {A} (body handler : M A) :
  returns handler -> returns (try_except body handler).
Proof.
  intros Hh e. unfold try_except.
  destruct (body e) as [[a|] e1]; [now exists a|apply Hh].
Qed.

Create HintDb returns.
#[local] Hint Resolve returns_ret returns_get_self returns_get_files
  returns_update_self returns_update_files returns_print returns_publish
  : returns.

Ltac returns_step :=
  first
    [ solve [auto with returns]
    | progress cbv zeta
    | match goal with
      | |- returns (bind _ _) => apply returns_bind; [|intros ?]
      | |- returns (try_except _ _) => apply returns_try_except
      | |- returns (if ?b then _ else _) => destruct b
      | |- returns (match ?x with _ => _ end) => destruct x
      end ].

Ltac returns_walk := repeat returns_step.

Section Returns.

Variable decision_function : Scaler -> Model -> Row -> option Q.
Variable score_percentiles : list Row -> Q * Q.
Variable frame_std : list Row -> Row.
Variable round_ : Q -> nat -> Q.

Lemma returns_save_state (s : string) : returns (save_state s).
Proof. unfold save_state. returns_walk. Qed.
#[local] Hint Resolve returns_save_state : returns.

Lemma returns_load_state : returns load_state.
Proof. unfold load_state. returns_walk. Qed.
#[local] Hint Resolve returns_load_state : returns.

Lemma returns_load_artifacts : returns load_artifacts.
Proof. unfold load_artifacts. returns_walk. Qed.
#[local] Hint Resolve returns_load_artifacts : returns.

Lemma returns_start_calibration (now : Q) : returns (start_calibration now).
Proof. unfold start_calibration. returns_walk. Qed.
#[local] Hint Resolve returns_start_calibration : returns.

Lemma returns_append_training_data (row : Row) :
  returns (append_training_data row).
Proof. unfold append_training_data. returns_walk. Qed.
#[local] Hint Resolve returns_append_training_data : returns.

Lemma returns_train_model (fault : option TrainFault) (df : DataFrame) :
  returns (train_model score_percentiles frame_std fault df).
Proof. unfold train_model. returns_walk. Qed.
#[local] Hint Resolve returns_train_model : returns.

Lemma returns_handle_calibration (now : Q) (fault : option TrainFault)
    (r : Row) :
  returns (handle_calibration score_percentiles frame_std now fault r).
Proof. unfold handle_calibration. returns_walk. Qed.
#[local] Hint Resolve returns_handle_calibration : returns.

Lemma returns_handle_monitoring (now : Q) (r : Row) :
  returns (handle_monitoring decision_function round_ now r).
Proof. unfold handle_monitoring. returns_walk. Qed.
#[local] Hint Resolve returns_handle_monitoring : returns.

(** X1: no exception escapes the constructor or [process_reading]:
    whatever the files hold, whichever step of the training or of the
    scoring raises, both return normally, so the polling loop is never
    left through them. *)
Theorem device_methods_never_raise (e : Env) (now : Q)
    (fault : option TrainFault) (reading : Reading) :
  fst (init e) = Returned tt /\
  fst (process_reading decision_function score_percentiles frame_std round_
         now fault reading e) = Returned tt.
Proof.
  assert (Hinit : returns init) by (unfold init; returns_walk).
  assert (Hproc : returns (process_reading decision_function score_percentiles
                             frame_std round_ now fault reading))
    by (unfold process_reading; returns_walk).
  destruct (Hinit e) as [[] H1]. destruct (Hproc e) as [[] H2].
  split; assumption.
Qed.

End Returns.

(** ** Invariants of the manager and its files *)

Section Maintains.

Variable I : DeviceManager -> DeviceFiles -> Prop.

Lemma maintains_ret {A} (a : A) : maintains I (ret a).
Proof. intros e H. exact H. Qed.

Lemma maintains_raise {A} : maintains I (@raise A).
Proof. intros e H. exact H. Qed.

Lemma maintains_get_self : maintains I get_self.
Proof. intros e H. exact H. Qed.

Lemma maintains_get_files : maintains I get_files.
Proof. intros e H. exact H. Qed.

Lemma maintains_print (msg : Message) : maintains I (print msg).
Proof. intros e H. exact H. Qed.

Lemma maintains_publish (topic : string) (payload : Payload) :
  maintains I (publish topic payload).
Proof. intros e H. exact H. Qed.

Lemma maintains_load {A} (f : File A) : maintains I (load f).
Proof. destruct f; intros e H; exact H. Qed.

Lemma maintains_lookup_key {A} (o : option A) : maintains I (lookup_key o).
Proof. destruct o; intros e H; exact H. Qed.

Lemma maintains_raises_if (b : bool) : maintains I (raises_if b).
Proof. destruct b; intros e H; exact H. Qed.

Lemma maintains_bind {A B} (c : M A) (k : A -> M B) :
  maintains I c -> (forall a, maintains I (k a)) -> maintains I (bind c k).
Proof.
  intros Hc Hk e H. unfold bind. specialize (Hc e H).
  destruct (c e) as [[a|] e1]; simpl in *; [apply Hk; exact Hc|exact Hc].
Qed.

Lemma maintains_try_except {A} (body handler : M A) :
  maintains I body -> maintains I handler ->
  maintains I (try_except body handler).
Proof.
  intros Hb Hh e H. unfold try_except. specialize (Hb e H).
  destruct (body e) as [[a|] e1]; simpl in *; [exact Hb|apply Hh; exact Hb].
Qed.

Lemma maintains_update_self (f : DeviceManager -> DeviceManager) :
  (forall m fs, I m fs -> I (f m) fs) -> maintains I (update_self f).
Proof. intros Hf e H. simpl. apply Hf. exact H. Qed.

Lemma maintains_update_files (f : DeviceFiles -> DeviceFiles) :
  (forall m fs, I m fs -> I m (f fs)) -> maintains I (update_files f).
Proof. intros Hf e H. simpl. apply Hf. exact H. Qed.

Lemma maintains_dump {A} (setter : File A -> DeviceFiles -> DeviceFiles)
    (io : option IOFault) (v : A) :
  (forall c m fs, I m fs -> I m (setter c fs)) ->
  maintains I (dump setter io v).
Proof.
  intros Hs. destruct io as [[|]|]; intros e H; simpl; auto.
Qed.

(** What an invariant has to stand for the methods to maintain it: the
    writes of the artifact and training files, the loading of the
    artifacts, the start time, the two deques, the last risk, and
    [save_state] taken as one step, with a state the code writes. *)
Hypothesis I_training_file : forall c m fs, I m fs -> I m (set_training_file c fs).
Hypothesis I_scaler_file : forall c m fs, I m fs -> I m (set_scaler_file c fs).
Hypothesis I_model_file : forall c m fs, I m fs -> I m (set_model_file c fs).
Hypothesis I_calibration_file :
  forall c m fs, I m fs -> I m (set_calibration_file c fs).
Hypothesis I_model : forall v m fs, I m fs -> I (set_model v m) fs.
Hypothesis I_scaler : forall v m fs, I m fs -> I (set_scaler v m) fs.
Hypothesis I_stats : forall v m fs, I m fs -> I (set_stats v m) fs.
Hypothesis I_start_time :
  forall v m fs, I m fs -> I (set_calibration_start_time v m) fs.
Hypothesis I_sensor_buffer :
  forall r m fs, I m fs ->
    I (set_sensor_buffer (deque_append 1 (sensor_buffer m) r) m) fs.
Hypothesis I_health_history :
  forall h m fs, I m fs ->
    I (set_health_history (deque_append 3 (health_history m) h) m) fs.
Hypothesis I_last_risk : forall v m fs, I m fs -> I (set_last_risk v m) fs.
Hypothesis I_save_state :
  forall s m fs, lifecycle_state s -> I m fs ->
    I (set_state s m) (set_state_file (Good (Some s)) fs).

Variable decision_function : Scaler -> Model -> Row -> option Q.
Variable score_percentiles : list Row -> Q * Q.
Variable frame_std : list Row -> Row.
Variable round_ : Q -> nat -> Q.

Lemma maintains_save_state (s : string) :
  lifecycle_state s -> maintains I (save_state s).
Proof.
  intros Hs e H. unfold save_state, bind, update_self, update_files, print.
  simpl. apply I_save_state; assumption.
Qed.

Lemma lifecycle_NEW : lifecycle_state "NEW".
Proof. left. reflexivity. Qed.
Lemma lifecycle_CALIBRATING : lifecycle_state "CALIBRATING".
Proof. right. left. reflexivity. Qed.
Lemma lifecycle_MONITORING : lifecycle_state "MONITORING".
Proof. right. right. reflexivity. Qed.

Ltac maintains_step :=
  first
    [ apply maintains_ret | apply maintains_raise | apply maintains_get_self
    | apply maintains_get_files | apply maintains_print
    | apply maintains_publish | apply maintains_load
    | apply maintains_lookup_key | apply maintains_raises_if
    | apply maintains_save_state;
        solve [apply lifecycle_NEW | apply lifecycle_CALIBRATING
              | apply lifecycle_MONITORING]
    | solve [eauto]
    | progress cbv zeta
    | match goal with
      | |- maintains _ (bind _ _) => apply maintains_bind; [|intros ?]
      | |- maintains _ (try_except _ _) => apply maintains_try_except
      | |- maintains _ (update_self _) =>
          apply maintains_update_self; intros; auto
      | |- maintains _ (update_files _) =>
          apply maintains_update_files; intros; auto
      | |- maintains _ (dump _ _ _) => apply maintains_dump; intros; auto
      | |- maintains _ (if ?b then _ else _) => destruct b
      | |- maintains _ (match ?x with _ => _ end) => destruct x
      end ].

Lemma maintains_load_artifacts : maintains I load_artifacts.
Proof. unfold load_artifacts. repeat maintains_step. Qed.

Lemma maintains_train_model (fault : option TrainFault) (df : DataFrame) :
  maintains I (train_model score_percentiles frame_std fault df).
Proof. unfold train_model. repeat maintains_step. Qed.

Lemma maintains_start_calibration (now : Q) :
  maintains I (start_calibration now).
Proof. unfold start_calibration. repeat maintains_step. Qed.

Lemma maintains_append_training_data (row : Row) :
  maintains I (append_training_data row).
Proof. unfold append_training_data. repeat maintains_step. Qed.

Lemma maintains_read_csv : maintains I read_csv.
Proof. unfold read_csv. repeat maintains_step. Qed.

Lemma maintains_handle_calibration (now : Q) (fault : option TrainFault)
    (r : Row) :
  maintains I (handle_calibration score_percentiles frame_std now fault r).
Proof.
  pose proof maintains_load_artifacts. pose proof maintains_train_model.
  pose proof maintains_append_training_data. pose proof maintains_read_csv.
  unfold handle_calibration. repeat maintains_step.
Qed.

Lemma maintains_map_health (raw : Q) : maintains I (map_health raw).
Proof. unfold map_health. repeat maintains_step. Qed.

Lemma maintains_analyze_sensor_contribution (sample : Row) :
  maintains I (analyze_sensor_contribution sample).
Proof. unfold analyze_sensor_contribution. repeat maintains_step. Qed.

Lemma maintains_handle_monitoring (now : Q) (r : Row) :
  maintains I (handle_monitoring decision_function round_ now r).
Proof.
  pose proof maintains_map_health.
  pose proof maintains_analyze_sensor_contribution.
  unfold handle_monitoring. repeat maintains_step.
Qed.

Lemma maintains_process_reading (now : Q) (fault : option TrainFault)
    (reading : Reading) :
  maintains I (process_reading decision_function score_percentiles frame_std
                 round_ now fault reading).
Proof.
  pose proof maintains_start_calibration.
  pose proof maintains_append_training_data.
  pose proof maintains_handle_calibration.
  pose proof maintains_handle_monitoring.
  unfold process_reading. repeat maintains_step.
Qed.

End Maintains.

(** ** The lifecycle, reading by reading *)

Lemma length_deque_append {A} (n : nat) (d : list A) (x : A) :
  (0 < n)%nat -> (length (deque_append n d x) <= n)%nat.
Proof.
  intros Hn. unfold deque_append.
  rewrite length_drop, length_app. simpl. lia.
Qed.

Section Lifecycle.

Variable decision_function : Scaler -> Model -> Row -> option Q.
Variable score_percentiles : list Row -> Q * Q.
Variable frame_std : list Row -> Row.
Variable round_ : Q -> nat -> Q.

Local Abbreviation process :=
  (process_reading decision_function score_percentiles frame_std round_).

(** [process_reading] on a device in NEW, step by step. *)
Lemma process_reading_in_NEW (e : Env) (now : Q) (fault : option TrainFault)
    (reading : Reading) :
  state (self e) = "NEW"%string ->
  process now fault reading e =
    (Returned tt,
     {| self := set_state "CALIBRATING"
                  (set_calibration_start_time (Some now) (self e));
        files := set_training_file
                   (Good {| header := true;
                            lines := [mapped_reading reading] |})
                   (set_state_file (Good (Some "CALIBRATING"%string))
                      (files e));
        console := (console e ++
                    [(device_id (self e), StartingCalibration);
                     (device_id (self e), StateChangedTo "CALIBRATING")])%list;
        outbox := outbox e |}).
Proof.
  intros Hst. destruct e as [m fs con out]. cbn [self files] in *.
  unfold process_reading. unfold bind at 1, get_self at 1.
  cbn [self fst snd]. rewrite Hst. cbn [String.eqb Ascii.eqb Bool.eqb].
  unfold start_calibration, append_training_data, save_state, bind,
    update_self, update_files, print.
  cbn [fst snd self files console outbox device_id set_state
       set_calibration_start_time training_file set_training_file
       set_state_file].
  rewrite <- app_assoc. destruct fs; reflexivity.
Qed.

(** X2: the first reading of a device in NEW starts the calibration: the
    device is CALIBRATING and the state file says so, the start time is
    the clock reading of this arrival, and the training file holds the
    header and this one reading, whatever it held before (an earlier
    buffer is discarded); the artifact files and the loaded artifacts
    are not touched and nothing is published. *)
Theorem first_reading_starts_calibration (e : Env) (now : Q)
    (fault : option TrainFault) (reading : Reading) :
  state (self e) = "NEW"%string ->
  let e' := snd (process now fault reading e) in
  state (self e') = "CALIBRATING"%string /\
  state_file (files e') = Good (Some "CALIBRATING"%string) /\
  calibration_start_time (self e') = Some now /\
  training_file (files e') =
    Good {| header := true; lines := [mapped_reading reading] |} /\
  model_file (files e') = model_file (files e) /\
  scaler_file (files e') = scaler_file (files e) /\
  calibration_file (files e') = calibration_file (files e) /\
  model (self e') = model (self e) /\
  outbox e' = outbox e.
Proof.
  intros Hst e'. subst e'.
  rewrite (process_reading_in_NEW e now fault reading Hst).
  cbn. repeat split; reflexivity.
Qed.

Lemma process_reading_in_unknown_state (e : Env) (now : Q)
    (fault : option TrainFault) (reading : Reading) :
  ~ lifecycle_state (state (self e)) ->
  process now fault reading e = (Returned tt, e).
Proof.
  intros Hst. unfold process_reading. unfold bind at 1, get_self at 1.
  cbn [fst snd].
  destruct (String.eqb (state (self e)) "NEW") eqn:E1;
    [apply String.eqb_eq in E1; exfalso; apply Hst; left; exact E1|].
  destruct (String.eqb (state (self e)) "CALIBRATING") eqn:E2;
    [apply String.eqb_eq in E2; exfalso; apply Hst; right; left; exact E2|].
  destruct (String.eqb (state (self e)) "MONITORING") eqn:E3;
    [apply String.eqb_eq in E3; exfalso; apply Hst; right; right; exact E3|].
  reflexivity.
Qed.

(** X3: a device whose state is none of NEW, CALIBRATING, MONITORING (a
    state file can hold any string, and the constructor takes it as it
    is) is stuck: whatever readings arrive, and however many,
    [process_reading] changes nothing -- no file, no attribute, no
    message, no payload. *)
Theorem unknown_state_ignores_readings (e : Env)
    (l : list (Q * option TrainFault * Reading)) :
  ~ lifecycle_state (state (self e)) ->
  process_all decision_function score_percentiles frame_std round_ e l = e.
Proof.
  intros Hst. induction l as [|[[now fault] reading] l IH].
  - reflexivity.
  - cbn [process_all].
    rewrite (process_reading_in_unknown_state e now fault reading Hst).
    exact IH.
Qed.

(** X4: once the state file records the state held in memory, it does so
    after every reading: each transition [process_reading] makes is
    written to the state file; and a reading in NEW establishes this. *)
Theorem state_file_tracks_state (e : Env) (now : Q)
    (fault : option TrainFault) (reading : Reading) :
  state_persisted (self e) (files e) \/ state (self e) = "NEW"%string ->
  let e' := snd (process now fault reading e) in
  state_persisted (self e') (files e').
Proof.
  intros [Hp|Hnew] e'; subst e'.
  - revert Hp.
    apply (maintains_process_reading state_persisted); unfold state_persisted;
      intros; try assumption; reflexivity.
  - rewrite (process_reading_in_NEW e now fault reading Hnew). reflexivity.
Qed.

(** X5: a device in one of the three lifecycle states is in one of them
    after every reading. *)
Theorem lifecycle_state_kept (e : Env) (now : Q)
    (fault : option TrainFault) (reading : Reading) :
  lifecycle_state (state (self e)) ->
  lifecycle_state (state (self (snd (process now fault reading e)))).
Proof.
  apply (maintains_process_reading (fun m _ => lifecycle_state (state m)));
    intros; assumption.
Qed.

(** X6: the sensor buffer never holds more than 1 row and the health
    history never more than 3 values: the bounds hold after every
    reading when they held before, as they do for a new manager. *)
Theorem deques_stay_bounded (e : Env) (now : Q)
    (fault : option TrainFault) (reading : Reading) :
  deques_bounded (self e) (files e) ->
  let e' := snd (process now fault reading e) in
  deques_bounded (self e') (files e').
Proof.
  intros H e'. subst e'. revert H.
  apply (maintains_process_reading deques_bounded); unfold deques_bounded;
    intros; try assumption.
  - destruct H as [H1 H2]. split; [|exact H2].
    cbn. apply length_deque_append. lia.
  - destruct H as [H1 H2]. split; [exact H1|].
    cbn. apply length_deque_append. lia.
Qed.

(** X7: [handle_monitoring] never writes a file and never changes the
    lifecycle state, the loaded artifacts or the calibration start time,
    whether the reading is scored or a step raises: a device leaves
    MONITORING only through [load_artifacts]. *)
Theorem monitoring_is_read_only (e : Env) (now : Q) (r : Row) :
  let e' := snd (handle_monitoring decision_function round_ now r e) in
  files e' = files e /\
  state (self e') = state (self e) /\
  model (self e') = model (self e) /\
  scaler (self e') = scaler (self e) /\
  score_mapping (self e') = score_mapping (self e) /\
  baseline_stats (self e') = baseline_stats (self e) /\
  calibration_start_time (self e') = calibration_start_time (self e).
Proof.
  intros e'. subst e'.
  apply (maintains_handle_monitoring
           (fun m fs =>
              fs = files e /\ state m = state (self e) /\
              model m = model (self e) /\ scaler m = scaler (self e) /\
              score_mapping m = score_mapping (self e) /\
              baseline_stats m = baseline_stats (self e) /\
              calibration_start_time m = calibration_start_time (self e)));
    intros; try assumption.
  repeat split; reflexivity.
Qed.

End Lifecycle.

Lemma first_reading_starts_calibration_witness :
  let e := {| self := set_state "NEW" (blank_manager "esp32");
              files := Sample.trained_files (Good (Some "NEW"%string));
              console := []; outbox := [] |} in
  training_file
    (files (snd (process_reading Sample.decision_function
                   Sample.score_percentiles Sample.frame_std Sample.round_
                   1000 None (Sample.reading 0 "t1") e)))
  = Good {| header := true; lines := [Sample.row 0] |}.
Proof.
  intros e.
  destruct (first_reading_starts_calibration
              Sample.decision_function Sample.score_percentiles
              Sample.frame_std Sample.round_ e 1000 None
              (Sample.reading 0 "t1") eq_refl)
    as (_ & _ & _ & H & _).
  exact H.
Defined.

Lemma unknown_state_ignores_readings_witness :
  let e := snd (init {| self := blank_manager "esp32";
                        files := set_state_file (Good (Some "PAUSED"%string))
                                   no_files;
                        console := []; outbox := [] |}) in
  process_all Sample.decision_function Sample.score_percentiles
    Sample.frame_std Sample.round_ e
    [(1000, None, Sample.reading 0 "t1"); (1002, None, Sample.reading 1 "t2")]
  = e.
Proof.
  intros e.
  apply (unknown_state_ignores_readings
           Sample.decision_function Sample.score_percentiles
           Sample.frame_std Sample.round_ e).
  unfold lifecycle_state. intros [H|[H|H]]; vm_compute in H; discriminate.
Defined.

Lemma state_file_tracks_state_witness :
  let e := Sample.calibrating_env
             (Sample.trained_files (Good (Some "CALIBRATING"%string))) in
  let e' := snd (process_reading Sample.decision_function
                   Sample.score_percentiles Sample.frame_std Sample.round_
                   1400 None (Sample.reading 0 "t3") e) in
  state_persisted (self e') (files e').
Proof.
  intros e.
  apply (state_file_tracks_state
           Sample.decision_function Sample.score_percentiles
           Sample.frame_std Sample.round_ e 1400 None (Sample.reading 0 "t3")).
  left. reflexivity.
Defined.

Lemma lifecycle_state_kept_witness :
  lifecycle_state
    (state (self (snd (process_reading Sample.decision_function
                         Sample.score_percentiles Sample.frame_std
                         Sample.round_ 1400 (Some FitRaises)
                         (Sample.reading 0 "t3")
                         (Sample.calibrating_env
                            (Sample.trained_files
                               (Good (Some "CALIBRATING"%string)))))))).
Proof.
  apply (lifecycle_state_kept
           Sample.decision_function Sample.score_percentiles
           Sample.frame_std Sample.round_).
  right. left. reflexivity.
Defined.

Lemma deques_stay_bounded_witness :
  let e' := snd (process_reading Sample.decision_function
                   Sample.score_percentiles Sample.frame_std Sample.round_
                   1400 None (Sample.reading 0 "t3")
                   (Sample.monitoring_env Sample.stats)) in
  deques_bounded (self e') (files e').
Proof.
  apply (deques_stay_bounded
           Sample.decision_function Sample.score_percentiles
           Sample.frame_std Sample.round_
           (Sample.monitoring_env Sample.stats) 1400 None
           (Sample.reading 0 "t3")).
  split; simpl; lia.
Defined.

(** ** A whole calibration *)

Section CalibrationCycle.

Variable decision_function : Scaler -> Model -> Row -> option Q.
Variable score_percentiles : list Row -> Q * Q.
Variable frame_std : list Row -> Row.
Variable round_ : Q -> nat -> Q.

Local Abbreviation process :=
  (process_reading decision_function score_percentiles frame_std round_).
Local Abbreviation process_seq :=
  (process_all decision_function score_percentiles frame_std round_).
Local Abbreviation calibrate := (handle_calibration score_percentiles frame_std).
Local Abbreviation fitted_stats := (stats_of score_percentiles frame_std).

Lemma process_reading_in_CALIBRATING (e : Env) (now : Q)
    (fault : option TrainFault) (reading : Reading) :
  state (self e) = "CALIBRATING"%string ->
  process now fault reading e = calibrate now fault (mapped_reading reading) e.
Proof.
  intros Hst. unfold process_reading. unfold bind at 1, get_self at 1.
  rewrite Hst. reflexivity.
Qed.

Lemma process_all_app (l1 l2 : list (Q * option TrainFault * Reading))
    (e : Env) :
  process_seq e (l1 ++ l2) = process_seq (process_seq e l1) l2.
Proof.
  revert e. induction l1 as [|[[n f] r] l1 IH]; intros e.
  - reflexivity.
  - cbn [process_all app]. apply IH.
Qed.

(** Within 300 seconds of the recorded start the time ceiling is not hit. *)
Lemma elapsed_within (now t0 : Q) (m : DeviceManager) :
  calibration_start_time m = Some t0 ->
  now - t0 <= 300 ->
  Qlt_bool MAX_CALIBRATION_TIME (elapsed_time now m) = false.
Proof.
  intros Hs Hle. apply Qlt_bool_false. unfold elapsed_time, MAX_CALIBRATION_TIME.
  rewrite Hs. destruct (Qeq_bool t0 0); lra.
Qed.

(** Readings that neither complete the sample count nor arrive past the
    time ceiling only grow the buffer, in arrival order. *)
Lemma calibrating_accumulates (l : list (Q * Reading)) :
  forall (e : Env) (buf : list Row) (t0 : Q),
    state (self e) = "CALIBRATING"%string ->
    training_file (files e) = Good {| header := true; lines := buf |} ->
    calibration_start_time (self e) = Some t0 ->
    (length buf + length l < 100)%nat ->
    Forall (fun nr => fst nr - t0 <= 300) l ->
    let e' := process_seq e (List.map (fun nr => (fst nr, None, snd nr)) l) in
    self e' = self e /\
    files e' =
      set_training_file
        (Good {| header := true;
                 lines := (buf ++ List.map (fun nr => mapped_reading (snd nr)) l)%list |})
        (files e) /\
    outbox e' = outbox e.
Proof.
  induction l as [|[now r] l IH]; intros e buf t0 Hst Hf Ht0 Hlen Htimes.
  - cbn. rewrite app_nil_r. repeat split.
    destruct e as [m fs con out]. destruct fs. cbn in *. subst. reflexivity.
  - cbn [List.map process_all fst snd].
    rewrite (process_reading_in_CALIBRATING e now None r Hst).
    inversion Htimes as [|x xs Hnow Hrest]; subst. cbn [fst] in Hnow.
    assert (Hstop :
              (CALIBRATION_SAMPLES <=?
                 length (lines {| header := true; lines := buf |}
                         ++ [mapped_reading r]))%nat
              || Qlt_bool MAX_CALIBRATION_TIME (elapsed_time now (self e))
              = false).
    { rewrite (elapsed_within now t0 (self e) Ht0 Hnow), orb_false_r.
      apply Nat.leb_gt. cbn [lines]. rewrite length_app. cbn [length] in *.
      unfold CALIBRATION_SAMPLES. lia. }
    rewrite (handle_calibration_continues score_percentiles frame_std e now None
               (mapped_reading r) _ Hf eq_refl Hstop).
    cbn [snd lines].
    match goal with
    | |- context [process_all _ _ _ _ ?env _] => set (e1 := env)
    end.
    specialize (IH e1 (buf ++ [mapped_reading r])%list t0).
    cbn [length] in Hlen.
    destruct IH as (Hs & Hfs & Ho); subst e1; cbn [self files]; auto.
    + rewrite length_app. cbn [length]. lia.
    + cbn zeta. rewrite Hs, Hfs, Ho. cbn [self files outbox].
      rewrite <- app_assoc. repeat split.
Qed.

(** X8: a whole calibration.  From NEW, the first reading and the 99
    that follow within 300 seconds of it -- no training fault -- leave
    the device in MONITORING with scaler, model and calibration
    statistics fitted on exactly these 100 readings, mapped and in
    arrival order; after any shorter prefix the device is still
    CALIBRATING; nothing is published on the way. *)
Theorem calibration_trains_on_the_arrivals (e : Env) (now1 : Q)
    (r1 : Reading) (rest : list (Q * Reading)) :
  state (self e) = "NEW"%string ->
  length rest = 99%nat ->
  Forall (fun nr => fst nr - now1 <= 300) rest ->
  let arrivals :=
    (now1, None, r1) :: List.map (fun nr => (fst nr, None, snd nr)) rest in
  let buffer := List.map mapped_reading (r1 :: List.map snd rest) in
  let e' := process_seq e arrivals in
  state (self e') = "MONITORING"%string /\
  scaler (self e') = Some (StandardScaler_fit buffer) /\
  model (self e') = Some (IsolationForest_fit buffer) /\
  score_mapping (self e') = Some (fitted_stats buffer) /\
  training_file (files e') = Good {| header := true; lines := buffer |} /\
  state_file (files e') = Good (Some "MONITORING"%string) /\
  outbox e' = outbox e /\
  (forall n, (0 < n < 100)%nat ->
     state (self (process_seq e (List.firstn n arrivals))) = "CALIBRATING"%string).
Proof.
  intros Hnew Hlen Htimes arrivals buffer e'.
  set (e1 := snd (process now1 None r1 e)).
  assert (He1 : e1 = snd (process now1 None r1 e)) by reflexivity.
  rewrite (process_reading_in_NEW decision_function score_percentiles frame_std
             round_ e now1 None r1 Hnew) in He1. cbn [snd] in He1.
  assert (Hst1 : state (self e1) = "CALIBRATING"%string) by (rewrite He1; reflexivity).
  assert (Hf1 : training_file (files e1) =
                Good {| header := true; lines := [mapped_reading r1] |})
    by (rewrite He1; reflexivity).
  assert (Ht1 : calibration_start_time (self e1) = Some now1)
    by (rewrite He1; reflexivity).
  assert (Hout1 : outbox e1 = outbox e) by (rewrite He1; reflexivity).
  (* the prefixes *)
  assert (Hprefix : forall k, (k <= 98)%nat ->
            let ek := process_seq e1
                        (List.map (fun nr => (fst nr, None, snd nr))
                           (List.firstn k rest)) in
            self ek = self e1 /\
            files ek =
              set_training_file
                (Good {| header := true;
                         lines := ([mapped_reading r1] ++
                                   List.map (fun nr => mapped_reading (snd nr))
                                     (List.firstn k rest))%list |})
                (files e1) /\
            outbox ek = outbox e1).
  { intros k Hk.
    apply (calibrating_accumulates (List.firstn k rest) e1
             [mapped_reading r1] now1 Hst1 Hf1 Ht1).
    - rewrite length_take. cbn [length]. lia.
    - apply Forall_take. exact Htimes. }
  (* split off the last reading *)
  destruct (List.exists_last (l := rest)) as (front & [nowL rL] & Hrest);
    [intros ->; discriminate|].
  assert (Hfront : length front = 98%nat).
  { rewrite Hrest, length_app in Hlen. cbn [length] in Hlen. lia. }
  assert (Htake : List.firstn 98 rest = front).
  { rewrite Hrest. rewrite <- Hfront. apply take_app_length. }
  destruct (Hprefix 98%nat (le_n 98)) as (Hs98 & Hf98 & Ho98).
  rewrite Htake in Hs98, Hf98, Ho98.
  set (e98 := process_seq e1
                (List.map (fun nr => (fst nr, None, snd nr)) front)) in *.
  assert (Hrun : e' = snd (process nowL None rL e98)).
  { subst e' arrivals. cbn [process_all]. fold e1.
    rewrite Hrest, map_app. cbn [List.map fst snd].
    rewrite process_all_app. reflexivity. }
  assert (Hbuf : buffer =
                 ([mapped_reading r1] ++
                  List.map (fun nr => mapped_reading (snd nr)) front ++
                  [mapped_reading rL])%list).
  { subst buffer. rewrite Hrest. cbn [List.map app].
    rewrite !map_app, map_map. reflexivity. }
  assert (Hst98 : state (self e98) = "CALIBRATING"%string)
    by (rewrite Hs98; exact Hst1).
  assert (Hfile98 : training_file (files e98) =
            Good {| header := true;
                    lines := ([mapped_reading r1] ++
                              List.map (fun nr => mapped_reading (snd nr)) front)%list |})
    by (rewrite Hf98; reflexivity).
  assert (Hstop :
            (CALIBRATION_SAMPLES <=?
               length (lines {| header := true;
                                lines := ([mapped_reading r1] ++
                                   List.map (fun nr => mapped_reading (snd nr)) front)%list |}
                       ++ [mapped_reading rL]))%nat
            || Qlt_bool MAX_CALIBRATION_TIME (elapsed_time nowL (self e98))
            = true).
  { apply orb_true_iff. left. apply Nat.leb_le. cbn [lines].
    rewrite !length_app, length_map. cbn [length]. unfold CALIBRATION_SAMPLES. lia. }
  rewrite (process_reading_in_CALIBRATING e98 nowL None rL Hst98) in Hrun.
  rewrite (handle_calibration_trains score_percentiles frame_std e98 nowL
             (mapped_reading rL) _ Hfile98 eq_refl Hstop) in Hrun.
  cbn [snd lines] in Hrun. rewrite <- app_assoc in Hrun. rewrite <- Hbuf in Hrun.
  split; [rewrite Hrun; reflexivity|].
  split; [rewrite Hrun; reflexivity|].
  split; [rewrite Hrun; reflexivity|].
  split; [rewrite Hrun; reflexivity|].
  split; [rewrite Hrun; reflexivity|].
  split; [rewrite Hrun; reflexivity|].
  split; [rewrite Hrun; cbn [outbox]; congruence|].
  intros n Hn. destruct n as [|k]; [lia|].
  subst arrivals. cbn [List.firstn process_all]. fold e1.
  rewrite firstn_map.
  destruct (Hprefix k ltac:(lia)) as (Hsk & _ & _).
  rewrite Hsk. exact Hst1.
Qed.

End CalibrationCycle.

Lemma calibration_trains_on_the_arrivals_witness :
  let rest := List.repeat (1005, Sample.reading (1 # 4) "t") 99 in
  let e := {| self := set_state "NEW" (blank_manager "esp32");
              files := no_files; console := []; outbox := [] |} in
  state (self (process_all Sample.decision_function Sample.score_percentiles
                 Sample.frame_std Sample.round_ e
                 ((1000, None, Sample.reading 0 "t0")
                  :: List.map (fun nr => (fst nr, None, snd nr)) rest)))
  = "MONITORING"%string.
Proof.
  intros rest e.
  refine (proj1 (calibration_trains_on_the_arrivals
                   Sample.decision_function Sample.score_percentiles
                   Sample.frame_std Sample.round_ e 1000
                   (Sample.reading 0 "t0") rest eq_refl eq_refl _)).
  apply List.Forall_forall. intros x Hx. apply List.repeat_spec in Hx.
  subst x. vm_compute. discriminate.
Defined.

(** ** Training failures *)

Section TrainingFailure.

Variable decision_function : Scaler -> Model -> Row -> option Q.
Variable score_percentiles : list Row -> Q * Q.
Variable frame_std : list Row -> Row.
Variable round_ : Q -> nat -> Q.

Local Abbreviation train := (train_model score_percentiles frame_std).
Local Abbreviation calibrate := (handle_calibration score_percentiles frame_std).
Local Abbreviation process :=
  (process_reading decision_function score_percentiles frame_std round_).

(** What a failing [train_model] leaves behind. *)
Lemma train_model_failure_outcome (fault : option TrainFault)
    (df : DataFrame) (e : Env) :
  fault <> None \/ columns_ok df = false \/ rows df = [] ->
  let r := train fault df e in
  fst r = Returned tt /\
  state (self (snd r)) = "NEW"%string /\
  state_file (files (snd r)) = Good (Some "NEW"%string) /\
  training_file (files (snd r)) = training_file (files e) /\
  console (snd r) =
    (console e ++ [(device_id (self e), TrainingFailed);
                   (device_id (self e), StateChangedTo "NEW")])%list.
Proof.
  intros Hbad. destruct e as [m fs con out]. destruct df as [ok rs].
  cbn [columns_ok rows] in Hbad.
  unfold train_model, save_state, dump, raises_if, scaler_dump_fault,
    model_dump_fault, stats_write_fault.
  cbn [columns_ok rows].
  destruct ok; destruct rs as [|x xs];
    destruct fault as [[|[|]| |[|]| |[|]]|];
    try (exfalso; destruct Hbad as [H|[H|H]]; congruence);
    repeat case_bool_decide; try congruence;
    unfold bind, try_except, update_self, update_files, print, raise, ret;
    cbn [negb orb length Nat.eqb fst snd self files console outbox
         set_state set_state_file set_scaler_file set_model_file
         set_calibration_file state state_file training_file device_id];
    rewrite <- ?app_assoc; repeat split; reflexivity.
Qed.

(** X9: when a step of [train_model] raises, or the frame has no rows or
    not the feature columns, the method still returns normally; it has
    printed "Training Failed", set the state to NEW and written NEW to
    the state file, and it has left the training file alone. *)
Theorem train_model_failure_resets_to_NEW (fault : option TrainFault)
    (df : DataFrame) (e : Env) :
  fault <> None \/ columns_ok df = false \/ rows df = [] ->
  let r := train fault df e in
  fst r = Returned tt /\
  state (self (snd r)) = "NEW"%string /\
  state_file (files (snd r)) = Good (Some "NEW"%string) /\
  training_file (files (snd r)) = training_file (files e) /\
  console (snd r) =
    (console e ++ [(device_id (self e), TrainingFailed);
                   (device_id (self e), StateChangedTo "NEW")])%list.
Proof.
  exact (train_model_failure_outcome fault df e).
Qed.

(** X10: the artifact set is not written atomically: when the fit
    raises after the scaler was dumped, the new scaler is on disk next
    to the model and the calibration file of the earlier training. *)
Theorem failed_fit_leaves_new_scaler (df : DataFrame) (e : Env) :
  columns_ok df = true ->
  rows df <> [] ->
  let e' := snd (train (Some FitRaises) df e) in
  scaler_file (files e') = Good (StandardScaler_fit (rows df)) /\
  model_file (files e') = model_file (files e) /\
  calibration_file (files e') = calibration_file (files e) /\
  state (self e') = "NEW"%string.
Proof.
  intros Hc Hr. destruct e as [m fs con out]. destruct df as [ok rs].
  cbn [columns_ok rows] in *. subst ok.
  destruct rs as [|x xs]; [contradiction|].
  unfold train_model, save_state, dump, raises_if, scaler_dump_fault,
    model_dump_fault, stats_write_fault.
  repeat case_bool_decide; try congruence.
  unfold bind, try_except, update_self, update_files, print, raise, ret.
  cbn [negb orb length Nat.eqb fst snd self files console outbox
       columns_ok rows
       set_state set_state_file set_scaler_file set_model_file
       set_calibration_file state state_file training_file device_id
       scaler_file model_file calibration_file].
  repeat split; reflexivity.
Qed.

(** X11: on a device without a loadable model and calibration file (no
    earlier training), a training that fails at any step leaves the
    device in NEW with NEW in the state file -- by way of
    [load_artifacts], which [handle_calibration] runs after setting
    MONITORING -- and the buffer is still in the training file. *)
Theorem failed_first_training_ends_in_NEW (e : Env) (now : Q)
    (fault : TrainFault) (reading : Reading) (csv : Csv) :
  state (self e) = "CALIBRATING"%string ->
  training_file (files e) = Good csv ->
  header csv = true ->
  (100 <= length (lines csv) + 1)%nat \/ 300 < elapsed_time now (self e) ->
  (forall mdl, model_file (files e) <> Good mdl) ->
  (forall stats, calibration_file (files e) <> Good stats) ->
  let e' := snd (process now (Some fault) reading e) in
  state (self e') = "NEW"%string /\
  state_file (files e') = Good (Some "NEW"%string) /\
  training_file (files e') =
    Good {| header := true;
            lines := (lines csv ++ [mapped_reading reading])%list |}.
Proof.
  intros Hst Hf Hh Htrig Hnm Hnc e'. subst e'.
  cut (exists e2,
          process now (Some fault) reading e = (Returned tt, e2) /\
          state (self e2) = "NEW"%string /\
          state_file (files e2) = Good (Some "NEW"%string) /\
          training_file (files e2) =
            Good {| header := true;
                    lines := (lines csv ++ [mapped_reading reading])%list |}).
  { intros (e2 & -> & H). exact H. }
  assert (Hstop : (CALIBRATION_SAMPLES <=?
                     length (lines csv ++ [mapped_reading reading]))%nat
                  || Qlt_bool MAX_CALIBRATION_TIME (elapsed_time now (self e))
                  = true).
  { apply stopping_condition_spec. rewrite length_app. cbn [length].
    exact Htrig. }
  unfold process_reading. unfold bind at 1, get_self at 1.
  rewrite Hst. cbn [fst snd String.eqb Ascii.eqb Bool.eqb].
  destruct e as [m fs con out]. destruct csv as [hd buf].
  cbn [self files header lines] in *. subst hd.
  unfold handle_calibration, append_training_data, read_csv.
  unfold bind at 1 2 3 4, try_except at 1, update_files, get_files,
    get_self, load, ret.
  cbn [fst snd self files console outbox]. rewrite Hf.
  cbn [training_file set_training_file header lines rows fst snd
       self files console outbox].
  unfold bind at 1. cbn [fst snd self files console outbox].
  rewrite Hstop.
  unfold bind at 1, print at 1. cbn [fst snd self files console outbox].
  unfold bind at 1.
  assert (Hne : Some fault <> None) by discriminate.
  match goal with
  | |- context [train_model _ _ ?f ?df ?env] =>
      pose proof (train_model_failure_outcome f df env
                    (or_introl Hne)) as Htrain;
      assert (Hart :
        (forall mdl, model_file (files (snd (train f df env))) <> Good mdl) \/
        (forall stats,
            calibration_file (files (snd (train f df env))) <> Good stats));
      [|destruct (train f df env) as [o1 e1] eqn:Et]
  end.
  { unfold train_model, dump, raises_if, scaler_dump_fault,
      model_dump_fault, stats_write_fault, save_state.
    destruct fs as [sf tf mf scf cf]. cbn [model_file calibration_file files] in *.
    cbn [columns_ok rows negb orb].
    destruct (length (buf ++ [mapped_reading reading]) =? 0)%nat;
      destruct fault as [|[|]| |[|]| |[|]];
      repeat case_bool_decide; try congruence;
      unfold bind, try_except, update_self, update_files, print, raise, ret;
      cbn [negb orb fst snd self files console outbox columns_ok rows
           set_state set_state_file set_scaler_file set_model_file
           set_calibration_file state state_file training_file device_id
           scaler_file model_file calibration_file];
      first [ left; solve [auto | intros ? ?; discriminate]
            | right; solve [auto | intros ? ?; discriminate] ]. }
  cbn zeta in Htrain. destruct Htrain as (F1 & _ & _ & Htf & _).
  cbn [fst snd] in *. subst o1.
  unfold save_state at 1. unfold bind at 1 2 3, update_self, update_files, print.
  cbn [fst snd self files console outbox].
  match goal with
  | |- context [load_artifacts ?env] =>
      destruct (load_artifacts_resets env) as (F2 & S2 & Fi2);
      [|destruct (load_artifacts env) as [o2 e2]]
  end.
  { cbn [files model_file scaler_file calibration_file set_state_file].
    destruct Hart as [H|H]; [left; exact H|right; right; exact H]. }
  cbn [fst snd] in *. subst o2.
  eexists. split; [reflexivity|].
  rewrite S2, Fi2.
  cbn [state_file training_file set_state_file files].
  rewrite Htf. repeat split; reflexivity.
Qed.

End TrainingFailure.

Lemma train_model_failure_resets_to_NEW_witness :
  state (self (snd (train_model Sample.score_percentiles Sample.frame_std
                      (Some (ModelDumpRaises WriteFails))
                      {| columns_ok := true; rows := Sample.old_rows |}
                      (Sample.calibrating_env no_files))))
  = "NEW"%string.
Proof.
  refine (proj1 (proj2 (train_model_failure_resets_to_NEW
                   Sample.score_percentiles Sample.frame_std
                   (Some (ModelDumpRaises WriteFails))
                   {| columns_ok := true; rows := Sample.old_rows |}
                   (Sample.calibrating_env no_files) (or_introl _)))).
  discriminate.
Defined.

Lemma failed_fit_leaves_new_scaler_witness :
  let e' := snd (train_model Sample.score_percentiles Sample.frame_std
                   (Some FitRaises)
                   {| columns_ok := true; rows := [Sample.row 1] |}
                   (Sample.calibrating_env
                      (Sample.trained_files (Good (Some "CALIBRATING"%string))))) in
  scaler_file (files e') = Good (StandardScaler_fit [Sample.row 1]) /\
  model_file (files e') = Good (IsolationForest_fit Sample.old_rows).
Proof.
  intros e'.
  assert (Hr : rows {| columns_ok := true; rows := [Sample.row 1] |} <> [])
    by discriminate.
  destruct (failed_fit_leaves_new_scaler
              Sample.score_percentiles Sample.frame_std
              {| columns_ok := true; rows := [Sample.row 1] |}
              (Sample.calibrating_env
                 (Sample.trained_files (Good (Some "CALIBRATING"%string))))
              eq_refl Hr) as (H1 & H2 & _).
  split; [exact H1|exact H2].
Defined.

Lemma failed_first_training_ends_in_NEW_witness :
  let fs := set_training_file
              (Good {| header := true; lines := [Sample.row 0] |}) no_files in
  state (self (snd (process_reading Sample.decision_function
                      Sample.score_percentiles Sample.frame_std Sample.round_
                      1400 (Some StatsRaise) (Sample.reading 0 "t2")
                      (Sample.calibrating_env fs))))
  = "NEW"%string.
Proof.
  intros fs.
  refine (proj1 (failed_first_training_ends_in_NEW
                   Sample.decision_function Sample.score_percentiles
                   Sample.frame_std Sample.round_
                   (Sample.calibrating_env fs) 1400 StatsRaise
                   (Sample.reading 0 "t2")
                   {| header := true; lines := [Sample.row 0] |}
                   eq_refl eq_refl eq_refl (or_intror _) _ _)).
  - vm_compute. reflexivity.
  - intros mdl. discriminate.
  - intros stats. discriminate.
Defined.

(** ** Start-up and the persisted state *)

Lemma load_state_reads_state_file (e : Env) (s : string) :
  state_file (files e) = Good (Some s) ->
  load_state e =
    (Returned s,
     {| self := self e; files := files e;
        console := (console e ++ [(device_id (self e), LoadedState s)])%list;
        outbox := outbox e |}).
Proof.
  intros Hf. destruct e as [m fs con out]. cbn [self files] in *.
  unfold load_state, bind, try_except, get_files, load, print, ret.
  cbn [files fst snd]. rewrite Hf. reflexivity.
Qed.

(** X12: what [save_state] writes is what the constructor of a new
    process reads back.  When that state is not MONITORING the new
    manager holds it with no start time and nothing loaded, and the
    files -- the calibration buffer among them -- are as they were. *)
Theorem persisted_state_is_resumed (e : Env) (s id : string)
    (con : list (string * Message)) (out : list (string * Payload)) :
  let fs := files (snd (save_state s e)) in
  let e0 := {| self := blank_manager id; files := fs;
               console := con; outbox := out |} in
  fst (load_state e0) = Returned s /\
  (s <> "MONITORING"%string ->
     self (snd (init e0)) = set_state s (blank_manager id) /\
     files (snd (init e0)) = fs).
Proof.
  intros fs e0.
  assert (Hf : state_file (files e0) = Good (Some s)) by reflexivity.
  split.
  - rewrite (load_state_reads_state_file e0 s Hf). reflexivity.
  - intros Hs.
    assert (Hinit : init e0 =
              (Returned tt,
               {| self := set_state s (blank_manager id); files := fs;
                  console := (con ++ [(id, LoadedState s)])%list;
                  outbox := out |})).
    { unfold init. unfold bind at 1.
      rewrite (load_state_reads_state_file e0 s Hf).
      unfold bind, update_self. cbn [fst snd self files].
      destruct (String.eqb s "MONITORING") eqn:E.
      - apply String.eqb_eq in E. contradiction.
      - reflexivity. }
    rewrite Hinit. split; reflexivity.
Qed.

(** X13: start-up with MONITORING in the state file.  When the model,
    the scaler and the calibration file all load, the device is in
    MONITORING with them loaded and no file is written; when one of them
    is missing or does not load, the device is reset to NEW and NEW is
    written to the state file, so that it recalibrates. *)
Theorem start_up_in_MONITORING (id : string) (fs : DeviceFiles)
    (con : list (string * Message)) (out : list (string * Payload)) :
  state_file fs = Good (Some "MONITORING"%string) ->
  let e := {| self := blank_manager id; files := fs;
              console := con; outbox := out |} in
  (forall mdl sc stats,
      model_file fs = Good mdl ->
      scaler_file fs = Good sc ->
      calibration_file fs = Good stats ->
      state (self (snd (init e))) = "MONITORING"%string /\
      model (self (snd (init e))) = Some mdl /\
      scaler (self (snd (init e))) = Some sc /\
      score_mapping (self (snd (init e))) = Some stats /\
      baseline_stats (self (snd (init e))) = Some stats /\
      files (snd (init e)) = fs) /\
  ((forall mdl, model_file fs <> Good mdl) \/
   (forall sc, scaler_file fs <> Good sc) \/
   (forall stats, calibration_file fs <> Good stats) ->
      state (self (snd (init e))) = "NEW"%string /\
      state_file (files (snd (init e))) = Good (Some "NEW"%string) /\
      training_file (files (snd (init e))) = training_file fs).
Proof.
  intros Hst e.
  assert (Hinit : init e =
            load_artifacts
              {| self := set_state "MONITORING" (blank_manager id);
                 files := fs;
                 console := (con ++ [(id, LoadedState "MONITORING")])%list;
                 outbox := out |}).
  { unfold init. unfold bind at 1.
    rewrite (load_state_reads_state_file e "MONITORING" Hst). reflexivity. }
  split.
  - intros mdl sc stats Gm Gs Gc. rewrite Hinit.
    erewrite load_artifacts_succeeds by (cbn; eassumption).
    cbn. repeat split; reflexivity.
  - intros Hbad. rewrite Hinit.
    match goal with
    | |- context [load_artifacts ?env] =>
        destruct (load_artifacts_resets env Hbad) as (_ & H1 & H2)
    end.
    rewrite H1, H2. repeat split; reflexivity.
Qed.

(** X14: [load_state] falls back to NEW: a state file without the
    ["state"] key gives NEW even when artifacts are on disk, and a
    missing or unreadable state file gives NEW unless both the model and
    the scaler file exist.  In every case it only prints: the manager
    and the files are not changed. *)
Theorem load_state_falls_back_to_NEW (e : Env) :
  (state_file (files e) = Good None ->
     fst (load_state e) = Returned "NEW"%string) /\
  (state_file (files e) = Absent \/ state_file (files e) = Corrupt ->
     exists_ (model_file (files e)) && exists_ (scaler_file (files e)) = false ->
     fst (load_state e) = Returned "NEW"%string) /\
  self (snd (load_state e)) = self e /\
  files (snd (load_state e)) = files e /\
  outbox (snd (load_state e)) = outbox e.
Proof.
  destruct e as [m fs con out]. cbn [self files outbox].
  unfold load_state, bind, try_except, get_files, load, print, ret, raise.
  cbn [files fst snd].
  split; [|split].
  - intros ->. reflexivity.
  - intros [-> | ->] Hex; cbn [exists_ fst snd files]; rewrite Hex; reflexivity.
  - destruct (state_file fs) as [| |[s|]]; cbn [exists_ fst snd files];
      try (repeat split; reflexivity);
      destruct (exists_ (model_file fs) && exists_ (scaler_file fs));
      repeat split; reflexivity.
Qed.

Lemma start_up_in_MONITORING_witness :
  state (self (snd (init
    {| self := blank_manager "esp32";
       files := set_calibration_file Corrupt
                  (Sample.trained_files (Good (Some "MONITORING"%string)));
       console := []; outbox := [] |}))) = "NEW"%string.
Proof.
  refine (proj1 (proj2 (start_up_in_MONITORING "esp32"
                   (set_calibration_file Corrupt
                      (Sample.trained_files (Good (Some "MONITORING"%string))))
                   [] [] eq_refl) (or_intror (or_intror _)))).
  intros stats. discriminate.
Defined.

Lemma persisted_state_is_resumed_witness :
  let e0 := {| self := blank_manager "esp32";
               files := files (snd (save_state "CALIBRATING"
                                      (Sample.calibrating_env no_files)));
               console := []; outbox := [] |} in
  self (snd (init e0)) = set_state "CALIBRATING" (blank_manager "esp32").
Proof.
  intros e0.
  refine (proj1 (proj2 (persisted_state_is_resumed
                          (Sample.calibrating_env no_files)
                          "CALIBRATING" "esp32" [] []) _)).
  discriminate.
Defined.

Lemma load_state_falls_back_to_NEW_witness :
  fst (load_state {| self := blank_manager "esp32";
                     files := Sample.trained_files (Good None);
                     console := []; outbox := [] |})
  = Returned "NEW"%string.
Proof.
  exact (proj1 (load_state_falls_back_to_NEW
                  {| self := blank_manager "esp32";
                     files := Sample.trained_files (Good None);
                     console := []; outbox := [] |}) eq_refl).
Defined.

(** ** Ranking the sensors *)

Lemma insert_desc_perm (x : Feature * Q) (l : list (Feature * Q)) :
  Permutation (insert_desc x l) (x :: l).
Proof.
  induction l as [|y ys IH]; cbn [insert_desc].
  - reflexivity.
  - destruct (Qlt_bool (snd x) (snd y)).
    + rewrite IH. apply perm_swap.
    + reflexivity.
Qed.

Lemma sorted_desc_perm (l : list (Feature * Q)) :
  Permutation (sorted_desc l) l.
Proof.
  induction l as [|x l IH]; cbn [sorted_desc fold_right].
  - reflexivity.
  - fold (sorted_desc l). rewrite insert_desc_perm. now rewrite IH.
Qed.

Lemma insert_desc_hd (x y : Feature * Q) (l : list (Feature * Q)) :
  snd x <= snd y ->
  HdRel (fun a b => snd b <= snd a) y l ->
  HdRel (fun a b => snd b <= snd a) y (insert_desc x l).
Proof.
  intros Hxy Hl. destruct l as [|z zs]; cbn [insert_desc].
  - constructor. exact Hxy.
  - destruct (Qlt_bool (snd x) (snd z)).
    + constructor. inversion Hl; assumption.
    + constructor. exact Hxy.
Qed.

Lemma insert_desc_sorted (x : Feature * Q) (l : list (Feature * Q)) :
  descending l -> descending (insert_desc x l).
Proof.
  unfold descending. induction 1 as [|y ys Hs IH Hhd]; cbn [insert_desc].
  - repeat constructor.
  - destruct (Qlt_bool (snd x) (snd y)) eqn:E.
    + constructor; [exact IH|].
      apply insert_desc_hd; [|exact Hhd].
      apply Qlt_bool_iff in E. lra.
    + constructor; [constructor; assumption|].
      constructor. apply Qlt_bool_false in E. exact E.
Qed.

Lemma sorted_desc_sorted (l : list (Feature * Q)) : descending (sorted_desc l).
Proof.
  induction l as [|x l IH]; cbn [sorted_desc fold_right].
  - constructor.
  - apply insert_desc_sorted. exact IH.
Qed.

(** The sort is stable: a list already in non-increasing order, ties
    included, comes back as it is. *)
Lemma sorted_desc_stable (l : list (Feature * Q)) :
  descending l -> sorted_desc l = l.
Proof.
  unfold descending. induction 1 as [|x l Hs IH Hhd];
    cbn [sorted_desc fold_right]; [reflexivity|].
  fold (sorted_desc l). rewrite IH.
  destruct l as [|y ys]; cbn [insert_desc]; [reflexivity|].
  inversion Hhd as [|? ? Hyx]; subst.
  apply Qlt_bool_false in Hyx. rewrite Hyx. reflexivity.
Qed.

(** The ranking is a sorted permutation of the features. *)
Lemma sensor_contributions_ranked (stats : Stats) (sample : Row) :
  let ranking := sensor_contributions stats sample in
  Permutation (List.map fst ranking) FEATURES /\
  descending ranking /\
  Forall (fun fd => 0 <= snd fd) ranking.
Proof.
  intros ranking. subst ranking. unfold sensor_contributions.
  set (c := List.map _ FEATURES).
  split; [|split].
  - rewrite sorted_desc_perm. subst c. rewrite map_map. cbn [fst].
    rewrite map_id. reflexivity.
  - apply sorted_desc_sorted.
  - apply List.Forall_forall. intros fd Hin.
    apply (Permutation_in _ (sorted_desc_perm c)) in Hin.
    subst c. apply in_map_iff in Hin. destruct Hin as (f & <- & _).
    cbn [snd]. apply Qabs_nonneg.
Qed.

(** X15: the ranking of [analyze_sensor_contribution] lists every
    feature exactly once, largest deviation first, and no deviation is
    negative -- also when a baseline standard deviation is 0, which is
    replaced by 1e-6 before dividing. *)
Theorem ranking_covers_every_feature (stats : Stats) (sample : Row) :
  let ranking := sensor_contributions stats sample in
  Permutation (List.map fst ranking) FEATURES /\
  descending ranking /\
  Forall (fun fd => 0 <= snd fd) ranking.
Proof.
  exact (sensor_contributions_ranked stats sample).
Qed.

(** X16: a sample equal to the baseline mean has deviation 0 for every
    feature, and the ranking keeps the declared feature order. *)
Theorem ranking_of_the_baseline (stats : Stats) (sample : Row) :
  (forall f, get f sample == get f (baseline_mean stats)) ->
  let ranking := sensor_contributions stats sample in
  List.map fst ranking = FEATURES /\
  Forall (fun fd => snd fd == 0) ranking.
Proof.
  intros Heq ranking. subst ranking. unfold sensor_contributions.
  set (c := List.map _ FEATURES).
  assert (Hzero : Forall (fun fd => snd fd == 0) c).
  { subst c. apply List.Forall_forall. intros fd Hin.
    apply in_map_iff in Hin. destruct Hin as (f & <- & _). cbn [snd].
    assert (H0 : get f sample - get f (baseline_mean stats) == 0)
      by (rewrite (Heq f); ring).
    rewrite H0. unfold Qdiv. rewrite Qmult_0_l. reflexivity. }
  assert (Hdesc : descending c).
  { unfold descending. clear -Hzero.
    induction c as [|x l IH]; [constructor|].
    inversion Hzero as [|? ? Hx Hl]; subst.
    constructor; [apply IH; exact Hl|].
    destruct l as [|y ys]; constructor.
    inversion Hl; subst. lra. }
  rewrite (sorted_desc_stable c Hdesc).
  split; [|exact Hzero].
  subst c. rewrite map_map. cbn [fst]. apply map_id.
Qed.

Lemma ranking_of_the_baseline_witness :
  List.map fst (sensor_contributions Sample.stats (Sample.row 0)) = FEATURES.
Proof.
  refine (proj1 (ranking_of_the_baseline Sample.stats (Sample.row 0) _)).
  intros f. reflexivity.
Defined.

(** ** The text of an alert *)

(** The two cases of the list comprehension and of its fallback. *)
Lemma contributors_of_cases (top_factors : list (Feature * Q)) :
  let significant := List.filter (fun fd => Qlt_bool 2 (snd fd)) top_factors in
  (significant <> [] -> contributors_of top_factors = significant) /\
  (significant = [] ->
     contributors_of top_factors = List.firstn 1 top_factors) /\
  (top_factors <> [] -> contributors_of top_factors <> []) /\
  (forall fd, In fd (contributors_of top_factors) -> In fd top_factors).
Proof.
  intros significant. subst significant. unfold contributors_of.
  destruct (List.filter (fun fd => Qlt_bool 2 (snd fd)) top_factors)
    as [|c cs] eqn:E.
  - split; [intros H; contradiction|].
    split; [intros _; destruct top_factors; reflexivity|].
    split.
    + intros Hne. destruct top_factors; [contradiction|discriminate].
    + intros fd Hin. destruct top_factors as [|t ts]; [contradiction|].
      destruct Hin as [<-|[]]. left. reflexivity.
  - split; [intros _; reflexivity|].
    split; [intros H; discriminate|].
    split; [intros _; discriminate|].
    intros fd Hin. rewrite <- E in Hin.
    apply filter_In in Hin. apply Hin.
Qed.

(** X17: the contributors named in an alert are never empty when there
    are factors at all: they are exactly the factors whose deviation
    exceeds 2.0, in ranking order, and when no factor does, the top
    factor alone. *)
Theorem alert_names_a_contributor (top_factors : list (Feature * Q)) :
  let significant := List.filter (fun fd => Qlt_bool 2 (snd fd)) top_factors in
  (significant <> [] -> contributors_of top_factors = significant) /\
  (significant = [] ->
     contributors_of top_factors = List.firstn 1 top_factors) /\
  (top_factors <> [] -> contributors_of top_factors <> []) /\
  (forall fd, In fd (contributors_of top_factors) -> In fd top_factors).
Proof.
  exact (contributors_of_cases top_factors).
Qed.

Lemma alert_names_a_contributor_witness :
  contributors_of [(gas, 1); (temperature, 1 # 2)] = [(gas, 1)].
Proof.
  exact (proj1 (proj2 (alert_names_a_contributor
                         [(gas, 1); (temperature, 1 # 2)])) eq_refl).
Defined.

(** ** What a scored reading publishes and flags *)

Section Published.

Variable decision_function : Scaler -> Model -> Row -> option Q.
Variable round_ : Q -> nat -> Q.

Local Abbreviation monitor := (handle_monitoring decision_function round_).
Local Abbreviation health_on := (health_of decision_function).

(** The payload of a scored reading, field by field. *)
Lemma handle_monitoring_payload (e : Env) (now : Q) (reading : Row)
    (h : Q) (stats : Stats) :
  health_on (self e) reading = Some h ->
  baseline_stats (self e) = Some stats ->
  let ranking := sensor_contributions stats (frame_mean [reading]) in
  outbox (snd (monitor now reading e)) =
    (outbox e ++
     [(device_id (self e),
       {| p_device_id := device_id (self e);
          p_health := round_ h 1;
          p_risk := risk_logic h;
          p_primary_issue :=
            if bool_decide (risk_logic h = NORMAL) then None
            else Some (contributors_of ranking);
          p_sensors :=
            List.map (fun fd => (fst fd,
                                 (round_ (get (fst fd) (frame_mean [reading])) 2,
                                  round_ (snd fd) 2)))
                     ranking;
          p_timestamp := now |})])%list.
Proof.
  intros Hh Hb ranking. subst ranking. unfold health_of in Hh.
  destruct e as [m fs con out]. simpl in *.
  destruct (model m) as [mdl|] eqn:Em; [|discriminate].
  destruct (scaler m) as [sc|] eqn:Es; [|discriminate].
  destruct (score_mapping m) as [mapping|] eqn:Ep; [|discriminate].
  destruct (decision_function sc mdl (frame_mean [reading])) as [raw|] eqn:Ed;
    [|discriminate].
  injection Hh as Hh.
  unfold handle_monitoring, map_health, analyze_sensor_contribution,
    bind, try_except, get_self, update_self, lookup_key, print, publish, ret.
  cbn [self]. rewrite Em.
  destruct (bool_decide (risk_logic h = NORMAL)) eqn:En;
    repeat (progress
      (cbn [negb fst snd self files console outbox
            set_sensor_buffer set_health_history set_last_risk
            sensor_buffer scaler model score_mapping baseline_stats
            health_history last_risk device_id];
       rewrite ?Es, ?deque_append_1, ?Ed, ?Ep, ?Hh, ?En, ?Hb));
    reflexivity.
Qed.

(** X18: the payload a scored reading publishes goes to the topic of its
    own device and carries that device id, the clock reading, the health
    rounded to one decimal, and one sensor entry for each feature.  Its
    primary issue is "NONE" exactly when the risk is NORMAL, and
    otherwise names at least one contributor. *)
Theorem payload_is_complete (e : Env) (now : Q) (reading : Row)
    (h : Q) (stats : Stats) :
  health_on (self e) reading = Some h ->
  baseline_stats (self e) = Some stats ->
  exists payload,
    outbox (snd (monitor now reading e)) =
      (outbox e ++ [(device_id (self e), payload)])%list /\
    p_device_id payload = device_id (self e) /\
    p_timestamp payload = now /\
    p_health payload = round_ h 1 /\
    Permutation (List.map fst (p_sensors payload)) FEATURES /\
    (p_primary_issue payload = None <-> risk_logic h = NORMAL) /\
    (risk_logic h <> NORMAL ->
       exists contributors,
         p_primary_issue payload = Some contributors /\ contributors <> []).
Proof.
  intros Hh Hb.
  pose proof (handle_monitoring_payload e now reading h stats Hh Hb) as Hp.
  cbv zeta in Hp. eexists. split; [exact Hp|].
  cbn [p_device_id p_timestamp p_health p_sensors p_primary_issue].
  destruct (sensor_contributions_ranked stats (frame_mean [reading]))
    as (Hperm & _ & _).
  split; [reflexivity|]. split; [reflexivity|]. split; [reflexivity|].
  split; [|split].
  - rewrite map_map. cbn [fst]. exact Hperm.
  - destruct (bool_decide (risk_logic h = NORMAL)) eqn:En.
    + apply bool_decide_eq_true_1 in En. split; auto.
    + apply bool_decide_eq_false_1 in En. split; [discriminate|contradiction].
  - intros Hrisk. rewrite bool_decide_eq_false_2 by exact Hrisk.
    eexists. split; [reflexivity|].
    apply contributors_of_cases.
    intros Hnil. rewrite Hnil in Hperm. cbn in Hperm.
    apply Permutation_nil in Hperm. discriminate.
Qed.

(** X19: the persistent-critical alert is not edge-triggered: a reading
    with health below 30 that follows at least two recorded values below
    50 raises the flag whatever the last risk was, so in a run of
    CRITICAL readings the flag is raised again on every reading from the
    third on. *)
Theorem critical_alert_repeats (e : Env) (now : Q) (reading : Row)
    (h : Q) (stats : Stats) (older : list Q) (h1 h2 : Q) :
  health_on (self e) reading = Some h ->
  baseline_stats (self e) = Some stats ->
  health_history (self e) = (older ++ [h1; h2])%list ->
  h1 < 50 -> h2 < 50 -> h < 30 ->
  fst (monitor now reading e) = Returned (Some true).
Proof.
  intros Hh Hb Hhist L1 L2 L.
  destruct (handle_monitoring_flag decision_function round_ e now reading h
              stats Hh Hb) as [F _].
  rewrite F. do 2 f_equal.
  unfold should_publish_mqtt.
  apply risk_logic_CRITICAL in L as Hc. rewrite Hc.
  assert (Hwin : deque_append 3 (health_history (self e)) h = [h1; h2; h]).
  { rewrite Hhist. unfold deque_append.
    rewrite <- app_assoc. cbn [app]. rewrite length_app. cbn [length].
    replace (length older + 3 - 3)%nat with (length older) by lia.
    apply drop_app_length. }
  rewrite Hwin.
  assert (P : is_persistent_crit [h1; h2; h] = true).
  { apply is_persistent_crit_spec. split; [reflexivity|].
    repeat constructor; lra. }
  rewrite P. reflexivity.
Qed.

(** X20: recovery is edge-triggered: for a reading classified NORMAL the
    flag is raised iff the last recorded risk was not NORMAL.  A new
    manager starts with NORMAL as its last risk, so the NORMAL readings
    of a healthy device never raise the flag. *)
Theorem recovery_edge_triggered (e : Env) (now : Q) (reading : Row)
    (h : Q) (stats : Stats) :
  health_on (self e) reading = Some h ->
  baseline_stats (self e) = Some stats ->
  risk_logic h = NORMAL ->
  (fst (monitor now reading e) = Returned (Some true) <->
   last_risk (self e) <> NORMAL) /\
  (fst (monitor now reading e) = Returned (Some false) <->
   last_risk (self e) = NORMAL) /\
  last_risk (self (snd (monitor now reading e))) = NORMAL /\
  last_risk (blank_manager (device_id (self e))) = NORMAL.
Proof.
  intros Hh Hb Hn.
  destruct (handle_monitoring_flag decision_function round_ e now reading h
              stats Hh Hb) as [F S].
  rewrite F, S. unfold should_publish_mqtt. rewrite Hn.
  split; [|split; [|split]].
  - destruct (last_risk (self e)); cbn; split; intros H;
      try reflexivity; try discriminate; try congruence.
  - destruct (last_risk (self e)); cbn; split; intros H;
      try reflexivity; try discriminate; try congruence.
  - cbn [scored last_risk set_last_risk]. exact Hn.
  - reflexivity.
Qed.

End Published.

Lemma payload_is_complete_witness :
  exists payload,
    outbox (snd (handle_monitoring Sample.decision_function Sample.round_
                   7 (Sample.row (-(1 # 5)))
                   (Sample.monitoring_env Sample.stats)))
      = [("esp32"%string, payload)] /\
    p_timestamp payload = 7.
Proof.
  destruct (payload_is_complete Sample.decision_function Sample.round_
              (Sample.monitoring_env Sample.stats) 7 (Sample.row (-(1 # 5)))
              _ Sample.stats eq_refl eq_refl)
    as (payload & Hout & _ & Hts & _).
  exists payload. split; [exact Hout|exact Hts].
Defined.

Lemma critical_alert_repeats_witness :
  fst (handle_monitoring Sample.decision_function Sample.round_
         8 (Sample.row (-(4 # 5)))
         {| self := set_last_risk CRITICAL
                      (set_health_history [10; 40; 20]
                         (Sample.monitoring_manager Sample.stats));
            files := no_files; console := []; outbox := [] |})
  = Returned (Some true).
Proof.
  refine (critical_alert_repeats Sample.decision_function Sample.round_
            {| self := set_last_risk CRITICAL
                         (set_health_history [10; 40; 20]
                            (Sample.monitoring_manager Sample.stats));
               files := no_files; console := []; outbox := [] |}
            8 (Sample.row (-(4 # 5))) _ Sample.stats [10] 40 20
            eq_refl eq_refl eq_refl _ _ _);
    vm_compute; reflexivity.
Defined.

Lemma recovery_edge_triggered_witness :
  fst (handle_monitoring Sample.decision_function Sample.round_
         8 (Sample.row (4 # 5))
         {| self := set_last_risk WARNING
                      (Sample.monitoring_manager Sample.stats);
            files := no_files; console := []; outbox := [] |})
  = Returned (Some true).
Proof.
  refine (proj2 (proj1 (recovery_edge_triggered
                   Sample.decision_function Sample.round_
                   {| self := set_last_risk WARNING
                                (Sample.monitoring_manager Sample.stats);
                      files := no_files; console := []; outbox := [] |}
                   8 (Sample.row (4 # 5)) _ Sample.stats
                   eq_refl eq_refl _)) _).
  - vm_compute. reflexivity.
  - discriminate.
Defined.

(** ** Who publishes *)

(** The computation hands nothing to the MQTT client. *)
Lemma quiet_bind {A B} (c : M A) (k : A -> M B) :
  (forall e, outbox (snd (c e)) = outbox e) ->
  (forall a e, outbox (snd (k a e)) = outbox e) ->
  forall e, outbox (snd (bind c k e)) = outbox e.
Proof.
  intros Hc Hk e. unfold bind. specialize (Hc e).
  destruct (c e) as [[a|] e1]; cbn [snd] in *; [rewrite Hk|]; exact Hc.
Qed.

Lemma quiet_try_except {A} (body handler : M A) :
  (forall e, outbox (snd (body e)) = outbox e) ->
  (forall e, outbox (snd (handler e)) = outbox e) ->
  forall e, outbox (snd (try_except body handler e)) = outbox e.
Proof.
  intros Hb Hh e. unfold try_except. specialize (Hb e).
  destruct (body e) as [[a|] e1]; cbn [snd] in *; [|rewrite Hh]; exact Hb.
Qed.

Ltac quiet_step :=
  first
    [ solve [eauto]
    | progress cbv zeta
    | match goal with
      | |- forall e, outbox (snd (bind _ _ e)) = outbox e =>
          apply quiet_bind; [|intros ?]
      | |- forall e, outbox (snd (try_except _ _ e)) = outbox e =>
          apply quiet_try_except
      | |- forall e, outbox (snd ((if ?b then _ else _) e)) = outbox e =>
          destruct b
      | |- forall e, outbox (snd ((match ?x with _ => _ end) e)) = outbox e =>
          destruct x
      | |- forall e, outbox (snd (_ e)) = outbox e =>
          intros ?; reflexivity
      end ].

Section Quiet.

Variable decision_function : Scaler -> Model -> Row -> option Q.
Variable score_percentiles : list Row -> Q * Q.
Variable frame_std : list Row -> Row.
Variable round_ : Q -> nat -> Q.

Local Abbreviation process :=
  (process_reading decision_function score_percentiles frame_std round_).
Local Abbreviation monitor := (handle_monitoring decision_function round_).

Lemma quiet_save_state (s : string) :
  forall e, outbox (snd (save_state s e)) = outbox e.
Proof. intros e. reflexivity. Qed.

Lemma quiet_load_artifacts : forall e, outbox (snd (load_artifacts e)) = outbox e.
Proof.
  pose proof quiet_save_state.
  unfold load_artifacts. repeat quiet_step.
  all: try (destruct (model_file _)); try (destruct (scaler_file _));
    try (destruct (calibration_file _)); intros; reflexivity.
Qed.

Lemma quiet_train_model (fault : option TrainFault) (df : DataFrame) :
  forall e, outbox (snd (train_model score_percentiles frame_std fault df e))
            = outbox e.
Proof.
  pose proof quiet_save_state.
  unfold train_model. repeat quiet_step.
  all: unfold raises_if, dump; intros;
    repeat match goal with
           | |- context [if ?b then _ else _] => destruct b
           | |- context [match ?x with _ => _ end] => destruct x
           end; reflexivity.
Qed.

Lemma quiet_handle_calibration (now : Q) (fault : option TrainFault) (r : Row) :
  forall e, outbox (snd (handle_calibration score_percentiles frame_std
                           now fault r e)) = outbox e.
Proof.
  pose proof quiet_save_state. pose proof quiet_load_artifacts.
  pose proof quiet_train_model.
  unfold handle_calibration. repeat quiet_step.
  unfold read_csv. repeat quiet_step.
  all: intros; unfold load;
    repeat match goal with
           | |- context [match ?x with _ => _ end] => destruct x
           end; reflexivity.
Qed.

(** X21: only the monitoring path publishes.  A reading of a device that
    is not in MONITORING -- the reading that completes the calibration
    included -- hands nothing to the MQTT client; in every state a
    reading publishes at most one payload, to the topic of its own
    device and carrying that device id. *)
Theorem only_monitoring_publishes (e : Env) (now : Q)
    (fault : option TrainFault) (reading : Reading) :
  let e' := snd (process now fault reading e) in
  (state (self e) <> "MONITORING"%string -> outbox e' = outbox e) /\
  (outbox e' = outbox e \/
   exists payload,
     outbox e' = (outbox e ++ [(device_id (self e), payload)])%list /\
     p_device_id payload = device_id (self e)).
Proof.
  intros e'.
  assert (Hnew : forall e0,
             outbox (snd ((bind (start_calibration now)
                             (fun _ => append_training_data
                                         (mapped_reading reading))) e0))
             = outbox e0) by (intros e0; reflexivity).
  assert (Hrun : e' =
            snd ((if String.eqb (state (self e)) "NEW" then
                    bind (start_calibration now)
                      (fun _ => append_training_data (mapped_reading reading))
                  else if String.eqb (state (self e)) "CALIBRATING" then
                    handle_calibration score_percentiles frame_std now fault
                      (mapped_reading reading)
                  else if String.eqb (state (self e)) "MONITORING" then
                    bind (monitor now (mapped_reading reading))
                      (fun _ => ret tt)
                  else ret tt) e)) by reflexivity.
  clearbody e'. subst e'.
  destruct (String.eqb (state (self e)) "NEW") eqn:E1.
  { rewrite Hnew. split; [reflexivity|left; reflexivity]. }
  destruct (String.eqb (state (self e)) "CALIBRATING") eqn:E2.
  { rewrite quiet_handle_calibration. split; [reflexivity|left; reflexivity]. }
  destruct (String.eqb (state (self e)) "MONITORING") eqn:E3;
    [|split; [reflexivity|left; reflexivity]].
  apply String.eqb_eq in E3. split; [intros H; contradiction|].
  unfold bind.
  destruct (health_of decision_function (self e) (mapped_reading reading))
    as [h|] eqn:Hh;
    [destruct (baseline_stats (self e)) as [stats|] eqn:Hb|].
  - right.
    pose proof (handle_monitoring_payload decision_function round_ e now
                  (mapped_reading reading) h stats Hh Hb) as Hp.
    cbv zeta in Hp.
    destruct (monitor now (mapped_reading reading) e) as [[o|] e1];
      cbn [snd] in *; eexists; (split; [exact Hp|reflexivity]).
  - left.
    destruct (handle_monitoring_unscored decision_function round_ e now
                (mapped_reading reading) (or_intror Hb)) as [_ Ho].
    destruct (monitor now (mapped_reading reading) e) as [[o|] e1];
      cbn [snd] in *; exact Ho.
  - left.
    destruct (handle_monitoring_unscored decision_function round_ e now
                (mapped_reading reading) (or_introl Hh)) as [_ Ho].
    destruct (monitor now (mapped_reading reading) e) as [[o|] e1];
      cbn [snd] in *; exact Ho.
Qed.

End Quiet.

(** ** The registry *)

Section Registry.

Variable decision_function : Scaler -> Model -> Row -> option Q.
Variable score_percentiles : list Row -> Q * Q.
Variable frame_std : list Row -> Row.
Variable round_ : Q -> nat -> Q.

Local Abbreviation process :=
  (process_reading decision_function score_percentiles frame_std round_).
Local Abbreviation item :=
  (run_item decision_function score_percentiles frame_std round_).

Lemma run_method_elsewhere {A} (id id' : string) (dm : DeviceManager)
    (c : M A) (sys : System) :
  id' <> id ->
  devices (snd (run_method id dm c sys)) !! id' = devices sys !! id' /\
  models_dir (snd (run_method id dm c sys)) !! id' = models_dir sys !! id'.
Proof.
  intros Hne. unfold run_method. cbn [snd devices models_dir].
  split; apply lookup_insert_ne; congruence.
Qed.

(** X22: an item of the data tree touches the manager and the files of
    its own device only: every other device of the registry, and its
    files in the models directory, are as they were. *)
Theorem other_devices_untouched (sys : System) (id id' : string)
    (value : TreeValue) (now : Q) (fault : option TrainFault) :
  id' <> id ->
  devices (item now fault sys id value) !! id' = devices sys !! id' /\
  models_dir (item now fault sys id value) !! id' = models_dir sys !! id'.
Proof.
  intros Hne. unfold run_item. destruct value as [|reading]; [split; reflexivity|].
  set (sys1 := match devices sys !! id with Some _ => sys | None => _ end).
  assert (H1 : devices sys1 !! id' = devices sys !! id' /\
               models_dir sys1 !! id' = models_dir sys !! id').
  { subst sys1. destruct (devices sys !! id); [split; reflexivity|].
    destruct (run_method_elsewhere id id' (blank_manager id) init
                {| devices := devices sys; models_dir := models_dir sys;
                   stdout := (stdout sys ++ [(id, NewDeviceDetected)])%list;
                   mqtt := mqtt sys |} Hne) as [Ha Hb].
    split; assumption. }
  destruct (negb (truthy (in_timestamp reading))); [exact H1|].
  destruct (devices sys1 !! id) as [dm|]; [|exact H1].
  destruct (bool_decide (last_processed_ts dm = in_timestamp reading));
    [exact H1|].
  destruct (run_method_elsewhere id id'
              (set_last_processed_ts (in_timestamp reading) dm)
              (process now fault reading) sys1 Hne) as [Ha Hb].
  destruct H1 as [H1 H2]. split; congruence.
Qed.

(** X23: items that cannot be used are skipped: a value that is not a
    dictionary leaves the system as it is, and so does a reading without
    a timestamp (missing or empty) once its device is registered; for a
    device not yet registered such a reading still constructs the
    manager, and processes nothing. *)
Theorem unusable_items_are_skipped (sys : System) (id : string)
    (reading : Reading) (now : Q) (fault : option TrainFault) :
  item now fault sys id NotADict = sys /\
  (truthy (in_timestamp reading) = false ->
     (forall dm, devices sys !! id = Some dm ->
        item now fault sys id (Dict reading) = sys) /\
     (devices sys !! id = None ->
        item now fault sys id (Dict reading) =
          snd (run_method id (blank_manager id) init
                 {| devices := devices sys; models_dir := models_dir sys;
                    stdout := (stdout sys ++ [(id, NewDeviceDetected)])%list;
                    mqtt := mqtt sys |}))).
Proof.
  split; [reflexivity|]. intros Hts. split.
  - intros dm Hdm. unfold run_item. rewrite Hdm, Hts. reflexivity.
  - intros Hnone. unfold run_item. rewrite Hnone, Hts. reflexivity.
Qed.

(** X24: only the last timestamp is remembered.  After a reading with
    timestamp A and one with a different timestamp B, a reading carrying
    A again is not dropped: it reaches [process_reading] like a new one. *)
Theorem replayed_timestamp_is_processed (sys : System) (id : string)
    (rA rB rA' : Reading) (n1 n2 n3 : Q) (f1 f2 f3 : option TrainFault) :
  truthy (in_timestamp rA) = true ->
  truthy (in_timestamp rB) = true ->
  in_timestamp rB <> in_timestamp rA ->
  in_timestamp rA' = in_timestamp rA ->
  let sys2 := item n2 f2 (item n1 f1 sys id (Dict rA)) id (Dict rB) in
  exists dm2,
    devices sys2 !! id = Some dm2 /\
    last_processed_ts dm2 = in_timestamp rB /\
    item n3 f3 sys2 id (Dict rA') =
      snd (run_method id (set_last_processed_ts (in_timestamp rA) dm2)
             (process n3 f3 rA') sys2).
Proof.
  intros HA HB Hne Hsame sys2.
  destruct (run_item_records_timestamp decision_function score_percentiles
              frame_std round_ n2 f2 (item n1 f1 sys id (Dict rA)) id rB HB)
    as (dm2 & Hdm2 & Hts2).
  fold sys2 in Hdm2. exists dm2. split; [exact Hdm2|]. split; [exact Hts2|].
  unfold run_item at 1. rewrite Hdm2, Hsame, HA. cbn [negb]. rewrite Hdm2.
  rewrite bool_decide_eq_false_2 by congruence. reflexivity.
Qed.

End Registry.

Lemma other_devices_untouched_witness :
  let sys1 := run_item Sample.decision_function Sample.score_percentiles
                Sample.frame_std Sample.round_ 1000 None
                Sample.empty_system "esp32" (Dict (Sample.reading 0 "t1")) in
  devices (run_item Sample.decision_function Sample.score_percentiles
             Sample.frame_std Sample.round_ 1002 None sys1 "pump7"
             (Dict (Sample.reading 1 "t1"))) !! "esp32"%string
  = devices sys1 !! "esp32"%string.
Proof.
  intros sys1.
  refine (proj1 (other_devices_untouched
                   Sample.decision_function Sample.score_percentiles
                   Sample.frame_std Sample.round_ sys1 "pump7" "esp32"
                   (Dict (Sample.reading 1 "t1")) 1002 None _)).
  discriminate.
Defined.

Lemma replayed_timestamp_is_processed_witness :
  let sys2 := run_arrivals Sample.decision_function Sample.score_percentiles
                Sample.frame_std Sample.round_ Sample.empty_system
                [ {| a_now := 1000; a_fault := None; a_device := "esp32";
                     a_value := Dict (Sample.reading 0 "A") |};
                  {| a_now := 1002; a_fault := None; a_device := "esp32";
                     a_value := Dict (Sample.reading 0 "B") |} ] in
  exists dm2,
    devices sys2 !! "esp32"%string = Some dm2 /\
    last_processed_ts dm2 = Some "B"%string /\
    run_item Sample.decision_function Sample.score_percentiles
      Sample.frame_std Sample.round_ 1004 None sys2 "esp32"
      (Dict (Sample.reading 0 "A")) =
    snd (run_method "esp32" (set_last_processed_ts (Some "A"%string) dm2)
           (process_reading Sample.decision_function Sample.score_percentiles
              Sample.frame_std Sample.round_ 1004 None (Sample.reading 0 "A"))
           sys2).
Proof.
  assert (Hne : in_timestamp (Sample.reading 0 "B")
                <> in_timestamp (Sample.reading 0 "A")) by discriminate.
  exact (replayed_timestamp_is_processed
           Sample.decision_function Sample.score_percentiles
           Sample.frame_std Sample.round_ Sample.empty_system "esp32"
           (Sample.reading 0 "A") (Sample.reading 0 "B")
           (Sample.reading 0 "A") 1000 1002 1004 None None None
           eq_refl eq_refl Hne eq_refl).
Defined.

Lemma only_monitoring_publishes_witness :
  let e := Sample.calibrating_env
             (Sample.trained_files (Good (Some "CALIBRATING"%string))) in
  outbox (snd (process_reading Sample.decision_function
                 Sample.score_percentiles Sample.frame_std Sample.round_
                 1400 None (Sample.reading 0 "t3") e))
  = outbox e.
Proof.
  intros e.
  refine (proj1 (only_monitoring_publishes
                   Sample.decision_function Sample.score_percentiles
                   Sample.frame_std Sample.round_ e 1400 None
                   (Sample.reading 0 "t3")) _).
  discriminate.
Defined.

Lemma unusable_items_are_skipped_witness :
  let sys1 := run_item Sample.decision_function Sample.score_percentiles
                Sample.frame_std Sample.round_ 1000 None
                Sample.empty_system "esp32" (Dict (Sample.reading 0 "t1")) in
  run_item Sample.decision_function Sample.score_percentiles
    Sample.frame_std Sample.round_ 1002 None sys1 "esp32"
    (Dict (Sample.reading 1 "")) = sys1.
Proof.
  intros sys1.
  destruct (run_item_records_timestamp
              Sample.decision_function Sample.score_percentiles
              Sample.frame_std Sample.round_ 1000 None
              Sample.empty_system "esp32" (Sample.reading 0 "t1") eq_refl)
    as (dm & Hdm & _).
  exact (proj1 (proj2 (unusable_items_are_skipped
                         Sample.decision_function Sample.score_percentiles
                         Sample.frame_std Sample.round_ sys1 "esp32"
                         (Sample.reading 1 "") 1002 None) eq_refl)
               dm Hdm).
Defined.

(** ** [firebase_monitor.py] *)

Lemma int32_floor (x : Q) : 0 <= x -> FirebaseMonitor.int32 x = Qfloor x.
Proof.
  intros Hx. destruct x as [n d]. unfold FirebaseMonitor.int32, Qfloor.
  cbn [Qnum Qden]. apply Z.quot_div_nonneg; [|lia].
  unfold Qle in Hx. cbn in Hx. lia.
Qed.

Lemma clip_cases (x lo hi : Q) :
  lo <= hi ->
  (x <= lo /\ FirebaseMonitor.clip x lo hi == lo) \/
  (lo <= x <= hi /\ FirebaseMonitor.clip x lo hi == x) \/
  (hi <= x /\ FirebaseMonitor.clip x lo hi == hi).
Proof.
  intros Hlh. unfold FirebaseMonitor.clip.
  destruct (Qlt_bool x lo) eqn:E1; reflect_cmp.
  - destruct (Qlt_bool hi lo) eqn:E2; reflect_cmp; [lra|].
    left. split; [lra|reflexivity].
  - destruct (Qlt_bool hi x) eqn:E2; reflect_cmp.
    + right. right. split; [lra|reflexivity].
    + right. left. split; [lra|reflexivity].
Qed.

Lemma clamped_percentage_value (s : Q) :
  (s <= -(1 # 2) /\ FirebaseMonitor.clamped_percentage s == 0) \/
  (-(1 # 2) <= s <= 1 # 5 /\
   FirebaseMonitor.clamped_percentage s == (s + (1 # 2)) * (1000 # 7)) \/
  (1 # 5 <= s /\ FirebaseMonitor.clamped_percentage s == 100).
Proof.
  unfold FirebaseMonitor.clamped_percentage. cbv zeta.
  set (c := FirebaseMonitor.clip s (-(1 # 2)) (1 # 5)).
  assert (Hv : (c - -(1 # 2)) / ((1 # 5) - -(1 # 2)) * 100
               == (c + (1 # 2)) * (1000 # 7)) by (field).
  set (hp := (c - -(1 # 2)) / ((1 # 5) - -(1 # 2)) * 100) in *.
  assert (Hlh : -(1 # 2) <= 1 # 5) by lra.
  assert (Hm : 0 <= hp -> hp <= 100 ->
               FirebaseMonitor.py_max 0 (FirebaseMonitor.py_min 100 hp) == hp).
  { intros H0 H100. unfold FirebaseMonitor.py_max, FirebaseMonitor.py_min.
    destruct (Qlt_bool hp 100) eqn:E1; reflect_cmp.
    - destruct (Qlt_bool 0 hp) eqn:E2; reflect_cmp; lra.
    - destruct (Qlt_bool 0 100) eqn:E2; reflect_cmp; lra. }
  destruct (clip_cases s (-(1 # 2)) (1 # 5) Hlh) as [[H1 H2]|[[H1 H2]|[H1 H2]]];
    fold c in H2.
  - left. split; [exact H1|]. rewrite Hm; rewrite Hv, H2; lra.
  - right. left. split; [exact H1|]. rewrite Hm; rewrite Hv, H2; lra.
  - right. right. split; [exact H1|]. rewrite Hm; rewrite Hv, H2; lra.
Qed.

(** X25: [calculate_health_score] is an integer percentage between 0 and
    100, non-decreasing in the anomaly score, 0 for every score at or
    below -0.5 and 100 for every score at or above 0.2. *)
Theorem calculate_health_score_clamps (s1 s2 : Q) :
  (0 <= FirebaseMonitor.calculate_health_score s1 <= 100)%Z /\
  (s1 <= -(1 # 2) -> FirebaseMonitor.calculate_health_score s1 = 0%Z) /\
  (1 # 5 <= s1 -> FirebaseMonitor.calculate_health_score s1 = 100%Z) /\
  (s1 <= s2 ->
   (FirebaseMonitor.calculate_health_score s1
    <= FirebaseMonitor.calculate_health_score s2)%Z).
Proof.
  assert (Hrange : forall s, 0 <= FirebaseMonitor.clamped_percentage s <= 100).
  { intros s.
    destruct (clamped_percentage_value s) as [[H1 H2]|[[H1 H2]|[H1 H2]]];
      rewrite H2; lra. }
  assert (Hcalc : forall s, FirebaseMonitor.calculate_health_score s
                            = Qfloor (FirebaseMonitor.clamped_percentage s)).
  { intros s. apply int32_floor. apply Hrange. }
  rewrite !Hcalc.
  split; [|split; [|split]].
  - destruct (Hrange s1) as [H0 H100].
    split.
    + change 0%Z with (Qfloor 0). apply Qfloor_resp_le. exact H0.
    + change 100%Z with (Qfloor 100). apply Qfloor_resp_le. exact H100.
  - intros Hs.
    destruct (clamped_percentage_value s1) as [[H1 H2]|[[H1 H2]|[H1 H2]]];
      try (exfalso; lra).
    + rewrite H2. reflexivity.
    + rewrite H2.
      assert (Hz : (s1 + (1 # 2)) * (1000 # 7) == 0) by lra.
      rewrite Hz. reflexivity.
  - intros Hs.
    destruct (clamped_percentage_value s1) as [[H1 H2]|[[H1 H2]|[H1 H2]]];
      try (exfalso; lra).
    + rewrite H2.
      assert (Hz : (s1 + (1 # 2)) * (1000 # 7) == 100) by lra.
      rewrite Hz. reflexivity.
    + rewrite H2. reflexivity.
  - intros Hle. apply Qfloor_resp_le.
    destruct (clamped_percentage_value s1) as [[A1 A2]|[[A1 A2]|[A1 A2]]];
      destruct (clamped_percentage_value s2) as [[B1 B2]|[[B1 B2]|[B1 B2]]];
      rewrite A2, B2; lra.
Qed.

(** In a ranking, no deviation exceeds the first one. *)
Lemma descending_head_is_largest (top : Feature * Q) (l : list (Feature * Q)) :
  descending (top :: l) -> Forall (fun fd => snd fd <= snd top) l.
Proof.
  unfold descending. intros Hs.
  apply Sorted_StronglySorted in Hs.
  - inversion Hs; subst. assumption.
  - intros x y z Hxy Hyz. lra.
Qed.

(** X26: the two alert texts disagree on the threshold (2.0 in
    [machine_guard_core.py], 1.5 in [firebase_monitor.py]) but not on
    who is named: on a ranking, every contributor the core names is also
    named by [firebase_monitor.py], and both name the top factor when
    no deviation exceeds their threshold. *)
Theorem core_contributors_among_firebase (top_factors : list (Feature * Q)) :
  descending top_factors ->
  (forall fd, In fd (contributors_of top_factors) ->
              In fd (FirebaseMonitor.contributors_of top_factors)) /\
  (Forall (fun fd => snd fd <= 3 # 2) top_factors ->
     contributors_of top_factors = List.firstn 1 top_factors /\
     FirebaseMonitor.contributors_of top_factors = List.firstn 1 top_factors).
Proof.
  intros Hdesc. split.
  - intros fd Hin.
    unfold FirebaseMonitor.contributors_of.
    destruct (List.filter (fun fd => Qlt_bool (3 # 2) (snd fd)) top_factors)
      as [|c cs] eqn:E15.
    + (* nothing above 1.5, hence nothing above 2 *)
      assert (E2 : List.filter (fun fd => Qlt_bool 2 (snd fd)) top_factors = []).
      { destruct (List.filter (fun fd => Qlt_bool 2 (snd fd)) top_factors)
          as [|d ds] eqn:E2; [reflexivity|].
        assert (Hd : In d (List.filter (fun fd => Qlt_bool 2 (snd fd)) top_factors))
          by (rewrite E2; left; reflexivity).
        apply filter_In in Hd. destruct Hd as [Hd1 Hd2].
        assert (Hd' : In d (List.filter (fun fd => Qlt_bool (3 # 2) (snd fd))
                              top_factors)).
        { apply filter_In. split; [exact Hd1|].
          apply Qlt_bool_iff. apply Qlt_bool_iff in Hd2. lra. }
        rewrite E15 in Hd'. contradiction. }
      unfold contributors_of in Hin. rewrite E2 in Hin. exact Hin.
    + rewrite <- E15. apply filter_In.
      unfold contributors_of in Hin.
      destruct (List.filter (fun fd => Qlt_bool 2 (snd fd)) top_factors)
        as [|d ds] eqn:E2.
      * destruct top_factors as [|top rest]; [contradiction|].
        destruct Hin as [<-|[]]. split; [left; reflexivity|].
        assert (Hc : In c (List.filter (fun fd => Qlt_bool (3 # 2) (snd fd))
                             (top :: rest)))
          by (rewrite E15; left; reflexivity).
        apply filter_In in Hc. destruct Hc as [Hc1 Hc2].
        apply Qlt_bool_iff. apply Qlt_bool_iff in Hc2.
        destruct Hc1 as [<-|Hc1]; [exact Hc2|].
        pose proof (descending_head_is_largest top rest Hdesc) as Hall.
        rewrite List.Forall_forall in Hall. specialize (Hall c Hc1). lra.
      * rewrite <- E2 in Hin. apply filter_In in Hin. destruct Hin as [H1 H2].
        split; [exact H1|].
        apply Qlt_bool_iff. apply Qlt_bool_iff in H2. lra.
  - intros Hlow.
    assert (E15 : List.filter (fun fd => Qlt_bool (3 # 2) (snd fd)) top_factors = []).
    { clear Hdesc. induction top_factors as [|x l IH]; [reflexivity|].
      inversion Hlow; subst. cbn [List.filter].
      destruct (Qlt_bool (3 # 2) (snd x)) eqn:E; reflect_cmp; [lra|].
      apply IH. assumption. }
    assert (E2 : List.filter (fun fd => Qlt_bool 2 (snd fd)) top_factors = []).
    { clear Hdesc E15. induction top_factors as [|x l IH]; [reflexivity|].
      inversion Hlow; subst. cbn [List.filter].
      destruct (Qlt_bool 2 (snd x)) eqn:E; reflect_cmp; [lra|].
      apply IH. assumption. }
    unfold contributors_of, FirebaseMonitor.contributors_of.
    rewrite E15, E2. destruct top_factors; split; reflexivity.
Qed.

Lemma core_contributors_among_firebase_witness :
  descending [(gas, 5 # 2); (temperature, 17 # 10); (current, 0)] /\
  contributors_of [(gas, 5 # 2); (temperature, 17 # 10); (current, 0)]
    = [(gas, 5 # 2)] /\
  FirebaseMonitor.contributors_of
    [(gas, 5 # 2); (temperature, 17 # 10); (current, 0)]
    = [(gas, 5 # 2); (temperature, 17 # 10)] /\
  ((forall fd,
      In fd (contributors_of
               [(gas, 5 # 2); (temperature, 17 # 10); (current, 0)]) ->
      In fd (FirebaseMonitor.contributors_of
               [(gas, 5 # 2); (temperature, 17 # 10); (current, 0)])) /\
   (Forall (fun fd => snd fd <= 3 # 2)
           [(gas, 5 # 2); (temperature, 17 # 10); (current, 0)] ->
    contributors_of [(gas, 5 # 2); (temperature, 17 # 10); (current, 0)]
      = List.firstn 1 [(gas, 5 # 2); (temperature, 17 # 10); (current, 0)] /\
    FirebaseMonitor.contributors_of
      [(gas, 5 # 2); (temperature, 17 # 10); (current, 0)]
      = List.firstn 1 [(gas, 5 # 2); (temperature, 17 # 10); (current, 0)])).
Proof.
  assert (Hdesc : descending
            [(gas, 5 # 2); (temperature, 17 # 10); (current, 0)]).
  { unfold descending. repeat constructor; cbn; lra. }
  split; [exact Hdesc|].
  split; [reflexivity|].
  split; [reflexivity|].
  exact (core_contributors_among_firebase
           [(gas, 5 # 2); (temperature, 17 # 10); (current, 0)] Hdesc).
Defined.

(** ** [monitor.py] *)

(** With the default ends of the value list, the interpolation with
    explicit [left] and [right] is the plain one. *)
Lemma interp_left_right_default (x : Q) (xp fp : list Q) :
  Monitor.interp_left_right x xp fp (List.hd 0 fp) (List.last fp 0)
  = Numpy.interp x xp fp.
Proof. reflexivity. Qed.







Lemma simulation_loop_from (samples : list (Q * list (Feature * Q))) :
  forall i,
    Forall (fun s => snd s <> []) samples ->
    snd (Monitor.simulation_loop i samples) = true /\
    List.map Monitor.line_time (fst (Monitor.simulation_loop i samples))
      = List.filter (fun t => (t mod 25 =? 0)%nat) (List.seq i (length samples)) /\
    Forall Monitor.line_fits (fst (Monitor.simulation_loop i samples)).
Proof.
  induction samples as [|[h tf] rest IH]; intros i Hne.
  - repeat split. constructor.
  - inversion Hne as [|? ? Htf Hrest]; subst. cbn [snd] in Htf.
    destruct (IH (S i) Hrest) as (IH1 & IH2 & IH3).
    cbn [Monitor.simulation_loop length List.seq List.filter].
    destruct (i mod 25 =? 0)%nat; [|repeat split; assumption].
    destruct (bool_decide (classify_risk h = NORMAL)) eqn:En; cbn [negb].
    + apply bool_decide_eq_true_1 in En.
      cbn [fst snd List.map Monitor.line_time]. rewrite IH2.
      repeat split; [exact IH1|]. constructor; [exact En|exact IH3].
    + apply bool_decide_eq_false_1 in En.
      unfold Monitor.generate_alert.
      rewrite bool_decide_eq_false_2 by exact En.
      destruct tf as [|[cause dev] tf']; [contradiction|].
      cbn [fst snd List.map Monitor.line_time]. rewrite IH2.
      repeat split; [exact IH1|].
      constructor; [split; [reflexivity|exact En]|exact IH3].
Qed.

(** X28: the simulation loop of [monitor_system] reports every 25th
    sample and no other, in order, starting with sample 0; when every
    sample has a ranked factor the loop runs to the end, and each line
    fits its sample: "Running Optimal" for a NORMAL health, otherwise an
    alert whose risk is [classify_risk] of the health. *)
Theorem simulation_reports_every_25th (samples : list (Q * list (Feature * Q))) :
  Forall (fun s => snd s <> []) samples ->
  let r := Monitor.simulation_loop 0 samples in
  snd r = true /\
  List.map Monitor.line_time (fst r)
    = List.filter (fun t => (t mod 25 =? 0)%nat) (List.seq 0 (length samples)) /\
  Forall Monitor.line_fits (fst r).
Proof.
  intros Hne. apply simulation_loop_from. exact Hne.
Qed.

Lemma simulation_reports_every_25th_witness :
  List.map Monitor.line_time
    (fst (Monitor.simulation_loop 0
            (List.repeat (90, [(gas, 1)]) 26 ++ [(40, [(gas, 3)])])))
  = [0%nat; 25%nat].
Proof.
  refine (proj1 (proj2 (simulation_reports_every_25th
                          (List.repeat (90, [(gas, 1)]) 26 ++ [(40, [(gas, 3)])])
                          _))).
  apply List.Forall_forall. intros s Hin. apply in_app_or in Hin.
  destruct Hin as [Hin|[<-|[]]]; [apply List.repeat_spec in Hin; subst s|];
    discriminate.
Defined.

Lemma calculate_health_score_clamps_witness :
  FirebaseMonitor.calculate_health_score (-1) = 0%Z /\
  FirebaseMonitor.calculate_health_score (1 # 2) = 100%Z.
Proof.
  assert (H1 : -1 <= -(1 # 2)) by lra.
  assert (H2 : 1 # 5 <= 1 # 2) by lra.
  split.
  - exact (proj1 (proj2 (calculate_health_score_clamps (-1) 0)) H1).
  - exact (proj1 (proj2 (proj2 (calculate_health_score_clamps (1 # 2) 0))) H2).
Defined.
